(** * Viban: the board engine, its stores and the project registry

    A shallow embedding of [src/board/types.ts], [src/config/config.ts],
    [src/config/global-config.ts], [src/board/storage.ts] and
    [src/board/board.ts], and of their callers in [src/mcp-server.ts],
    [src/web-server.ts] and [src/index.ts].

    Every function of the source reads and writes files, so each is embedded
    as a computation over an explicit state (the files, the system clock and
    the uuid generator) that either returns a value or throws.  A file is
    recorded by what the parser of its format ([JSON.parse], [yaml.parse])
    makes of its text; [JSON.stringify] and [yaml.stringify] are recorded by
    the value their output parses back to.

    Values have the types the source declares.  Where the source itself
    reaches past a declared type the embedding follows it: the column
    [moveTask] checks at run time is a string; the elements of a task file's
    array are left open, since [loadTasks] does not look at them; an update
    is the object that arrives, with whatever keys of a task it carries,
    since [updateTask] spreads it without a check; a key that is optional in
    an update is absent or present, since the spread tells the two apart; and
    a field that a merge can leave [undefined] is optional. *)

From Stdlib Require Import Ascii String ZArith List Lia.
From stdpp Require Import base option list gmap strings.

Set Warnings "-register-all".

(** ** The JavaScript runtime the source relies on *)

Inductive ErrorClass := Error | SyntaxError | YAMLParseError | SystemError.

Record Exception := mkException { class : ErrorClass; message : string }.

(** [new Error(msg)] *)
Definition new_Error (msg : string) : Exception :=
  {| class := Error; message := msg |}.

(** [error instanceof SyntaxError] *)
Definition instanceof_SyntaxError (e : Exception) : bool :=
  match class e with SyntaxError => true | _ => false end.

Inductive Outcome (A : Type) : Type :=
| Return (a : A)
| Throw (e : Exception).
Arguments Return {A} a.
Arguments Throw {A} e.

(** A computation over a state [S]: the state it leaves is kept when it
    throws, as a JavaScript exception undoes no write. *)
Definition M (S A : Type) : Type := S -> Outcome A * S.

#[global] Instance M_ret {S} : MRet (M S) :=
  fun A (a : A) s => (Return a, s).

#[global] Instance M_bind {S} : MBind (M S) :=
  fun A B (k : A -> M S B) (m : M S A) s =>
    match m s with
    | (Return a, s') => k a s'
    | (Throw e, s') => (Throw e, s')
    end.

Definition throw {S A} (e : Exception) : M S A := fun s => (Throw e, s).

(** [try { body } catch (error) { handler }] *)
Definition try_catch {S A} (body : M S A) (handler : Exception -> M S A) : M S A :=
  fun s =>
    match body s with
    | (Return a, s') => (Return a, s')
    | (Throw e, s') => handler e s'
    end.

Definition gets {S A} (f : S -> A) : M S A := fun s => (Return (f s), s).
Definition modify {S} (f : S -> S) : M S unit := fun s => (Return tt, f s).

(** [Array.prototype.findIndex]: the first index whose element satisfies
    [p], or -1. *)
Fixpoint findIndex {A} (p : A -> bool) (l : list A) : Z :=
  match l with
  | [] => (-1)%Z
  | x :: l' =>
      if p x then 0%Z
      else let i := findIndex p l' in
           if (i =? -1)%Z then (-1)%Z else (i + 1)%Z
  end.

(** [Array.prototype.indexOf] on strings (strict equality). *)
Definition indexOf (l : list string) (x : string) : Z :=
  findIndex (String.eqb x) l.

(** [l.splice(index, 1)] for a non-negative [index]. *)
Definition splice1 {A} (l : list A) (index : Z) : list A :=
  delete (Z.to_nat index) l.

(** [l.slice(0, n)] *)
Definition slice0 {A} (l : list A) (n : nat) : list A := take n l.

(** [l.join(sep)] *)
Definition join (sep : string) (l : list string) : string := String.concat sep l.

(** [path.join(dir, name)], as node defines it for POSIX paths: the
    arguments that are not empty are joined by a slash and the result is
    normalised.  Normalising drops the empty segments and the segments [.],
    lets a segment [..] take back the segment before it, and keeps a leading
    and a trailing slash. *)

(** The segments of a path: what stands between its slashes. *)
Fixpoint segments (path : string) : list string :=
  match path with
  | EmptyString => [EmptyString]
  | String a rest =>
      if Ascii.eqb a "/"%char then EmptyString :: segments rest
      else match segments rest with
           | segment :: others => String a segment :: others
           | [] => [String a EmptyString]
           end
  end.

(** One step of [normalizeString]: [kept] holds the segments of the result
    so far, the last one first. *)
Definition normalize_segment (allowAboveRoot : bool) (kept : list string) (segment : string)
  : list string :=
  if String.eqb segment "" || String.eqb segment "." then kept
  else if String.eqb segment ".." then
    match kept with
    | last :: before =>
        if String.eqb last ".." then (if allowAboveRoot then ".." :: kept else kept)
        else before
    | [] => if allowAboveRoot then [".."] else []
    end
  else segment :: kept.

Definition normalizeString (path : string) (allowAboveRoot : bool) : string :=
  join "/" (rev (fold_left (normalize_segment allowAboveRoot) (segments path) [])).

Definition starts_with_slash (path : string) : bool :=
  match path with
  | String a _ => Ascii.eqb a "/"%char
  | EmptyString => false
  end.

Fixpoint ends_with_slash (path : string) : bool :=
  match path with
  | EmptyString => false
  | String a EmptyString => Ascii.eqb a "/"%char
  | String _ rest => ends_with_slash rest
  end.

(** [path.normalize(path)] *)
Definition path_normalize (path : string) : string :=
  if String.eqb path "" then "."
  else
    let isAbsolute := starts_with_slash path in
    let trailingSeparator := ends_with_slash path in
    let normalized := normalizeString path (negb isAbsolute) in
    if String.eqb normalized "" then
      if isAbsolute then "/" else if trailingSeparator then "./" else "."
    else
      let normalized := if trailingSeparator then normalized +:+ "/" else normalized in
      if isAbsolute then "/" +:+ normalized else normalized.

Definition path_join (dir name : string) : string :=
  let joined :=
    if String.eqb dir "" then name
    else if String.eqb name "" then dir
    else dir +:+ "/" +:+ name in
  if String.eqb joined "" then "." else path_normalize joined.
Arguments path_join : simpl never.

(** A key that the type of an object marks optional: it is absent, or
    present with a value, and that value may be [undefined] ([None]).  The
    object literal [{ title, description }] has both keys even when the
    variables hold [undefined].  Reading an absent key gives [undefined] too,
    but spreading an object copies every key that is present, whatever it
    holds. *)
Inductive Key (A : Type) : Type :=
| Absent
| Present (value : option A).
Arguments Absent {A}.
Arguments Present {A} value.

(** [{ ...{ key: old }, ...{ key } }.key] *)
Definition overlay {A} (old : option A) (key : Key A) : option A :=
  match key with
  | Absent => old
  | Present value => value
  end.

(** ** [types.ts] *)

Inductive ColumnType := backlog | todo | review | done.

(** The string a column is at run time. *)
Definition column_name (c : ColumnType) : string :=
  match c with
  | backlog => "backlog"
  | todo => "todo"
  | review => "review"
  | done => "done"
  end.

Definition COLUMNS : list ColumnType := [backlog; todo; review; done].

Inductive Priority := low | medium | high.

#[global] Instance ColumnType_eq_dec : EqDecision ColumnType.
Proof. solve_decision. Defined.

#[global] Instance Priority_eq_dec : EqDecision Priority.
Proof. solve_decision. Defined.

(** [interface Task].  [title] and [priority] are declared non-optional;
    they are optional here, as [description] is, because these are the three
    fields an update can overwrite with [undefined] (see [Key]). *)
Module Task.
Record t := mk {
  id : string;
  title : option string;
  description : option string;
  column : ColumnType;
  priority : option Priority;
  createdAt : string;
  updatedAt : string;
}.
End Task.

(** [Partial<Task>]: an object with any of the keys of a task.  The keys an
    [UpdateTaskInput] has are absent or present (see [Key]); the other keys
    are absent or carry a value, as they do in the objects the board engine
    builds and in a request body, which is parsed from JSON. *)
Module PartialTask.
Record t := mk {
  id : option string;
  title : Key string;
  description : Key string;
  column : option ColumnType;
  priority : Key Priority;
  createdAt : option string;
  updatedAt : option string;
}.
End PartialTask.

(** [createdAt] is declared a string; it is optional here because
    [loadConfig] returns the stored mapping's value, which may be missing. *)
Module BoardConfig.
Record t := mk {
  boardName : string;
  tasksFile : string;
  createdAt : option string;
}.
End BoardConfig.

(** [createTask] only reads the keys of its input, so for an optional key
    what matters is the value read: [None] is [undefined], the key absent or
    not. *)
Module CreateTaskInput.
Record t := mk {
  title : string;
  description : option string;
  column : option ColumnType;
  priority : option Priority;
}.
End CreateTaskInput.

Module UpdateTaskInput.
Record t := mk {
  title : Key string;
  description : Key string;
  priority : Key Priority;
}.
End UpdateTaskInput.

(** ** Files *)

(** What [yaml.parse] makes of a file holding a mapping with keys of [A].
    A document that parses to a scalar or to a sequence is not
    represented. *)
Inductive YamlFile (A : Type) : Type :=
| YamlInvalid (why : string)     (* yaml.parse throws *)
| YamlNull                       (* an empty document: yaml.parse returns null *)
| YamlMapping (m : A).           (* yaml.parse returns the mapping m *)
Arguments YamlInvalid {A} why.
Arguments YamlNull {A}.
Arguments YamlMapping {A} m.

(** What [JSON.parse] returns, as far as [Array.isArray] tells. *)
Inductive JsonValue (E : Type) : Type :=
| JsonArray (elems : list E)
| JsonOther.
Arguments JsonArray {E} elems.
Arguments JsonOther {E}.

(** What [JSON.parse] makes of a file. *)
Inductive JsonFile (E : Type) : Type :=
| JsonInvalid (why : string)     (* JSON.parse throws SyntaxError(why) *)
| JsonText (v : JsonValue E).    (* JSON.parse returns v *)
Arguments JsonInvalid {E} why.
Arguments JsonText {E} v.

(** The stored config document: a mapping in which a key may be missing. *)
Module StoredConfig.
Record t := mk {
  boardName : option string;
  tasksFile : option string;
  createdAt : option string;
}.
End StoredConfig.

(** The state every board operation runs in.  Config files and task files
    are kept apart, keyed by path: the state describes the runs in which no
    path serves as both, and a statement about a write to a task path says
    so where it depends on it.  [E] is the type of the elements of a task
    file's array: the storage functions never look inside them.  Directories
    are not part of the state. *)
Record World (E : Type) : Type := mkWorld {
  configFiles : gmap string (YamlFile StoredConfig.t);
  tasksFiles : gmap string (JsonFile E);
  clock : nat -> string;      (* the readings of the system clock, in order *)
  clockReads : nat;           (* how many have been read *)
  uuids : nat -> string;      (* the values uuidv4() returns, in order *)
  uuidsDrawn : nat;           (* how many have been drawn *)
}.
Arguments mkWorld {E}.
Arguments configFiles {E}.
Arguments tasksFiles {E}.
Arguments clock {E}.
Arguments clockReads {E}.
Arguments uuids {E}.
Arguments uuidsDrawn {E}.

Section Primitives.
Context {E : Type}.

Definition set_configFiles (f : gmap string (YamlFile StoredConfig.t)) (w : World E) : World E :=
  mkWorld f (tasksFiles w) (clock w) (clockReads w) (uuids w) (uuidsDrawn w).

Definition set_tasksFiles (f : gmap string (JsonFile E)) (w : World E) : World E :=
  mkWorld (configFiles w) f (clock w) (clockReads w) (uuids w) (uuidsDrawn w).

(** [new Date().toISOString()] *)
Definition Date_toISOString : M (World E) string :=
  fun w => (Return (clock w (clockReads w)),
            mkWorld (configFiles w) (tasksFiles w) (clock w) (S (clockReads w))
                    (uuids w) (uuidsDrawn w)).

(** [uuidv4()] *)
Definition uuidv4 : M (World E) string :=
  fun w => (Return (uuids w (uuidsDrawn w)),
            mkWorld (configFiles w) (tasksFiles w) (clock w) (clockReads w)
                    (uuids w) (S (uuidsDrawn w))).

Definition ENOENT {A} (p : string) : M (World E) A :=
  throw {| class := SystemError; message := "ENOENT: no such file or directory: " +:+ p |}.

(** [fs.existsSync], [fs.readFileSync] and [fs.writeFileSync] on config files *)
Definition existsSync_config (p : string) : M (World E) bool :=
  gets (fun w => bool_decide (is_Some (configFiles w !! p))).

Definition readFileSync_config (p : string) : M (World E) (YamlFile StoredConfig.t) :=
  fun w => match configFiles w !! p with
           | Some content => (Return content, w)
           | None => ENOENT p w
           end.

Definition writeFileSync_config (p : string) (content : YamlFile StoredConfig.t) : M (World E) unit :=
  modify (fun w => set_configFiles (<[p := content]> (configFiles w)) w).

(** [fs.existsSync], [fs.readFileSync], [fs.writeFileSync] and
    [fs.renameSync] on task files *)
Definition existsSync_tasks (p : string) : M (World E) bool :=
  gets (fun w => bool_decide (is_Some (tasksFiles w !! p))).

Definition readFileSync_tasks (p : string) : M (World E) (JsonFile E) :=
  fun w => match tasksFiles w !! p with
           | Some content => (Return content, w)
           | None => ENOENT p w
           end.

Definition writeFileSync_tasks (p : string) (content : JsonFile E) : M (World E) unit :=
  modify (fun w => set_tasksFiles (<[p := content]> (tasksFiles w)) w).

Definition renameSync_tasks (from to : string) : M (World E) unit :=
  fun w => match tasksFiles w !! from with
           | Some content =>
               (Return tt, set_tasksFiles (<[to := content]> (delete from (tasksFiles w))) w)
           | None => ENOENT from w
           end.

(** [JSON.parse(content)] and [JSON.stringify(tasks, null, 2)] *)
Definition JSON_parse (content : JsonFile E) : M (World E) (JsonValue E) :=
  match content with
  | JsonInvalid why => throw {| class := SyntaxError; message := why |}
  | JsonText v => mret v
  end.

Definition JSON_stringify (tasks : list E) : JsonFile E := JsonText (JsonArray tasks).

(** [yaml.parse(content)]: [None] is [null]. *)
Definition yaml_parse {A} (content : YamlFile A) : M (World E) (option A) :=
  match content with
  | YamlInvalid why => throw {| class := YAMLParseError; message := why |}
  | YamlNull => mret None
  | YamlMapping m => mret (Some m)
  end.

End Primitives.

(** ** [config/config.ts] *)

Module Config.

Definition CONFIG_FILENAME : string := ".config-viban.yml".

(** [DEFAULT_CONFIG : Omit<BoardConfig, 'createdAt'>] *)
Module DEFAULT_CONFIG.
Definition boardName : string := "Kanban Board".
Definition tasksFile : string := "tasks.json".
End DEFAULT_CONFIG.

Definition getConfigPath (projectPath : string) : string :=
  path_join projectPath CONFIG_FILENAME.

(** [yaml.stringify(config)]: a key whose value is undefined is left out.
    The text is recorded by the mapping it was written from: its strings are
    taken to read back as they were written. *)
Definition yaml_stringify (config : BoardConfig.t) : YamlFile StoredConfig.t :=
  YamlMapping {| StoredConfig.boardName := Some (BoardConfig.boardName config);
                 StoredConfig.tasksFile := Some (BoardConfig.tasksFile config);
                 StoredConfig.createdAt := BoardConfig.createdAt config |}.

(** [{ ...DEFAULT_CONFIG, ...parsed }]; spreading [null] adds no key. *)
Definition spread_defaults (parsed : option StoredConfig.t) : BoardConfig.t :=
  match parsed with
  | None =>
      {| BoardConfig.boardName := DEFAULT_CONFIG.boardName;
         BoardConfig.tasksFile := DEFAULT_CONFIG.tasksFile;
         BoardConfig.createdAt := None |}
  | Some m =>
      {| BoardConfig.boardName := default DEFAULT_CONFIG.boardName (StoredConfig.boardName m);
         BoardConfig.tasksFile := default DEFAULT_CONFIG.tasksFile (StoredConfig.tasksFile m);
         BoardConfig.createdAt := StoredConfig.createdAt m |}
  end.

Section WithElements.
Context {E : Type}.

Definition configExists (projectPath : string) : M (World E) bool :=
  existsSync_config (getConfigPath projectPath).

Definition saveConfig (projectPath : string) (config : BoardConfig.t) : M (World E) unit :=
  let configPath := getConfigPath projectPath in
  let content := yaml_stringify config in
  writeFileSync_config configPath content.

Definition loadConfig (projectPath : string) : M (World E) BoardConfig.t :=
  let configPath := getConfigPath projectPath in
  present ← existsSync_config configPath;
  if negb present then
    now ← Date_toISOString;
    let config := {| BoardConfig.boardName := DEFAULT_CONFIG.boardName;
                     BoardConfig.tasksFile := DEFAULT_CONFIG.tasksFile;
                     BoardConfig.createdAt := Some now |} in
    saveConfig projectPath config;;
    mret config
  else
    try_catch
      (content ← readFileSync_config configPath;
       parsed ← yaml_parse content;
       mret (spread_defaults parsed))
      (fun _ => throw (new_Error ("Failed to parse config file: " +:+ configPath))).

(** [updates : Partial<Omit<BoardConfig, 'createdAt'>>], for an update in
    which a key that is present holds a string: [None] is a key that is
    absent. *)
Definition updateConfig (projectPath : string) (boardName tasksFile : option string)
  : M (World E) BoardConfig.t :=
  current ← loadConfig projectPath;
  let updated := {| BoardConfig.boardName := default (BoardConfig.boardName current) boardName;
                    BoardConfig.tasksFile := default (BoardConfig.tasksFile current) tasksFile;
                    BoardConfig.createdAt := BoardConfig.createdAt current |} in
  saveConfig projectPath updated;;
  mret updated.

End WithElements.
End Config.

(** ** [config/global-config.ts] *)

Module GlobalConfig.

(** [interface GlobalConfig]: both keys are optional. *)
Record t := mk {
  lastProjectPath : option string;
  recentProjects : option (list string);
}.

(** The state of the registry: the file [~/.viban-global.yml], absent or
    with its content. *)
Abbreviation Home := (option (YamlFile t)) (only parsing).

(** [{}] *)
Definition empty : t := {| lastProjectPath := None; recentProjects := None |}.

(** [yaml.parse(content)] and [yaml.stringify(config)] on the registry file *)
Definition yaml_parse (content : YamlFile t) : M Home (option t) :=
  match content with
  | YamlInvalid why => throw {| class := YAMLParseError; message := why |}
  | YamlNull => mret None
  | YamlMapping m => mret (Some m)
  end.

Definition yaml_stringify (config : t) : YamlFile t := YamlMapping config.

Definition readFileSync : M Home (YamlFile t) :=
  fun h => match h with
           | Some content => (Return content, h)
           | None => throw {| class := SystemError; message := "ENOENT" |} h
           end.

Definition loadGlobalConfig : M Home t :=
  present ← gets (fun h : Home => bool_decide (is_Some h));
  if negb present then mret empty
  else
    try_catch
      (content ← readFileSync;
       parsed ← yaml_parse content;
       mret (default empty parsed))
      (fun _ => mret empty).

Definition saveGlobalConfig (config : t) : M Home unit :=
  let content := yaml_stringify config in
  modify (fun _ => Some content).

Definition setLastProjectPath (projectPath : string) : M Home unit :=
  config ← loadGlobalConfig;
  let config := {| lastProjectPath := Some projectPath;
                   recentProjects := recentProjects config |} in
  let recentProjects0 := default [] (recentProjects config) in
  let index := indexOf recentProjects0 projectPath in
  let recentProjects1 :=
    if (index >? -1)%Z then splice1 recentProjects0 index else recentProjects0 in
  let recentProjects2 := projectPath :: recentProjects1 in
  let config := {| lastProjectPath := lastProjectPath config;
                   recentProjects := Some (slice0 recentProjects2 10) |} in
  saveGlobalConfig config.

Definition getLastProjectPath : M Home (option string) :=
  config ← loadGlobalConfig;
  mret (lastProjectPath config).

Definition getRecentProjects : M Home (list string) :=
  config ← loadGlobalConfig;
  mret (default [] (recentProjects config)).

End GlobalConfig.

(** ** [board/storage.ts] *)

Module Storage.

Section WithElements.
Context {E : Type}.

Definition getTasksPath (projectPath : string) : M (World E) string :=
  config ← Config.loadConfig projectPath;
  mret (path_join projectPath (BoardConfig.tasksFile config)).

Definition saveTasks (projectPath : string) (tasks : list E) : M (World E) unit :=
  tasksPath ← getTasksPath projectPath;
  let content := JSON_stringify tasks in
  let tempPath := tasksPath +:+ ".tmp" in
  writeFileSync_tasks tempPath content;;
  renameSync_tasks tempPath tasksPath.

(** The last line of the [try] block, [return parsed as Task[]], returns the
    parsed array as it is: the cast checks nothing. *)
Definition loadTasks (projectPath : string) : M (World E) (list E) :=
  tasksPath ← getTasksPath projectPath;
  present ← existsSync_tasks tasksPath;
  if negb present then
    saveTasks projectPath [];;
    mret []
  else
    try_catch
      (content ← readFileSync_tasks tasksPath;
       parsed ← JSON_parse content;
       match parsed with
       | JsonOther => throw (new_Error "Tasks file must contain an array")
       | JsonArray elems => mret elems
       end)
      (fun error =>
         if instanceof_SyntaxError error
         then throw (new_Error ("Invalid JSON in tasks file: " +:+ tasksPath))
         else throw error).

Definition addTask (projectPath : string) (task : E) : M (World E) unit :=
  tasks ← loadTasks projectPath;
  saveTasks projectPath (tasks ++ [task]).

End WithElements.

(** [{ ...old, ...updates, updatedAt: now }] *)
Definition spread_updates (old : Task.t) (updates : PartialTask.t) (now : string) : Task.t :=
  {| Task.id := default (Task.id old) (PartialTask.id updates);
     Task.title := overlay (Task.title old) (PartialTask.title updates);
     Task.description := overlay (Task.description old) (PartialTask.description updates);
     Task.column := default (Task.column old) (PartialTask.column updates);
     Task.priority := overlay (Task.priority old) (PartialTask.priority updates);
     Task.createdAt := default (Task.createdAt old) (PartialTask.createdAt updates);
     Task.updatedAt := now |}.

Definition updateTask (projectPath taskId : string) (updates : PartialTask.t)
  : M (World Task.t) (option Task.t) :=
  tasks ← loadTasks projectPath;
  let index := findIndex (fun t => String.eqb (Task.id t) taskId) tasks in
  if (index =? -1)%Z then mret None
  else
    now ← Date_toISOString;
    let tasks := alter (fun old => spread_updates old updates now) (Z.to_nat index) tasks in
    saveTasks projectPath tasks;;
    mret (tasks !! Z.to_nat index).

Definition deleteTask (projectPath taskId : string) : M (World Task.t) bool :=
  tasks ← loadTasks projectPath;
  let index := findIndex (fun t => String.eqb (Task.id t) taskId) tasks in
  if (index =? -1)%Z then mret false
  else
    let tasks := splice1 tasks index in
    saveTasks projectPath tasks;;
    mret true.

(** [tasks.find(t => t.id === taskId) || null] *)
Definition findTask (projectPath taskId : string) : M (World Task.t) (option Task.t) :=
  tasks ← loadTasks projectPath;
  mret (find (fun t => String.eqb (Task.id t) taskId) tasks).

End Storage.

(** ** [board/board.ts] *)

Module KanbanBoard.

Record t := mk { projectPath : string }.

(** [Record<ColumnType, number>]: an object keyed by the columns' names. *)
Abbreviation Stats := (gmap string Z) (only parsing).

(** [BoardState] *)
Record BoardState := mkBoardState {
  tasks : list Task.t;
  config : BoardConfig.t;
}.

Definition getState (this : t) : M (World Task.t) BoardState :=
  tasks ← Storage.loadTasks (projectPath this);
  config ← Config.loadConfig (projectPath this);
  mret {| tasks := tasks; config := config |}.

Definition getTasks (this : t) (column : option ColumnType) : M (World Task.t) (list Task.t) :=
  tasks ← Storage.loadTasks (projectPath this);
  match column with
  | Some column => mret (filter (fun t => Task.column t = column) tasks)
  | None => mret tasks
  end.

(** [grouped[task.column].push(task)] *)
Definition push_grouped (grouped : gmap string (list Task.t)) (task : Task.t)
  : gmap string (list Task.t) :=
  alter (fun column => column ++ [task]) (column_name (Task.column task)) grouped.

(** [Record<ColumnType, Task[]>]: an object keyed by the columns' names. *)
Definition getTasksByColumn (this : t) : M (World Task.t) (gmap string (list Task.t)) :=
  tasks ← Storage.loadTasks (projectPath this);
  let grouped : gmap string (list Task.t) :=
    <["backlog" := []]> (<["todo" := []]> (<["review" := []]> (<["done" := []]> ∅))) in
  mret (fold_left push_grouped tasks grouped).

Definition createTask (this : t) (input : CreateTaskInput.t) : M (World Task.t) Task.t :=
  now ← Date_toISOString;
  id ← uuidv4;
  let task := {| Task.id := id;
                 Task.title := Some (CreateTaskInput.title input);
                 Task.description := CreateTaskInput.description input;
                 Task.column := default backlog (CreateTaskInput.column input);
                 Task.priority := Some (default medium (CreateTaskInput.priority input));
                 Task.createdAt := now;
                 Task.updatedAt := now |} in
  tasks ← Storage.loadTasks (projectPath this);
  let tasks := tasks ++ [task] in
  Storage.saveTasks (projectPath this) tasks;;
  mret task.

Definition getTask (this : t) (taskId : string) : M (World Task.t) (option Task.t) :=
  Storage.findTask (projectPath this) taskId.

(** An object that has the keys of an [UpdateTaskInput] and no other key,
    as the [Partial<Task>] it is. *)
Definition as_PartialTask (updates : UpdateTaskInput.t) : PartialTask.t :=
  {| PartialTask.id := None;
     PartialTask.title := UpdateTaskInput.title updates;
     PartialTask.description := UpdateTaskInput.description updates;
     PartialTask.column := None;
     PartialTask.priority := UpdateTaskInput.priority updates;
     PartialTask.createdAt := None;
     PartialTask.updatedAt := None |}.

(** [updates] is declared an [UpdateTaskInput] and is handed to
    [Storage.updateTask] as the object it is: a key of a task that the
    object carries beside those of the declared type reaches the spread with
    the others.  (The body of [PUT /api/tasks/:id] is cast to the type, not
    checked against it.) *)
Definition updateTask (this : t) (taskId : string) (updates : PartialTask.t)
  : M (World Task.t) (option Task.t) :=
  Storage.updateTask (projectPath this) taskId updates.

(** [{ column: toColumn }] *)
Definition only_column (toColumn : ColumnType) : PartialTask.t :=
  {| PartialTask.id := None;
     PartialTask.title := Absent;
     PartialTask.description := Absent;
     PartialTask.column := Some toColumn;
     PartialTask.priority := Absent;
     PartialTask.createdAt := None;
     PartialTask.updatedAt := None |}.

(** [moveTask] checks [toColumn] at run time, so it is given the value as it
    arrives: a string that may or may not name a column.
    [COLUMNS.includes(toColumn)] finds the column of that name, if any. *)
Definition moveTask (this : t) (taskId toColumn : string) : M (World Task.t) (option Task.t) :=
  match find (fun c => String.eqb (column_name c) toColumn) COLUMNS with
  | None =>
      throw (new_Error ("Invalid column: " +:+ toColumn +:+ ". Must be one of: "
                        +:+ join ", " (map column_name COLUMNS)))
  | Some column =>
      Storage.updateTask (projectPath this) taskId (only_column column)
  end.

Definition moveToReview (this : t) (taskId : string) : M (World Task.t) (option Task.t) :=
  moveTask this taskId "review".

Definition completeTask (this : t) (taskId : string) : M (World Task.t) (option Task.t) :=
  moveTask this taskId "done".

Definition deleteTask (this : t) (taskId : string) : M (World Task.t) bool :=
  Storage.deleteTask (projectPath this) taskId.

(** [stats[task.column]++] *)
Definition increment (stats : Stats) (task : Task.t) : Stats :=
  alter (fun n => (n + 1)%Z) (column_name (Task.column task)) stats.

Definition getStats (this : t) : M (World Task.t) Stats :=
  tasks ← Storage.loadTasks (projectPath this);
  let stats : Stats :=
    <["backlog" := 0%Z]> (<["todo" := 0%Z]> (<["review" := 0%Z]> (<["done" := 0%Z]> ∅))) in
  mret (fold_left increment tasks stats).

End KanbanBoard.

(** ** [mcp-server.ts] *)

Module McpServer.

(** The call the handler of the tool [update_task] makes:
    [board.updateTask(id, { title, description, priority })], where an
    argument the caller left out is [undefined]. *)
Definition update_task (board : KanbanBoard.t) (id : string)
    (title description : option string) (priority : option Priority)
  : M (World Task.t) (option Task.t) :=
  KanbanBoard.updateTask board id
    (KanbanBoard.as_PartialTask
       {| UpdateTaskInput.title := Present title;
          UpdateTaskInput.description := Present description;
          UpdateTaskInput.priority := Present priority |}).

(** The handlers of the tools that take a task id, and of [get_board_stats]. *)
Module Tool.

(** What a handler returns: its one text item, recorded by the literal part
    of the template and the value [JSON.stringify] serialises into it, and
    whether [isError] is set. *)
Inductive Result :=
| task_text (label : string) (task : Task.t)   (* label, then JSON.stringify(task, null, 2) *)
| plain_text (text : string)
| error_text (text : string)                   (* with isError: true *)
| stats_text (boardName : string) (stats : gmap string Z) (total : Z).
                                               (* JSON.stringify({ boardName, stats, total }, null, 2) *)

Definition isError (result : Result) : bool :=
  match result with error_text _ => true | _ => false end.

(** The result each of these handlers returns when the board yields no
    task. *)
Definition not_found (id : string) : Result :=
  error_text ("Error: Task with ID " +:+ id +:+ " not found").

Definition update_task (board : KanbanBoard.t) (id : string)
    (title description : option string) (priority : option Priority)
  : M (World Task.t) Result :=
  task ← McpServer.update_task board id title description priority;
  match task with
  | None => mret (not_found id)
  | Some task => mret (task_text "Updated task: " task)
  end.

(** [column] has passed the schema [z.enum(['backlog', 'todo', 'review',
    'done'])]. *)
Definition move_task (board : KanbanBoard.t) (id : string) (column : ColumnType)
  : M (World Task.t) Result :=
  task ← KanbanBoard.moveTask board id (column_name column);
  match task with
  | None => mret (not_found id)
  | Some task => mret (task_text ("Moved task to " +:+ column_name column +:+ ": ") task)
  end.

Definition move_to_review (board : KanbanBoard.t) (id : string) : M (World Task.t) Result :=
  task ← KanbanBoard.moveToReview board id;
  match task with
  | None => mret (not_found id)
  | Some task => mret (task_text "Task moved to review: " task)
  end.

Definition complete_task (board : KanbanBoard.t) (id : string) : M (World Task.t) Result :=
  task ← KanbanBoard.completeTask board id;
  match task with
  | None => mret (not_found id)
  | Some task => mret (task_text "Task completed: " task)
  end.

Definition delete_task (board : KanbanBoard.t) (id : string) : M (World Task.t) Result :=
  success ← KanbanBoard.deleteTask board id;
  if negb success then mret (not_found id)
  else mret (plain_text ("Task " +:+ id +:+ " deleted successfully")).

(** [Object.values(stats).reduce((a, b) => a + b, 0)].  The values are taken
    in the order of the map's keys; a sum does not depend on the order. *)
Definition total_of (stats : gmap string Z) : Z :=
  fold_left Z.add (map snd (map_to_list stats)) 0%Z.

Definition get_board_stats (board : KanbanBoard.t) : M (World Task.t) Result :=
  stats ← KanbanBoard.getStats board;
  state ← KanbanBoard.getState board;
  mret (stats_text (BoardConfig.boardName (KanbanBoard.config state)) stats (total_of stats)).

End Tool.

End McpServer.

(** ** [web-server.ts] *)

(** The blocks of [handleApi], one per route, each with the checks a request
    on that route passes before it reaches the block.  The comparison of the
    request's method and path that selects the block is not part of the
    embedding, nor are the static files. *)
Module WebServer.

(** The fields of [class WebServer] that the routes read and [setProject]
    assigns. *)
Record t := mk {
  projectPath : option string;      (* string | null *)
  board : option KanbanBoard.t;     (* KanbanBoard | null *)
}.

(** The state a request runs in: the server's fields, the files of the
    projects and the registry file. *)
Record State := mkState {
  this : t;
  world : World Task.t;
  home : option (YamlFile GlobalConfig.t);
}.

Definition on_world {A} (m : M (World Task.t) A) : M State A :=
  fun s => match m (world s) with
           | (outcome, w) => (outcome, mkState (this s) w (home s))
           end.

Definition on_home {A} (m : M (option (YamlFile GlobalConfig.t)) A) : M State A :=
  fun s => match m (home s) with
           | (outcome, h) => (outcome, mkState (this s) (world s) h)
           end.

(** The data a response carries, before [JSON.stringify]. *)
Inductive Data :=
| error (message : string)                                      (* { error: message } *)
| project_list (current : option string) (recent : list string) (* { current, recent } *)
| project_selected (project : string) (config : BoardConfig.t)  (* { success: true, project, config } *)
| project_none                                                  (* { project: null } *)
| project_current (project : string) (config : BoardConfig.t)   (* { project, config } *)
| board_state (state : KanbanBoard.BoardState)
| board_stats (stats : gmap string Z)
| task_list (tasks : list Task.t)
| one_task (task : Task.t)
| success                                                       (* { success: true } *)
| board_config (config : BoardConfig.t).

Record Response := mkResponse { status : nat; data : Data }.

(** [sendJson(res, data, status)] and [sendError(res, message, status)]: the
    response a route ends with. *)
Definition sendJson (data : Data) (status : nat) : M State Response :=
  mret {| status := status; data := data |}.

Definition sendError (message : string) (status : nat) : M State Response :=
  sendJson (error message) status.

(** The body of a request as [parseBody] reads it: a text [JSON.parse]
    refuses, or the object parsed (an empty body is [{}]), which has the type
    the route casts it to. *)
Inductive Body (A : Type) : Type :=
| Malformed
| Parsed (value : A).
Arguments Malformed {A}.
Arguments Parsed {A} value.

Definition parseBody {A} (body : Body A) : M State A :=
  match body with
  | Malformed => throw (new_Error "Invalid JSON")
  | Parsed value => mret value
  end.

(** A value that is a string or is missing, as [if (!value)] tells: the
    string when it is truthy; a missing value and the empty string are
    falsy. *)
Definition truthy (value : option string) : option string :=
  match value with
  | None => None
  | Some s => if String.eqb s "" then None else Some s
  end.

(** The body of [POST /api/tasks]: a [CreateTaskInput] whose title the route
    checks at run time. *)
Module NewTaskBody.
Record t := mk {
  title : option string;
  description : option string;
  column : option ColumnType;
  priority : option Priority;
}.
End NewTaskBody.

(** [try { await this.handleApi(req, res, pathname) } catch (error) {
    sendError(res, 'Internal server error', 500) }] *)
Definition handleRequest (route : M State Response) : M State Response :=
  try_catch route (fun _ => sendError "Internal server error" 500).

(** [if (!this.board || !this.projectPath) { sendError(...); return; }],
    which precedes every route on the board. *)
Definition with_project (route : KanbanBoard.t -> string -> M State Response)
  : M State Response :=
  server ← gets this;
  match board server, truthy (projectPath server) with
  | Some board, Some projectPath => route board projectPath
  | _, _ => sendError "No project selected. POST to /api/project/select first." 400
  end.

Section Routes.

(** [path.resolve]: node's normalisation of a path against the working
    directory. *)
Variable path_resolve : string -> string.

(** The directory is created when missing; directories are not part of the
    state. *)
Definition setProject (projectPath : string) : M State unit :=
  let resolved := path_resolve projectPath in
  modify (fun s => mkState {| WebServer.projectPath := Some resolved;
                              board := board (this s) |} (world s) (home s));;
  on_world (Config.loadConfig resolved);;
  modify (fun s => mkState {| WebServer.projectPath := WebServer.projectPath (this s);
                              board := Some {| KanbanBoard.projectPath := resolved |} |}
                           (world s) (home s));;
  on_home (GlobalConfig.setLastProjectPath resolved).

(** [GET /api/projects] *)
Definition GET_projects : M State Response :=
  recent ← on_home GlobalConfig.getRecentProjects;
  current ← gets (fun s => projectPath (this s));
  sendJson (project_list current recent) 200.

(** [POST /api/project/select]; [this.projectPath!] is the path [setProject]
    has just assigned. *)
Definition POST_project_select (body : Body (option string)) : M State Response :=
  path ← parseBody body;
  match truthy path with
  | None => sendError "Path required" 400
  | Some path =>
      setProject path;;
      let project := path_resolve path in
      config ← on_world (Config.loadConfig project);
      sendJson (project_selected project config) 200
  end.

(** [GET /api/project/current] *)
Definition GET_project_current : M State Response :=
  project ← gets (fun s => projectPath (this s));
  match truthy project with
  | None => sendJson project_none 200
  | Some project =>
      config ← on_world (Config.loadConfig project);
      sendJson (project_current project config) 200
  end.

(** [startWebServer(port, projectPath)]: a server is constructed and, when a
    project path is given, put on that project.  Listening on the port is
    not part of the state. *)
Definition startWebServer (projectPath : option string) : M State unit :=
  modify (fun s => mkState {| WebServer.projectPath := None; board := None |}
                           (world s) (home s));;
  match truthy projectPath with
  | Some projectPath => setProject projectPath
  | None => mret tt
  end.

End Routes.

(** [GET /api/board] and [GET /api/stats] *)
Definition GET_board : M State Response :=
  with_project (fun board _ =>
    state ← on_world (KanbanBoard.getState board);
    sendJson (board_state state) 200).

Definition GET_stats : M State Response :=
  with_project (fun board _ =>
    stats ← on_world (KanbanBoard.getStats board);
    sendJson (board_stats stats) 200).

(** [GET /api/tasks]; [column] is the query parameter, cast to
    [ColumnType | null] and passed as [column || undefined]. *)
Definition GET_tasks (column : option ColumnType) : M State Response :=
  with_project (fun board _ =>
    tasks ← on_world (KanbanBoard.getTasks board column);
    sendJson (task_list tasks) 200).

(** [POST /api/tasks] *)
Definition POST_tasks (body : Body NewTaskBody.t) : M State Response :=
  with_project (fun board _ =>
    body ← parseBody body;
    match truthy (NewTaskBody.title body) with
    | None => sendError "Title required" 400
    | Some title =>
        task ← on_world (KanbanBoard.createTask board
                           {| CreateTaskInput.title := title;
                              CreateTaskInput.description := NewTaskBody.description body;
                              CreateTaskInput.column := NewTaskBody.column body;
                              CreateTaskInput.priority := NewTaskBody.priority body |});
        sendJson (one_task task) 201
    end).

(** [GET], [PUT] and [DELETE /api/tasks/:id]; the body of [PUT] is the
    parsed object, whatever keys of a task it has. *)
Definition GET_task (taskId : string) : M State Response :=
  with_project (fun board _ =>
    task ← on_world (KanbanBoard.getTask board taskId);
    match task with
    | None => sendError "Task not found" 404
    | Some task => sendJson (one_task task) 200
    end).

Definition PUT_task (taskId : string) (body : Body PartialTask.t) : M State Response :=
  with_project (fun board _ =>
    body ← parseBody body;
    task ← on_world (KanbanBoard.updateTask board taskId body);
    match task with
    | None => sendError "Task not found" 404
    | Some task => sendJson (one_task task) 200
    end).

Definition DELETE_task (taskId : string) : M State Response :=
  with_project (fun board _ =>
    deleted ← on_world (KanbanBoard.deleteTask board taskId);
    if negb deleted then sendError "Task not found" 404
    else sendJson success 200).

(** [POST /api/tasks/:id/move]; the body's [column] is the string that
    arrives, or is missing. *)
Definition POST_task_move (taskId : string) (body : Body (option string)) : M State Response :=
  with_project (fun board _ =>
    column ← parseBody body;
    match truthy column with
    | None => sendError "Column required" 400
    | Some column =>
        task ← on_world (KanbanBoard.moveTask board taskId column);
        match task with
        | None => sendError "Task not found" 404
        | Some task => sendJson (one_task task) 200
        end
    end).

(** [GET] and [PUT /api/config]; [{ ...config, ...body }] with a body whose
    keys are those of a config, each present or not. *)
Definition GET_config : M State Response :=
  with_project (fun _ projectPath =>
    config ← on_world (Config.loadConfig projectPath);
    sendJson (board_config config) 200).

Definition PUT_config (body : Body StoredConfig.t) : M State Response :=
  with_project (fun _ projectPath =>
    body ← parseBody body;
    config ← on_world (Config.loadConfig projectPath);
    let updated :=
      {| BoardConfig.boardName :=
           default (BoardConfig.boardName config) (StoredConfig.boardName body);
         BoardConfig.tasksFile :=
           default (BoardConfig.tasksFile config) (StoredConfig.tasksFile body);
         BoardConfig.createdAt :=
           match StoredConfig.createdAt body with
           | Some createdAt => Some createdAt
           | None => BoardConfig.createdAt config
           end |} in
    on_world (Config.saveConfig projectPath updated);;
    sendJson (board_config updated) 200).

(** The last line of [handleApi], reached by a request no route takes. *)
Definition not_found : M State Response :=
  with_project (fun _ _ => sendError "Not found" 404).

End WebServer.

(** ** [index.ts] *)

(** The two modes [main] starts, up to the point where the server takes
    over.  What is printed is not part of the embedding. *)
Module Index.

(** The state of the process in MCP mode: the files of the projects and the
    registry file. *)
Record State := mkState {
  world : World Task.t;
  home : option (YamlFile GlobalConfig.t);
}.

Definition on_world {A} (m : M (World Task.t) A) : M State A :=
  fun s => match m (world s) with
           | (outcome, w) => (outcome, mkState w (home s))
           end.

Definition on_home {A} (m : M (option (YamlFile GlobalConfig.t)) A) : M State A :=
  fun s => match m (home s) with
           | (outcome, h) => (outcome, mkState (world s) h)
           end.

Section Modes.

(** [path.resolve] *)
Variable path_resolve : string -> string.

(** [runMcpMode], given [process.env.VIBAN_PROJECT_PATH] and
    [process.cwd()]; it returns the board that [startMcpServer] creates for
    the tools.  The directory is created when missing; directories are not
    part of the state. *)
Definition runMcpMode (VIBAN_PROJECT_PATH : option string) (cwd : string)
  : M State KanbanBoard.t :=
  projectPath ←
    match WebServer.truthy VIBAN_PROJECT_PATH with
    | Some projectPath => mret projectPath
    | None =>
        lastProjectPath ← on_home GlobalConfig.getLastProjectPath;
        match WebServer.truthy lastProjectPath with
        | Some projectPath => mret projectPath
        | None => mret cwd
        end
    end;
  let projectPath := path_resolve projectPath in
  config ← on_world (Config.loadConfig projectPath);
  mret {| KanbanBoard.projectPath := projectPath |}.

(** [runWebMode]: [lastProject || undefined] is passed on. *)
Definition runWebMode : M WebServer.State unit :=
  lastProject ← WebServer.on_home GlobalConfig.getLastProjectPath;
  WebServer.startWebServer path_resolve (WebServer.truthy lastProject).

End Modes.

End Index.

(** ** Vocabulary of the statements *)

(** [Config.loadConfig] when the config file is missing: the config it
    writes and returns. *)
Definition config_created {E} (w : World E) : BoardConfig.t :=
  {| BoardConfig.boardName := Config.DEFAULT_CONFIG.boardName;
     BoardConfig.tasksFile := Config.DEFAULT_CONFIG.tasksFile;
     BoardConfig.createdAt := Some (clock w (clockReads w)) |}.

(** The config [Config.loadConfig] reads from a config file, if it parses. *)
Definition parsed_config (content : YamlFile StoredConfig.t) : option BoardConfig.t :=
  match content with
  | YamlInvalid _ => None
  | YamlNull => Some (Config.spread_defaults None)
  | YamlMapping m => Some (Config.spread_defaults (Some m))
  end.

(** The project at [p] is initialised and its task file holds the array
    [ts]. *)
Definition Stored {E} (p : string) (ts : list E) (w : World E) : Prop :=
  exists content cfg,
    configFiles w !! Config.getConfigPath p = Some content /\
    parsed_config content = Some cfg /\
    tasksFiles w !! path_join p (BoardConfig.tasksFile cfg) = Some (JSON_stringify ts).

Definition same_files {E} (w v : World E) : Prop :=
  configFiles w = configFiles v /\ tasksFiles w = tasksFiles v.

(** The state after one reading of the clock. *)
Definition tick (w : World Task.t) : World Task.t :=
  mkWorld (configFiles w) (tasksFiles w) (clock w) (S (clockReads w)) (uuids w) (uuidsDrawn w).

Definition ids (ts : list Task.t) : list string := map Task.id ts.

(** [old], at index [i], is the first task of [ts] whose id is [taskId]. *)
Definition first_with_id (ts : list Task.t) (taskId : string) (i : nat) (old : Task.t) : Prop :=
  ts !! i = Some old /\ Task.id old = taskId /\
  forall j t, j < i -> ts !! j = Some t -> Task.id t <> taskId.

(** Every id of [ts] is one the uuid generator has returned. *)
Definition generated (w : World Task.t) (ts : list Task.t) : Prop :=
  forall t, t ∈ ts -> exists k, k < uuidsDrawn w /\ Task.id t = uuids w k.

(** The task [KanbanBoard.createTask] builds from [input] in the state [w]. *)
Definition created_task (input : CreateTaskInput.t) (w : World Task.t) : Task.t :=
  {| Task.id := uuids w (uuidsDrawn w);
     Task.title := Some (CreateTaskInput.title input);
     Task.description := CreateTaskInput.description input;
     Task.column := default backlog (CreateTaskInput.column input);
     Task.priority := Some (default medium (CreateTaskInput.priority input));
     Task.createdAt := clock w (clockReads w);
     Task.updatedAt := clock w (clockReads w) |}.

(** The number of tasks of [ts] that are in column [c]. *)
Definition count_in (c : ColumnType) (ts : list Task.t) : Z :=
  Z.of_nat (length (filter (fun t => Task.column t = c) ts)).

(** The object with exactly the four column keys. *)
Definition stats_of (b t r d : Z) : gmap string Z :=
  <["backlog" := b]> (<["todo" := t]> (<["review" := r]> (<["done" := d]> ∅))).

Definition bump (c : ColumnType) (task : Task.t) : Z :=
  if decide (Task.column task = c) then 1%Z else 0%Z.

(** JSON values, for task files whose array holds anything at all. *)
Inductive Json :=
| Jnull
| Jbool (b : bool)
| Jnumber (n : Z)
| Jstring (s : string)
| Jarray (elems : list Json)
| Jobject (props : list (string * Json)).

Definition priority_name (p : Priority) : string :=
  match p with low => "low" | medium => "medium" | high => "high" end.

(** [o[key]] on a parsed object *)
Definition property (key : string) (props : list (string * Json)) : option Json :=
  snd <$> find (fun kv => String.eqb (fst kv) key) props.

Definition is_string (v : option Json) : bool :=
  match v with Some (Jstring _) => true | _ => false end.

Definition is_one_of (names : list string) (v : option Json) : bool :=
  match v with
  | Some (Jstring s) => bool_decide (s ∈ names)
  | _ => false
  end.

(** A record of the shape [interface Task] declares. *)
Definition task_shaped (v : Json) : bool :=
  match v with
  | Jobject props =>
      is_string (property "id" props)
      && is_string (property "title" props)
      && match property "description" props with
         | None => true
         | d => is_string d
         end
      && is_one_of (map column_name COLUMNS) (property "column" props)
      && is_one_of (map priority_name [low; medium; high]) (property "priority" props)
      && is_string (property "createdAt" props)
      && is_string (property "updatedAt" props)
  | _ => false
  end.

(** The content parses as a collection of task-shaped records. *)
Definition task_collection (content : JsonFile Json) : bool :=
  match content with
  | JsonText (JsonArray elems) => forallb task_shaped elems
  | _ => false
  end.

(** The content parses as an array. *)
Definition is_array {E} (content : JsonFile E) : bool :=
  match content with
  | JsonText (JsonArray _) => true
  | _ => false
  end.

(** The registry after the calls [setLastProjectPath(path)] for the paths of
    [calls], in order. *)
Definition after_calls (calls : list string) (h : GlobalConfig.Home) : GlobalConfig.Home :=
  fold_left (fun h path => snd (GlobalConfig.setLastProjectPath path h)) calls h.

(** A list of paths without its repetitions: of each path the first
    occurrence is kept. *)
Fixpoint most_recent_first (paths : list string) : list string :=
  match paths with
  | [] => []
  | path :: paths' => path :: filter (fun q => q <> path) (most_recent_first paths')
  end.

(** What the registry file holds, as [GlobalConfig.loadGlobalConfig] reads
    it. *)
Definition registry_of (h : GlobalConfig.Home) : GlobalConfig.t :=
  match h with
  | Some (YamlMapping config) => config
  | _ => GlobalConfig.empty
  end.

(** The removal [GlobalConfig.setLastProjectPath] does with [indexOf] and
    [splice]. *)
Definition without_first (path : string) (l : list string) : list string :=
  let index := indexOf l path in
  if (index >? -1)%Z then splice1 l index else l.

(** ** Sample states *)

Definition sample_clock (n : nat) : string :=
  match n with
  | 0 => "2026-03-01T09:00:00.000Z"
  | 1 => "2026-03-01T09:00:01.000Z"
  | _ => "2026-03-01T09:00:02.000Z"
  end.

Definition sample_uuids (n : nat) : string :=
  match n with
  | 0 => "7d3c1a52-0001"
  | 1 => "7d3c1a52-0002"
  | _ => "7d3c1a52-0003"
  end.

Definition sample_board : KanbanBoard.t := {| KanbanBoard.projectPath := "/p" |}.

(** A project directory in which nothing has been written yet. *)
Definition fresh_world : World Task.t :=
  mkWorld ∅ ∅ sample_clock 0 sample_uuids 0.

Definition login_task : Task.t :=
  {| Task.id := "7d3c1a52-0001";
     Task.title := Some "Implement login";
     Task.description := None;
     Task.column := backlog;
     Task.priority := Some medium;
     Task.createdAt := "2026-02-27T10:00:00.000Z";
     Task.updatedAt := "2026-02-27T10:00:00.000Z" |}.

Definition docs_task : Task.t :=
  {| Task.id := "7d3c1a52-0002";
     Task.title := Some "Write docs";
     Task.description := Some "README and changelog";
     Task.column := todo;
     Task.priority := Some low;
     Task.createdAt := "2026-02-28T10:00:00.000Z";
     Task.updatedAt := "2026-02-28T11:30:00.000Z" |}.

(** An initialised project holding two tasks. *)
Definition sample_world : World Task.t :=
  mkWorld
    (<["/p/.config-viban.yml" :=
         YamlMapping {| StoredConfig.boardName := Some "Kanban Board";
                        StoredConfig.tasksFile := Some "tasks.json";
                        StoredConfig.createdAt := Some "2026-02-27T09:00:00.000Z" |}]> ∅)
    (<["/p/tasks.json" := JSON_stringify [login_task; docs_task]]> ∅)
    sample_clock 0 sample_uuids 2.

Definition empty_title_input : CreateTaskInput.t :=
  {| CreateTaskInput.title := "";
     CreateTaskInput.description := None;
     CreateTaskInput.column := None;
     CreateTaskInput.priority := None |}.

Definition review_input : CreateTaskInput.t :=
  {| CreateTaskInput.title := "Review pull request";
     CreateTaskInput.description := None;
     CreateTaskInput.column := Some review;
     CreateTaskInput.priority := None |}.

Definition retitle : PartialTask.t :=
  KanbanBoard.as_PartialTask
    {| UpdateTaskInput.title := Present (Some "Write the docs");
       UpdateTaskInput.description := Absent;
       UpdateTaskInput.priority := Present (Some high) |}.

(** The object the tool [update_task] passes when it is called with a
    priority and nothing else. *)
Definition priority_only : PartialTask.t :=
  KanbanBoard.as_PartialTask
    {| UpdateTaskInput.title := Present None;
       UpdateTaskInput.description := Present None;
       UpdateTaskInput.priority := Present (Some high) |}.

(** A request body that carries the keys [id], [column] and [createdAt]. *)
Definition renumber : PartialTask.t :=
  {| PartialTask.id := Some "7d3c1a52-0001";
     PartialTask.title := Absent;
     PartialTask.description := Absent;
     PartialTask.column := Some done;
     PartialTask.priority := Absent;
     PartialTask.createdAt := Some "1999-01-01T00:00:00.000Z";
     PartialTask.updatedAt := None |}.


(** The first sample task as [JSON.parse] reads it from a task file. *)
Definition login_task_json : Json :=
  Jobject [("id", Jstring "7d3c1a52-0001");
           ("title", Jstring "Implement login");
           ("column", Jstring "backlog");
           ("priority", Jstring "medium");
           ("createdAt", Jstring "2026-02-27T10:00:00.000Z");
           ("updatedAt", Jstring "2026-02-27T10:00:00.000Z")].

(** A task file whose array holds a number. *)
Definition world_with_numbers : World Json :=
  mkWorld (<["/p/.config-viban.yml" := YamlNull]> ∅)
          (<["/p/tasks.json" := JsonText (JsonArray [Jnumber 42])]> ∅)
          sample_clock 0 sample_uuids 0.

(** A config file written before [createdAt] was stored. *)
Definition world_with_old_config : World Task.t :=
  mkWorld (<["/p/.config-viban.yml" :=
               YamlMapping {| StoredConfig.boardName := Some "Sprint 12";
                              StoredConfig.tasksFile := None;
                              StoredConfig.createdAt := None |}]> ∅)
          ∅ sample_clock 0 sample_uuids 0.

(** ** Vocabulary of the further statements *)

(** The tasks of [ts] that are in column [c], in the order of [ts]. *)
Definition tasks_in (c : ColumnType) (ts : list Task.t) : list Task.t :=
  filter (fun t => Task.column t = c) ts.

Definition only_in (c : ColumnType) (task : Task.t) : list Task.t :=
  if decide (Task.column task = c) then [task] else [].

(** The object with exactly the four column keys, each holding a list. *)
Definition grouped_of (b t r d : list Task.t) : gmap string (list Task.t) :=
  <["backlog" := b]> (<["todo" := t]> (<["review" := r]> (<["done" := d]> ∅))).

(** The task [KanbanBoard.moveTask] makes of [old] for the column [c], read
    at the clock value [now]. *)
Definition moved_to (c : ColumnType) (now : string) (old : Task.t) : Task.t :=
  {| Task.id := Task.id old;
     Task.title := Task.title old;
     Task.description := Task.description old;
     Task.column := c;
     Task.priority := Task.priority old;
     Task.createdAt := Task.createdAt old;
     Task.updatedAt := now |}.

(** The response every failure inside a route ends in. *)
Definition internal_error : WebServer.Response :=
  {| WebServer.status := 500; WebServer.data := WebServer.error "Internal server error" |}.

(** The response of a route on the board when no project is selected. *)
Definition no_project_selected : WebServer.Response :=
  {| WebServer.status := 400;
     WebServer.data := WebServer.error "No project selected. POST to /api/project/select first." |}.

(** A project is selected: the routes on the board run on [board]. *)
Definition project_selected_in (s : WebServer.State)
    (board : KanbanBoard.t) (projectPath : string) : Prop :=
  WebServer.board (WebServer.this s) = Some board /\
  WebServer.projectPath (WebServer.this s) = Some projectPath /\
  projectPath <> "".

(** The state [s] with the project files [w]. *)
Definition with_world (w : World Task.t) (s : WebServer.State) : WebServer.State :=
  WebServer.mkState (WebServer.this s) w (WebServer.home s).

(** A plain file name: not empty, not [.] or [..], at most 255 bytes, and
    without a slash or a NUL, so that [path.join(dir, name)] is the entry
    [name] of the directory [dir]. *)
Definition file_name (name : string) : bool :=
  negb (String.eqb name "") && negb (String.eqb name ".") && negb (String.eqb name "..")
  && bool_decide (String.length name <= 255)
  && forallb (fun a => negb (Ascii.eqb a "/"%char) && negb (Ascii.eqb a Ascii.zero))
             (list_ascii_of_string name).

(** ** Further sample states *)

(** The sample project with a task file cut off in the middle. *)
Definition world_with_corrupt_tasks : World Task.t :=
  mkWorld (configFiles sample_world)
          (<["/p/tasks.json" := JsonInvalid "Unexpected end of JSON input"]> ∅)
          sample_clock 0 sample_uuids 2.

(** The sample project beside a project [/q] whose config file does not
    parse. *)
Definition world_with_broken_project : World Task.t :=
  mkWorld (<["/q/.config-viban.yml" := YamlInvalid "bad indentation of a mapping entry"]>
             (configFiles sample_world))
          (tasksFiles sample_world)
          sample_clock 0 sample_uuids 2.

(** A server that has just been constructed, and a server on the sample
    project. *)
Definition new_server (w : World Task.t) : WebServer.State :=
  WebServer.mkState {| WebServer.projectPath := None; WebServer.board := None |} w None.

Definition server_on_sample (w : World Task.t) : WebServer.State :=
  WebServer.mkState {| WebServer.projectPath := Some "/p";
                       WebServer.board := Some sample_board |} w None.

(** [path.resolve] on paths that are absolute and normalised. *)
Definition resolve_absolute (path : string) : string := path.

Definition titled (title : option string) : WebServer.NewTaskBody.t :=
  {| WebServer.NewTaskBody.title := title;
     WebServer.NewTaskBody.description := None;
     WebServer.NewTaskBody.column := Some todo;
     WebServer.NewTaskBody.priority := None |}.

(** An update that empties the title. *)
Definition untitle : PartialTask.t :=
  KanbanBoard.as_PartialTask
    {| UpdateTaskInput.title := Present (Some "");
       UpdateTaskInput.description := Absent;
       UpdateTaskInput.priority := Absent |}.

Ltac unfold_M :=
  unfold mbind, M_bind, mret, M_ret, gets, modify, try_catch, throw in *.

(** * Properties *)

(** ** [findIndex] *)

Section FindIndex.
Context {A : Type} (p : A -> bool).

Lemma findIndex_range (l : list A) :
  (-1 <= findIndex p l < Z.of_nat (length l))%Z.
Proof.
  induction l as [|x l IH]; simpl; [lia|].
  destruct (p x); [lia|].
  destruct (Z.eqb_spec (findIndex p l) (-1)); lia.
Qed.

Lemma findIndex_none (l : list A) :
  findIndex p l = (-1)%Z <-> Forall (fun x => p x = false) l.
Proof.
  induction l as [|x l IH]; simpl.
  - split; [constructor|reflexivity].
  - destruct (p x) eqn:Hx.
    + split; [discriminate|]. intros H. inversion H; congruence.
    + pose proof (findIndex_range l) as Hr.
      destruct (Z.eqb_spec (findIndex p l) (-1)) as [Heq|Hne].
      * split; [|reflexivity]. intros _. constructor; [assumption|]. apply IH, Heq.
      * split; [lia|]. intros H. inversion H; subst. exfalso. apply Hne, IH. assumption.
Qed.

(** The index returned is that of the first element satisfying [p]. *)
Lemma findIndex_first (l : list A) (i : nat) (x : A) :
  l !! i = Some x -> p x = true ->
  (forall j y, j < i -> l !! j = Some y -> p y = false) ->
  findIndex p l = Z.of_nat i.
Proof.
  revert i. induction l as [|a l IH]; intros i Hi Hx Hbefore; [discriminate|].
  simpl. destruct i as [|i]; simpl in Hi.
  - injection Hi as ->. rewrite Hx. reflexivity.
  - rewrite (Hbefore 0 a) by (simpl; first [lia|reflexivity]).
    rewrite (IH i Hi Hx).
    + destruct (Z.eqb_spec (Z.of_nat i) (-1)); lia.
    + intros j y Hj Hy. apply (Hbefore (S j) y); [lia|exact Hy].
Qed.

Lemma findIndex_found (l : list A) :
  findIndex p l <> (-1)%Z ->
  exists x, l !! Z.to_nat (findIndex p l) = Some x /\ p x = true /\
            forall j y, j < Z.to_nat (findIndex p l) -> l !! j = Some y -> p y = false.
Proof.
  induction l as [|a l IH]; simpl; [congruence|].
  destruct (p a) eqn:Ha.
  - intros _. exists a. simpl. split; [reflexivity|]. split; [assumption|]. intros; lia.
  - pose proof (findIndex_range l) as Hr.
    destruct (Z.eqb_spec (findIndex p l) (-1)) as [Heq|Hne]; [congruence|].
    intros _. destruct (IH Hne) as (x & Hx & Hpx & Hbefore).
    exists x. replace (Z.to_nat (findIndex p l + 1)) with (S (Z.to_nat (findIndex p l))) by lia.
    simpl. split; [assumption|]. split; [assumption|].
    intros [|j] y Hj Hy; simpl in Hy.
    + congruence.
    + apply (Hbefore j y); [lia|assumption].
Qed.

(** [find] returns the element at the index [findIndex] returns. *)
Lemma find_findIndex (l : list A) :
  find p l = if (findIndex p l =? -1)%Z then None else l !! Z.to_nat (findIndex p l).
Proof.
  induction l as [|a l IH]; simpl; [reflexivity|].
  destruct (p a) eqn:Ha; [reflexivity|].
  pose proof (findIndex_range l) as Hr.
  rewrite IH. destruct (Z.eqb_spec (findIndex p l) (-1)) as [Heq|Hne]; [reflexivity|].
  destruct (Z.eqb_spec (findIndex p l + 1) (-1)); [lia|].
  replace (Z.to_nat (findIndex p l + 1)) with (S (Z.to_nat (findIndex p l))) by lia.
  reflexivity.
Qed.

Lemma find_none_Forall (l : list A) :
  Forall (fun x => p x = false) l -> find p l = None.
Proof.
  induction 1 as [|x l Hx _ IH]; simpl; [reflexivity|]. rewrite Hx. exact IH.
Qed.

End FindIndex.

Lemma list_alter_found {A} (f : A -> A) (l : list A) (i : nat) (x : A) :
  l !! i = Some x -> alter f i l = <[i := f x]> l.
Proof.
  revert i. induction l as [|a l IH]; intros [|i] Hi; try discriminate; simpl in *.
  - injection Hi as ->. reflexivity.
  - f_equal. apply IH, Hi.
Qed.

(** ** The config store and the task store *)

Section Stores.
Context {E : Type}.
Implicit Types (w v : World E) (p : string) (ts : list E).

(** [loadConfig], case by case on the config file. *)
Lemma loadConfig_eq p w :
  Config.loadConfig p w =
  match configFiles w !! Config.getConfigPath p with
  | None =>
      (Return (config_created w),
       mkWorld (<[Config.getConfigPath p := Config.yaml_stringify (config_created w)]>
                  (configFiles w))
               (tasksFiles w) (clock w) (S (clockReads w)) (uuids w) (uuidsDrawn w))
  | Some (YamlInvalid why) =>
      (Throw (new_Error ("Failed to parse config file: " +:+ Config.getConfigPath p)), w)
  | Some YamlNull => (Return (Config.spread_defaults None), w)
  | Some (YamlMapping m) => (Return (Config.spread_defaults (Some m)), w)
  end.
Proof.
  unfold Config.loadConfig, existsSync_config, readFileSync_config, Config.saveConfig,
    writeFileSync_config, Date_toISOString, yaml_parse.
  unfold_M.
  destruct (configFiles w !! Config.getConfigPath p) as [[why| |m]|] eqn:Hc;
    simpl; rewrite ?Hc; reflexivity.
Qed.

(** A config that was loaded is loaded again as it is, and nothing is
    written. *)
Lemma loadConfig_again p w w' (config : BoardConfig.t) :
  Config.loadConfig p w = (Return config, w') ->
  Config.loadConfig p w' = (Return config, w').
Proof.
  rewrite !loadConfig_eq.
  destruct (configFiles w !! Config.getConfigPath p) as [[why| |m]|] eqn:Hc.
  - discriminate.
  - intros [= <- <-]. rewrite Hc. reflexivity.
  - intros [= <- <-]. rewrite Hc. reflexivity.
  - intros [= <- <-]. simpl. rewrite lookup_insert_eq. reflexivity.
Qed.

Lemma saveTasks_eq p ts w :
  Storage.saveTasks p ts w =
  match Config.loadConfig p w with
  | (Throw e, w') => (Throw e, w')
  | (Return cfg, w') =>
      let tp := path_join p (BoardConfig.tasksFile cfg) in
      (Return tt,
       set_tasksFiles (<[tp := JSON_stringify ts]> (delete (tp +:+ ".tmp") (tasksFiles w'))) w')
  end.
Proof.
  unfold Storage.saveTasks, Storage.getTasksPath, writeFileSync_tasks, renameSync_tasks.
  unfold_M. destruct (Config.loadConfig p w) as [[cfg|e] w']; [|reflexivity].
  simpl. rewrite lookup_insert_eq. simpl. rewrite delete_insert_eq.
  unfold set_tasksFiles. simpl. reflexivity.
Qed.

Lemma loadTasks_eq p w :
  Storage.loadTasks p w =
  match Config.loadConfig p w with
  | (Throw e, w') => (Throw e, w')
  | (Return cfg, w') =>
      let tp := path_join p (BoardConfig.tasksFile cfg) in
      match tasksFiles w' !! tp with
      | None =>
          match Storage.saveTasks p [] w' with
          | (Return _, w'') => (Return [], w'')
          | (Throw e, w'') => (Throw e, w'')
          end
      | Some (JsonInvalid why) =>
          (Throw (new_Error ("Invalid JSON in tasks file: " +:+ tp)), w')
      | Some (JsonText JsonOther) =>
          (Throw (new_Error "Tasks file must contain an array"), w')
      | Some (JsonText (JsonArray elems)) => (Return elems, w')
      end
  end.
Proof.
  unfold Storage.loadTasks, Storage.getTasksPath, existsSync_tasks, readFileSync_tasks, JSON_parse.
  unfold_M. destruct (Config.loadConfig p w) as [[cfg|e] w']; [|reflexivity].
  simpl.
  destruct (tasksFiles w' !! path_join p (BoardConfig.tasksFile cfg)) as [[why|[elems|]]|] eqn:Ht;
    simpl; rewrite ?Ht; reflexivity.
Qed.

Lemma loadConfig_Stored p w content cfg :
  configFiles w !! Config.getConfigPath p = Some content ->
  parsed_config content = Some cfg ->
  Config.loadConfig p w = (Return cfg, w).
Proof.
  intros Hc Hp. rewrite loadConfig_eq, Hc.
  destruct content; unfold parsed_config in Hp; [discriminate| |];
    injection Hp as <-; reflexivity.
Qed.

(** In an initialised project a load returns the stored array and writes
    nothing. *)
Lemma loadTasks_Stored p ts w :
  Stored p ts w -> Storage.loadTasks p w = (Return ts, w).
Proof.
  intros (content & cfg & Hc & Hp & Ht).
  rewrite loadTasks_eq, (loadConfig_Stored p w content cfg Hc Hp).
  simpl. rewrite Ht. reflexivity.
Qed.

(** In an initialised project a save replaces the stored array and touches
    neither the clock nor the uuid generator. *)
Lemma saveTasks_Stored p ts ts' w :
  Stored p ts w ->
  exists w', Storage.saveTasks p ts' w = (Return tt, w') /\ Stored p ts' w' /\
             clock w' = clock w /\ clockReads w' = clockReads w /\
             uuids w' = uuids w /\ uuidsDrawn w' = uuidsDrawn w.
Proof.
  intros (content & cfg & Hc & Hp & Ht).
  rewrite saveTasks_eq, (loadConfig_Stored p w content cfg Hc Hp).
  eexists. split; [reflexivity|]. split; [|repeat split].
  exists content, cfg. simpl. split; [assumption|]. split; [assumption|].
  apply lookup_insert_eq.
Qed.

(** After a successful load the project is initialised and holds what was
    returned. *)
Lemma loadTasks_Return p ts w w1 :
  Storage.loadTasks p w = (Return ts, w1) -> Stored p ts w1.
Proof.
  rewrite loadTasks_eq, loadConfig_eq.
  destruct (configFiles w !! Config.getConfigPath p) as [[why| |m]|] eqn:Hc.
  - discriminate.
  - simpl. destruct (tasksFiles w !! _) as [[why|[elems|]]|] eqn:Ht; try discriminate.
    + intros [= <- <-]. exists YamlNull. eexists.
      split; [eassumption|]. split; [reflexivity|]. exact Ht.
    + rewrite saveTasks_eq, loadConfig_eq, Hc. simpl. intros [= <- <-].
      exists YamlNull. eexists.
      split; [eassumption|]. split; [reflexivity|]. simpl. apply lookup_insert_eq.
  - simpl. destruct (tasksFiles w !! _) as [[why|[elems|]]|] eqn:Ht; try discriminate.
    + intros [= <- <-]. exists (YamlMapping m). eexists.
      split; [eassumption|]. split; [reflexivity|]. exact Ht.
    + rewrite saveTasks_eq, loadConfig_eq, Hc. simpl. intros [= <- <-].
      exists (YamlMapping m). eexists.
      split; [eassumption|]. split; [reflexivity|]. simpl. apply lookup_insert_eq.
  - simpl. destruct (tasksFiles w !! _) as [[why|[elems|]]|] eqn:Ht; try discriminate.
    + intros [= <- <-]. eexists. eexists. simpl.
      split; [apply lookup_insert_eq|]. split; [reflexivity|]. exact Ht.
    + rewrite saveTasks_eq, loadConfig_eq. simpl. rewrite lookup_insert_eq. simpl.
      intros [= <- <-]. eexists. eexists. simpl.
      split; [apply lookup_insert_eq|]. split; [reflexivity|]. simpl. apply lookup_insert_eq.
Qed.

(** What a load returns depends on the files only, not on the clock or on
    the uuid generator, and a load draws no uuid. *)
Lemma loadTasks_same_files p ts w w1 v :
  same_files w v ->
  Storage.loadTasks p w = (Return ts, w1) ->
  exists v1, Storage.loadTasks p v = (Return ts, v1) /\
             clock v1 = clock v /\ uuids v1 = uuids v /\ uuidsDrawn v1 = uuidsDrawn v.
Proof.
  intros [Hcf Htf]. rewrite !loadTasks_eq, !loadConfig_eq, <- Hcf.
  destruct (configFiles w !! Config.getConfigPath p) as [[why| |m]|] eqn:Hc; simpl.
  - discriminate.
  - rewrite <- Htf. destruct (tasksFiles w !! _) as [[why|[elems|]]|] eqn:Ht; try discriminate.
    + intros [= <- <-]. eauto.
    + rewrite !saveTasks_eq, !loadConfig_eq, <- Hcf, Hc. simpl. intros [= <- <-]. eauto.
  - rewrite <- Htf. destruct (tasksFiles w !! _) as [[why|[elems|]]|] eqn:Ht; try discriminate.
    + intros [= <- <-]. eauto.
    + rewrite !saveTasks_eq, !loadConfig_eq, <- Hcf, Hc. simpl. intros [= <- <-]. eauto.
  - rewrite <- Htf. destruct (tasksFiles w !! _) as [[why|[elems|]]|] eqn:Ht; try discriminate.
    + intros [= <- <-]. eauto.
    + rewrite !saveTasks_eq, !loadConfig_eq. simpl. rewrite !lookup_insert_eq. simpl.
      intros [= <- <-]. eauto.
Qed.

End Stores.

(** ** Task Store: [loadTasks] *)

(** C7, as amended.  Let the project's config load.  When the task file is
    absent, [loadTasks] creates it holding the empty array and returns the
    empty collection.  When the file is present, [loadTasks] fails exactly when
    its content is not valid JSON (the error names the file) or is not an
    array at the top level, and then writes nothing; every array is returned
    as parsed, whatever its elements are: they are not checked for the shape
    of a task. *)
Theorem loadTasks_checks_array_only {E : Type}
    (projectPath : string) (w wc : World E) (config : BoardConfig.t) :
  Config.loadConfig projectPath w = (Return config, wc) ->
  let tasksPath := path_join projectPath (BoardConfig.tasksFile config) in
  match tasksFiles wc !! tasksPath with
  | None =>
      exists w1,
        Storage.loadTasks projectPath w = (Return [], w1) /\
        tasksFiles w1 !! tasksPath = Some (JsonText (JsonArray []))
  | Some content =>
      ((exists e, Storage.loadTasks projectPath w = (Throw e, wc)) <-> is_array content = false) /\
      (forall why, content = JsonInvalid why ->
         Storage.loadTasks projectPath w
           = (Throw (new_Error ("Invalid JSON in tasks file: " +:+ tasksPath)), wc)) /\
      (content = JsonText JsonOther ->
         Storage.loadTasks projectPath w
           = (Throw (new_Error "Tasks file must contain an array"), wc)) /\
      (forall elems, content = JsonText (JsonArray elems) ->
         Storage.loadTasks projectPath w = (Return elems, wc))
  end.
Proof.
  intros Hc tasksPath. rewrite loadTasks_eq, Hc. cbv zeta. fold tasksPath.
  destruct (tasksFiles wc !! tasksPath) as [[why|[elems|]]|] eqn:Ht.
  - split; [split; [intros _; reflexivity|intros _; eauto]|].
    split; [reflexivity|]. split; discriminate.
  - split; [split; [intros [e He]; discriminate|discriminate]|].
    split; [discriminate|]. split; [discriminate|].
    intros elems' [= <-]. reflexivity.
  - split; [split; [intros _; reflexivity|intros _; eauto]|].
    split; [discriminate|]. split; [reflexivity|discriminate].
  - rewrite saveTasks_eq, (loadConfig_again _ _ _ _ Hc).
    eexists. split; [reflexivity|]. simpl. apply lookup_insert_eq.
Qed.

(** The theorem at a task file holding [[42]]: the load succeeds. *)
Lemma loadTasks_checks_array_only_witness :
  Config.loadConfig "/p" world_with_numbers
    = (Return (Config.spread_defaults None), world_with_numbers) /\
  Storage.loadTasks "/p" world_with_numbers = (Return [Jnumber 42], world_with_numbers).
Proof.
  assert (Config.loadConfig "/p" world_with_numbers
          = (Return (Config.spread_defaults None), world_with_numbers)) as Hc
    by (vm_compute; reflexivity).
  split; [exact Hc|].
  pose proof (loadTasks_checks_array_only "/p" world_with_numbers world_with_numbers
                (Config.spread_defaults None) Hc) as H.
  assert (tasksFiles world_with_numbers !! path_join "/p" (BoardConfig.tasksFile (Config.spread_defaults None))
          = Some (JsonText (JsonArray [Jnumber 42]))) as Hfile
    by (vm_compute; reflexivity).
  cbv zeta in H. rewrite Hfile in H.
  exact (proj2 (proj2 (proj2 H)) [Jnumber 42] eq_refl).
Defined.

(** C7 as stated fails: the content [[42]] is no collection of task-shaped
    records, and [loadTasks] returns it without failing. *)
Lemma loadTasks_accepts_any_array :
  task_collection (JsonText (JsonArray [Jnumber 42])) = false /\
  tasksFiles world_with_numbers !! "/p/tasks.json" = Some (JsonText (JsonArray [Jnumber 42])) /\
  Storage.loadTasks "/p" world_with_numbers = (Return [Jnumber 42], world_with_numbers).
Proof. vm_compute. repeat split; reflexivity. Qed.

(** An array of tasks is a collection of task-shaped records; one with a
    task and a number is not. *)
Example task_collection_sample :
  task_collection (JsonText (JsonArray [login_task_json])) = true /\
  task_collection (JsonText (JsonArray [login_task_json; Jnumber 42])) = false.
Proof. split; vm_compute; reflexivity. Qed.

(** ** Config Store: [loadConfig] *)

(** C8, as amended.  On a project directory without a config file,
    [loadConfig] returns the defaults with a [createdAt] read from the clock,
    writes them to the config file, and a second [loadConfig] returns the same
    values and writes nothing.  On an existing config file [loadConfig] writes
    nothing and merges field by field: [boardName] and [tasksFile] fall back
    to their defaults when the stored document lacks them, and [createdAt] is
    returned as stored, with no default behind it. *)
Theorem loadConfig_defaults_and_merge {E : Type} (projectPath : string) (w : World E) :
  (configFiles w !! Config.getConfigPath projectPath = None ->
     let config := {| BoardConfig.boardName := "Kanban Board";
                      BoardConfig.tasksFile := "tasks.json";
                      BoardConfig.createdAt := Some (clock w (clockReads w)) |} in
     exists w1,
       Config.loadConfig projectPath w = (Return config, w1) /\
       configFiles w1 !! Config.getConfigPath projectPath = Some (Config.yaml_stringify config) /\
       tasksFiles w1 = tasksFiles w /\
       Config.loadConfig projectPath w1 = (Return config, w1)) /\
  (forall stored,
     configFiles w !! Config.getConfigPath projectPath = Some (YamlMapping stored) ->
     Config.loadConfig projectPath w =
       (Return {| BoardConfig.boardName := default "Kanban Board" (StoredConfig.boardName stored);
                  BoardConfig.tasksFile := default "tasks.json" (StoredConfig.tasksFile stored);
                  BoardConfig.createdAt := StoredConfig.createdAt stored |}, w)) /\
  (configFiles w !! Config.getConfigPath projectPath = Some YamlNull ->
     Config.loadConfig projectPath w =
       (Return {| BoardConfig.boardName := "Kanban Board";
                  BoardConfig.tasksFile := "tasks.json";
                  BoardConfig.createdAt := None |}, w)).
Proof.
  split; [|split].
  - intros Hc config. rewrite loadConfig_eq, Hc. eexists. split; [reflexivity|].
    split; [apply lookup_insert_eq|]. split; [reflexivity|].
    rewrite loadConfig_eq. simpl. rewrite lookup_insert_eq. reflexivity.
  - intros stored Hc. rewrite loadConfig_eq, Hc. reflexivity.
  - intros Hc. rewrite loadConfig_eq, Hc. reflexivity.
Qed.

(** The theorem on a fresh directory and on a config file that stores a
    board name only. *)
Lemma loadConfig_defaults_and_merge_witness :
  configFiles fresh_world !! Config.getConfigPath "/p" = None /\
  (exists w1,
     Config.loadConfig "/p" fresh_world
       = (Return {| BoardConfig.boardName := "Kanban Board";
                    BoardConfig.tasksFile := "tasks.json";
                    BoardConfig.createdAt := Some "2026-03-01T09:00:00.000Z" |}, w1) /\
     Config.loadConfig "/p" w1
       = (Return {| BoardConfig.boardName := "Kanban Board";
                    BoardConfig.tasksFile := "tasks.json";
                    BoardConfig.createdAt := Some "2026-03-01T09:00:00.000Z" |}, w1)) /\
  Config.loadConfig "/p" world_with_old_config
    = (Return {| BoardConfig.boardName := "Sprint 12";
                 BoardConfig.tasksFile := "tasks.json";
                 BoardConfig.createdAt := None |}, world_with_old_config).
Proof.
  assert (configFiles fresh_world !! Config.getConfigPath "/p" = None) as Hnone
    by (vm_compute; reflexivity).
  split; [exact Hnone|]. split.
  - destruct (proj1 (loadConfig_defaults_and_merge "/p" fresh_world) Hnone)
      as (w1 & Hload & _ & _ & Hagain).
    exists w1. split; [exact Hload|exact Hagain].
  - apply (proj1 (proj2 (loadConfig_defaults_and_merge "/p" world_with_old_config))
             {| StoredConfig.boardName := Some "Sprint 12";
                StoredConfig.tasksFile := None;
                StoredConfig.createdAt := None |}).
    vm_compute. reflexivity.
Defined.

(** C8 as stated fails for [createdAt]: a stored document without it does
    not fall back to any default, the config returned has no [createdAt]. *)
Lemma loadConfig_no_default_createdAt :
  Config.loadConfig "/p" world_with_old_config =
    (Return {| BoardConfig.boardName := "Sprint 12";
               BoardConfig.tasksFile := "tasks.json";
               BoardConfig.createdAt := None |}, world_with_old_config).
Proof. vm_compute. reflexivity. Qed.

(** ** Board Engine *)

Section Board.
Implicit Types (w v : World Task.t) (p taskId : string) (ts : list Task.t).

Lemma unknown_id_Forall taskId ts :
  taskId ∉ ids ts -> Forall (fun t => String.eqb (Task.id t) taskId = false) ts.
Proof.
  intros Hnot. apply Forall_forall. intros t Ht.
  apply String.eqb_neq. intros Heq. apply Hnot. unfold ids.
  rewrite <- Heq. apply list_elem_of_fmap_2. exact Ht.
Qed.

Lemma findIndex_unknown taskId ts :
  taskId ∉ ids ts -> findIndex (fun t => String.eqb (Task.id t) taskId) ts = (-1)%Z.
Proof. intros H. apply findIndex_none, unknown_id_Forall, H. Qed.

Lemma find_unknown taskId ts :
  taskId ∉ ids ts -> find (fun t => String.eqb (Task.id t) taskId) ts = None.
Proof. intros H. apply find_none_Forall, unknown_id_Forall, H. Qed.

Lemma findIndex_first_with_id ts taskId i old :
  first_with_id ts taskId i old ->
  findIndex (fun t => String.eqb (Task.id t) taskId) ts = Z.of_nat i.
Proof.
  intros (Hi & Hid & Hbefore). apply (findIndex_first _ ts i old Hi).
  - apply String.eqb_eq, Hid.
  - intros j t Hj Ht. apply String.eqb_neq. eauto.
Qed.

(** An id of the collection has a first task carrying it. *)
Lemma first_with_id_exists ts taskId :
  taskId ∈ ids ts -> exists i old, first_with_id ts taskId i old.
Proof.
  intros Hin.
  destruct (Z.eq_dec (findIndex (fun t => String.eqb (Task.id t) taskId) ts) (-1)%Z) as [Hn|Hn].
  - apply findIndex_none in Hn. exfalso.
    unfold ids in Hin. apply list_elem_of_fmap in Hin as (t & -> & Ht).
    rewrite Forall_forall in Hn. specialize (Hn t Ht). apply String.eqb_neq in Hn. congruence.
  - destruct (findIndex_found _ ts Hn) as (x & Hx & Hpx & Hbefore).
    exists (Z.to_nat (findIndex (fun t => String.eqb (Task.id t) taskId) ts)), x.
    split; [exact Hx|]. split; [apply String.eqb_eq, Hpx|].
    intros j t Hj Ht. apply String.eqb_neq. eauto.
Qed.

(** In a collection that is unique by id every task is the first with its
    id. *)
Lemma NoDup_first_with_id ts i old :
  NoDup (ids ts) -> ts !! i = Some old -> first_with_id ts (Task.id old) i old.
Proof.
  intros Hnd Hi. split; [exact Hi|]. split; [reflexivity|].
  intros j t Hj Ht Heq.
  assert (ids ts !! j = Some (Task.id t)) as H1
    by (unfold ids; rewrite list_lookup_fmap, Ht; reflexivity).
  assert (ids ts !! i = Some (Task.id old)) as H2
    by (unfold ids; rewrite list_lookup_fmap, Hi; reflexivity).
  rewrite Heq in H1. pose proof (NoDup_lookup _ _ _ _ Hnd H1 H2). lia.
Qed.

Lemma ids_delete ts i : ids (delete i ts) = delete i (ids ts).
Proof.
  unfold ids. revert i. induction ts as [|t ts IH]; intros [|i]; simpl; try reflexivity.
  f_equal. apply IH.
Qed.

Lemma NoDup_delete_first ts taskId i old :
  NoDup (ids ts) -> first_with_id ts taskId i old -> taskId ∉ ids (delete i ts).
Proof.
  intros Hnd (Hi & Hid & _) Hin.
  rewrite ids_delete in Hin.
  apply list_elem_of_lookup in Hin as (j & Hj).
  assert (ids ts !! i = Some taskId) as Hi'
    by (unfold ids; rewrite list_lookup_fmap, Hi; simpl; congruence).
  destruct (decide (j < i)) as [Hlt|Hge].
  - rewrite list_lookup_delete_lt in Hj by exact Hlt.
    pose proof (NoDup_lookup _ _ _ _ Hnd Hj Hi'). lia.
  - rewrite list_lookup_delete_ge in Hj by lia.
    pose proof (NoDup_lookup _ _ _ _ Hnd Hj Hi'). lia.
Qed.

Lemma Stored_tick p ts w : Stored p ts w -> Stored p ts (tick w).
Proof. intros H. exact H. Qed.

(** *** [createTask] *)

Lemma createTask_appends (this : KanbanBoard.t) (input : CreateTaskInput.t) w w1 ts :
  Storage.loadTasks (KanbanBoard.projectPath this) w = (Return ts, w1) ->
  exists w2,
    KanbanBoard.createTask this input w = (Return (created_task input w), w2) /\
    Storage.loadTasks (KanbanBoard.projectPath this) w2
      = (Return (ts ++ [created_task input w]), w2) /\
    uuids w2 = uuids w /\ uuidsDrawn w2 = S (uuidsDrawn w).
Proof.
  intros Hload.
  unfold KanbanBoard.createTask, Date_toISOString, uuidv4. unfold_M.
  match goal with |- context [Storage.loadTasks _ ?v] =>
    destruct (loadTasks_same_files _ ts w w1 v (conj eq_refl eq_refl) Hload)
      as (v1 & Hload' & _ & Hu & Hd)
  end.
  rewrite Hload'.
  pose proof (loadTasks_Return _ _ _ _ Hload') as Hst.
  match goal with |- context [Storage.saveTasks _ ?l v1] =>
    destruct (saveTasks_Stored _ ts l v1 Hst) as (w2 & Hsave & Hst2 & _ & _ & Hu2 & Hd2)
  end.
  rewrite Hsave. exists w2. split; [reflexivity|].
  split; [apply loadTasks_Stored, Hst2|].
  split; [rewrite Hu2, Hu; reflexivity|rewrite Hd2, Hd; reflexivity].
Qed.

(** When the ids of the collection come from the uuid generator, and the
    generator's next value differs from those it returned before, the next
    value is not an id of the collection. *)
Lemma generated_ids_fresh w ts :
  generated w ts ->
  (forall k, k < uuidsDrawn w -> uuids w k <> uuids w (uuidsDrawn w)) ->
  uuids w (uuidsDrawn w) ∉ ids ts.
Proof.
  intros Hgen Hnew Hin. unfold ids in Hin.
  apply list_elem_of_fmap in Hin as (t & Hid & Ht).
  destruct (Hgen t Ht) as (k & Hk & Hidk).
  apply (Hnew k Hk). congruence.
Qed.

(** [createTask] keeps the ids of the collection among the generated ones. *)
Lemma createTask_keeps_generated (this : KanbanBoard.t) (input : CreateTaskInput.t)
    w w1 w2 ts task :
  Storage.loadTasks (KanbanBoard.projectPath this) w = (Return ts, w1) ->
  generated w ts ->
  KanbanBoard.createTask this input w = (Return task, w2) ->
  generated w2 (ts ++ [task]).
Proof.
  intros Hload Hgen Hcreate.
  destruct (createTask_appends this input w w1 ts Hload) as (w2' & Hc & _ & Hu & Hd).
  rewrite Hc in Hcreate. injection Hcreate as <- <-.
  intros t Ht. rewrite Hu, Hd. apply elem_of_app in Ht as [Ht|Ht].
  - destruct (Hgen t Ht) as (k & Hk & Hid). exists k. split; [lia|exact Hid].
  - apply list_elem_of_singleton in Ht as ->. exists (uuidsDrawn w). split; [lia|reflexivity].
Qed.

(** C1: the code at the failing input.  [createTask] checks nothing about
    the title: given an empty title it does not fail, it returns a task with
    the empty title and appends it to the stored collection. *)
Theorem createTask_accepts_empty_title
    (this : KanbanBoard.t) (input : CreateTaskInput.t)
    (w w1 : World Task.t) (ts : list Task.t) :
  Storage.loadTasks (KanbanBoard.projectPath this) w = (Return ts, w1) ->
  CreateTaskInput.title input = "" ->
  exists task w2,
    KanbanBoard.createTask this input w = (Return task, w2) /\
    Task.title task = Some "" /\
    Storage.loadTasks (KanbanBoard.projectPath this) w2 = (Return (ts ++ [task]), w2).
Proof.
  intros Hload Htitle.
  destruct (createTask_appends this input w w1 ts Hload) as (w2 & Hcreate & Hload2 & _).
  exists (created_task input w), w2.
  split; [exact Hcreate|]. split; [simpl; rewrite Htitle; reflexivity|exact Hload2].
Qed.

(** The theorem on a fresh project directory: the task with the empty title
    becomes the stored collection. *)
Lemma createTask_accepts_empty_title_witness :
  Storage.loadTasks "/p" fresh_world = (Return [], snd (Storage.loadTasks "/p" fresh_world)) /\
  CreateTaskInput.title empty_title_input = "" /\
  exists task w2,
    KanbanBoard.createTask sample_board empty_title_input fresh_world = (Return task, w2) /\
    Task.title task = Some "" /\
    Storage.loadTasks "/p" w2 = (Return [task], w2).
Proof.
  assert (Storage.loadTasks "/p" fresh_world
          = (Return [], snd (Storage.loadTasks "/p" fresh_world))) as Hload
    by (vm_compute; reflexivity).
  split; [exact Hload|]. split; [reflexivity|].
  exact (createTask_accepts_empty_title sample_board empty_title_input fresh_world _ []
           Hload eq_refl).
Defined.




(** *** [updateTask] and [moveTask] *)

Lemma Storage_updateTask_unknown p taskId updates w w1 ts :
  Storage.loadTasks p w = (Return ts, w1) ->
  taskId ∉ ids ts ->
  Storage.updateTask p taskId updates w = (Return None, w1).
Proof.
  intros Hload Hid. unfold Storage.updateTask. unfold_M. rewrite Hload.
  rewrite (findIndex_unknown _ _ Hid). reflexivity.
Qed.

Lemma Storage_updateTask_found p taskId updates w w1 ts i old :
  Storage.loadTasks p w = (Return ts, w1) ->
  first_with_id ts taskId i old ->
  let new := Storage.spread_updates old updates (clock w1 (clockReads w1)) in
  exists w2,
    Storage.updateTask p taskId updates w = (Return (Some new), w2) /\
    Storage.loadTasks p w2 = (Return (<[i := new]> ts), w2).
Proof.
  intros Hload Hfirst new.
  pose proof (loadTasks_Return _ _ _ _ Hload) as Hst.
  destruct (saveTasks_Stored p ts (<[i := new]> ts) (tick w1) (Stored_tick _ _ _ Hst))
    as (w2 & Hsave & Hst2 & _).
  exists w2. split; [|apply loadTasks_Stored, Hst2].
  unfold Storage.updateTask. unfold_M. rewrite Hload.
  rewrite (findIndex_first_with_id _ _ _ _ Hfirst).
  destruct (Z.eqb_spec (Z.of_nat i) (-1)) as [?|_]; [lia|].
  unfold Date_toISOString. rewrite Nat2Z.id.
  destruct Hfirst as (Hi & _ & _).
  rewrite (list_alter_found _ _ _ _ Hi). fold new. fold (tick w1). rewrite Hsave.
  rewrite list_lookup_insert_eq by (apply lookup_lt_Some in Hi; exact Hi).
  reflexivity.
Qed.

(** C4: the code at the failing inputs.  Let the store hold the collection
    [ts].  [updateTask] spreads the update over the task [old] found under
    [taskId] (the first of [ts] with that id), key by key, and checks
    nothing.  A key of the update that is present sets the field, also when
    it holds [undefined]: a title, description or priority that was not
    supplied, but whose key is there, is erased.  The keys [id], [column] and
    [createdAt] are no exception: when the update carries one, the task gets
    its value.  Only a key that is absent leaves the field of [old].  The
    task gets the [updatedAt] read from the clock, the stored collection
    becomes [ts] with the task in the place of [old] and every other task as
    it was, and under an id that is not in [ts] [updateTask] returns absent
    and the stored collection stays [ts]. *)
Theorem updateTask_spreads_whatever_the_update_carries
    (this : KanbanBoard.t) (taskId : string) (updates : PartialTask.t)
    (w w1 : World Task.t) (ts : list Task.t) :
  Storage.loadTasks (KanbanBoard.projectPath this) w = (Return ts, w1) ->
  (forall i old, first_with_id ts taskId i old ->
     exists new w2,
       KanbanBoard.updateTask this taskId updates w = (Return (Some new), w2) /\
       Task.title new =
         match PartialTask.title updates with
         | Absent => Task.title old
         | Present title => title
         end /\
       Task.description new =
         match PartialTask.description updates with
         | Absent => Task.description old
         | Present description => description
         end /\
       Task.priority new =
         match PartialTask.priority updates with
         | Absent => Task.priority old
         | Present priority => priority
         end /\
       Task.id new =
         match PartialTask.id updates with
         | None => Task.id old
         | Some id => id
         end /\
       Task.column new =
         match PartialTask.column updates with
         | None => Task.column old
         | Some column => column
         end /\
       Task.createdAt new =
         match PartialTask.createdAt updates with
         | None => Task.createdAt old
         | Some createdAt => createdAt
         end /\
       Task.updatedAt new = clock w1 (clockReads w1) /\
       Storage.loadTasks (KanbanBoard.projectPath this) w2 = (Return (<[i := new]> ts), w2) /\
       length (<[i := new]> ts) = length ts /\
       (forall j, j <> i -> <[i := new]> ts !! j = ts !! j)) /\
  (taskId ∉ ids ts ->
     KanbanBoard.updateTask this taskId updates w = (Return None, w1) /\
     Storage.loadTasks (KanbanBoard.projectPath this) w1 = (Return ts, w1)).
Proof.
  intros Hload. split.
  - intros i old Hfirst.
    destruct (Storage_updateTask_found _ taskId updates _ _ _ _ _ Hload Hfirst)
      as (w2 & Hupd & Hload2).
    eexists. exists w2. split; [exact Hupd|]. simpl.
    split; [destruct (PartialTask.title updates); reflexivity|].
    split; [destruct (PartialTask.description updates); reflexivity|].
    split; [destruct (PartialTask.priority updates); reflexivity|].
    split; [destruct (PartialTask.id updates); reflexivity|].
    split; [destruct (PartialTask.column updates); reflexivity|].
    split; [destruct (PartialTask.createdAt updates); reflexivity|].
    split; [reflexivity|].
    split; [exact Hload2|]. split; [apply length_insert|].
    intros j Hj. apply list_lookup_insert_ne. congruence.
  - intros Hid. split.
    + apply (Storage_updateTask_unknown _ _ _ _ _ _ Hload Hid).
    + apply loadTasks_Stored, (loadTasks_Return _ _ _ _ Hload).
Qed.

(** The theorem on the sample project, at the two failing inputs.  The
    update the tool [update_task] passes for a priority alone takes the title
    and the description from the second task.  An update that carries [id],
    [column] and [createdAt] gives the second task the id of the first, so
    that two stored tasks share an id, and another column and creation time.
    In both runs the first task stays as it was. *)
Lemma updateTask_spreads_whatever_the_update_carries_witness :
  Storage.loadTasks "/p" sample_world = (Return [login_task; docs_task], sample_world) /\
  first_with_id [login_task; docs_task] "7d3c1a52-0002" 1 docs_task /\
  (exists new w2,
     KanbanBoard.updateTask sample_board "7d3c1a52-0002" priority_only sample_world
       = (Return (Some new), w2) /\
     Task.title docs_task = Some "Write docs" /\
     Task.title new = None /\
     Task.description docs_task = Some "README and changelog" /\
     Task.description new = None /\
     Task.priority new = Some high /\
     Storage.loadTasks "/p" w2 = (Return [login_task; new], w2)) /\
  (exists new w2,
     KanbanBoard.updateTask sample_board "7d3c1a52-0002" renumber sample_world
       = (Return (Some new), w2) /\
     Task.id new = "7d3c1a52-0001" /\
     Task.column new = done /\
     Task.createdAt new = "1999-01-01T00:00:00.000Z" /\
     Storage.loadTasks "/p" w2 = (Return [login_task; new], w2) /\
     ids [login_task; new] = ["7d3c1a52-0001"; "7d3c1a52-0001"]).
Proof.
  assert (Storage.loadTasks "/p" sample_world
          = (Return [login_task; docs_task], sample_world)) as Hload
    by (vm_compute; reflexivity).
  assert (first_with_id [login_task; docs_task] "7d3c1a52-0002" 1 docs_task) as Hfirst.
  { split; [reflexivity|]. split; [reflexivity|].
    intros [|j] t Hj Ht; [|lia]. injection Ht as <-. discriminate. }
  split; [exact Hload|]. split; [exact Hfirst|].
  pose proof (updateTask_spreads_whatever_the_update_carries sample_board "7d3c1a52-0002"
                priority_only sample_world sample_world _ Hload) as [Herase _].
  pose proof (updateTask_spreads_whatever_the_update_carries sample_board "7d3c1a52-0002"
                renumber sample_world sample_world _ Hload) as [Hrenumber _].
  split.
  - destruct (Herase 1 docs_task Hfirst)
      as (new & w2 & Hupd & Ht & Hd & Hp & _ & _ & _ & _ & Hload2 & _).
    exists new, w2. split; [exact Hupd|]. split; [reflexivity|]. split; [exact Ht|].
    split; [reflexivity|]. split; [exact Hd|]. split; [exact Hp|exact Hload2].
  - destruct (Hrenumber 1 docs_task Hfirst)
      as (new & w2 & Hupd & _ & _ & _ & Hi & Hc & Hcr & _ & Hload2 & _).
    exists new, w2. split; [exact Hupd|]. split; [exact Hi|]. split; [exact Hc|].
    split; [exact Hcr|]. split; [exact Hload2|].
    unfold ids. simpl. rewrite Hi. reflexivity.
Defined.

(** A key that is present and holds [undefined] is merged like any other:
    the tool [update_task], called with a priority only, passes the keys
    [title] and [description] holding [undefined], and the task comes back,
    and is stored, without its title and its description. *)
Lemma update_task_erases_omitted_arguments :
  exists new w2,
    McpServer.update_task sample_board "7d3c1a52-0002" None None (Some high) sample_world
      = (Return (Some new), w2) /\
    Task.title new = None /\
    Task.description new = None /\
    Task.priority new = Some high /\
    Storage.loadTasks "/p" w2 = (Return [login_task; new], w2).
Proof.
  eexists. eexists. split; [vm_compute; reflexivity|].
  repeat split; vm_compute; reflexivity.
Qed.

Lemma find_column_name (c : ColumnType) :
  find (fun c' => String.eqb (column_name c') (column_name c)) COLUMNS = Some c.
Proof. destruct c; reflexivity. Qed.

Lemma find_column_unknown (toColumn : string) :
  toColumn ∉ map column_name COLUMNS ->
  find (fun c => String.eqb (column_name c) toColumn) COLUMNS = None.
Proof.
  intros Hnot. apply find_none_Forall, Forall_forall. intros c Hc.
  apply String.eqb_neq. intros Heq. apply Hnot. rewrite <- Heq.
  apply list_elem_of_fmap_2, Hc.
Qed.

(** C3.  For a [toColumn] that is none of the four column names, [moveTask]
    throws an error whose message names [toColumn] and lists the four names,
    and leaves the state as it was.  For the name of a column [c], [moveTask]
    is [Storage.updateTask] with the update [{ column: c }]: it returns
    absent under an unknown id, and otherwise returns the task with its
    column set to [c] and its [updatedAt] read from the clock, stored in the
    place of the old one. *)
Theorem moveTask_validates_column
    (this : KanbanBoard.t) (taskId toColumn : string) (w : World Task.t) :
  (toColumn ∉ map column_name COLUMNS ->
     KanbanBoard.moveTask this taskId toColumn w =
       (Throw (new_Error ("Invalid column: " +:+ toColumn
                          +:+ ". Must be one of: backlog, todo, review, done")), w)) /\
  (forall c, toColumn = column_name c ->
     KanbanBoard.moveTask this taskId toColumn w =
       Storage.updateTask (KanbanBoard.projectPath this) taskId (KanbanBoard.only_column c) w /\
     forall ts w1,
       Storage.loadTasks (KanbanBoard.projectPath this) w = (Return ts, w1) ->
       (taskId ∉ ids ts ->
          KanbanBoard.moveTask this taskId toColumn w = (Return None, w1)) /\
       (forall i old, first_with_id ts taskId i old ->
          exists w2,
            let new := {| Task.id := Task.id old;
                          Task.title := Task.title old;
                          Task.description := Task.description old;
                          Task.column := c;
                          Task.priority := Task.priority old;
                          Task.createdAt := Task.createdAt old;
                          Task.updatedAt := clock w1 (clockReads w1) |} in
            KanbanBoard.moveTask this taskId toColumn w = (Return (Some new), w2) /\
            Storage.loadTasks (KanbanBoard.projectPath this) w2
              = (Return (<[i := new]> ts), w2))).
Proof.
  split.
  - intros Hnot. unfold KanbanBoard.moveTask. rewrite (find_column_unknown _ Hnot). reflexivity.
  - intros c ->.
    assert (KanbanBoard.moveTask this taskId (column_name c) w =
            Storage.updateTask (KanbanBoard.projectPath this) taskId
              (KanbanBoard.only_column c) w) as Heq
      by (unfold KanbanBoard.moveTask; rewrite find_column_name; reflexivity).
    split; [exact Heq|]. intros ts w1 Hload. rewrite Heq. split.
    + intros Hid. apply (Storage_updateTask_unknown _ _ _ _ _ _ Hload Hid).
    + intros i old Hfirst.
      destruct (Storage_updateTask_found _ taskId (KanbanBoard.only_column c)
                  _ _ _ _ _ Hload Hfirst) as (w2 & Hupd & Hload2).
      exists w2. destruct old. split; [exact Hupd|exact Hload2].
Qed.

(** The theorem on the sample project: the column [archive] is refused,
    the column [review] moves the first task. *)
Lemma moveTask_validates_column_witness :
  ("archive" ∉ map column_name COLUMNS) /\
  KanbanBoard.moveTask sample_board "7d3c1a52-0001" "archive" sample_world
    = (Throw (new_Error "Invalid column: archive. Must be one of: backlog, todo, review, done"),
       sample_world) /\
  KanbanBoard.moveTask sample_board "7d3c1a52-0001" "review" sample_world
    = Storage.updateTask "/p" "7d3c1a52-0001" (KanbanBoard.only_column review) sample_world.
Proof.
  assert ("archive" ∉ map column_name COLUMNS) as Hnot
    by (apply (bool_decide_unpack _); vm_compute; exact I).
  split; [exact Hnot|]. split.
  - exact (proj1 (moveTask_validates_column sample_board "7d3c1a52-0001" "archive" sample_world)
             Hnot).
  - exact (proj1 (proj2 (moveTask_validates_column sample_board "7d3c1a52-0001" "review"
                           sample_world) review eq_refl)).
Defined.

(** *** [deleteTask] *)

(** C6.  Let the store hold the collection [ts].  Under an id that is not in
    [ts], [deleteTask] returns false and the stored collection stays [ts].
    Under an id of [ts], [deleteTask] returns true and removes one entry, the
    first task with that id: the collection is one shorter and the other
    tasks keep their order; when the ids of [ts] are unique, [getTask] then
    returns absent for that id. *)
Theorem deleteTask_removes_one_entry
    (this : KanbanBoard.t) (taskId : string) (w w1 : World Task.t) (ts : list Task.t) :
  Storage.loadTasks (KanbanBoard.projectPath this) w = (Return ts, w1) ->
  (taskId ∉ ids ts ->
     KanbanBoard.deleteTask this taskId w = (Return false, w1) /\
     Storage.loadTasks (KanbanBoard.projectPath this) w1 = (Return ts, w1)) /\
  (taskId ∈ ids ts ->
     exists i old w2,
       first_with_id ts taskId i old /\
       KanbanBoard.deleteTask this taskId w = (Return true, w2) /\
       Storage.loadTasks (KanbanBoard.projectPath this) w2 = (Return (delete i ts), w2) /\
       delete i ts = take i ts ++ drop (S i) ts /\
       S (length (delete i ts)) = length ts /\
       (NoDup (ids ts) -> KanbanBoard.getTask this taskId w2 = (Return None, w2))).
Proof.
  intros Hload.
  pose proof (loadTasks_Return _ _ _ _ Hload) as Hst.
  unfold KanbanBoard.deleteTask, KanbanBoard.getTask, Storage.deleteTask, Storage.findTask.
  unfold_M. rewrite Hload. split.
  - intros Hid. rewrite (findIndex_unknown _ _ Hid). simpl.
    split; [reflexivity|]. apply loadTasks_Stored, Hst.
  - intros Hin. destruct (first_with_id_exists _ _ Hin) as (i & old & Hfirst).
    destruct (saveTasks_Stored _ ts (delete i ts) w1 Hst) as (w2 & Hsave & Hst2 & _).
    exists i, old, w2. split; [exact Hfirst|].
    rewrite (findIndex_first_with_id _ _ _ _ Hfirst).
    destruct (Z.eqb_spec (Z.of_nat i) (-1)) as [?|_]; [lia|].
    unfold splice1. rewrite Nat2Z.id, Hsave.
    split; [reflexivity|]. split; [apply loadTasks_Stored, Hst2|].
    split; [apply delete_take_drop|]. split.
    + destruct Hfirst as (Hi & _). apply lookup_lt_Some in Hi.
      rewrite length_delete by (apply lookup_lt_is_Some; exact Hi). lia.
    + intros Hnd. rewrite (loadTasks_Stored _ _ _ Hst2).
      rewrite find_unknown; [reflexivity|].
      apply (NoDup_delete_first _ _ _ _ Hnd Hfirst).
Qed.

(** The theorem on the sample project: deleting the first task leaves the
    second, and an unknown id deletes nothing. *)
Lemma deleteTask_removes_one_entry_witness :
  Storage.loadTasks "/p" sample_world = (Return [login_task; docs_task], sample_world) /\
  ("no-such-id" ∉ ids [login_task; docs_task]) /\
  ("7d3c1a52-0001" ∈ ids [login_task; docs_task]) /\
  NoDup (ids [login_task; docs_task]) /\
  KanbanBoard.deleteTask sample_board "no-such-id" sample_world = (Return false, sample_world) /\
  exists w2,
    KanbanBoard.deleteTask sample_board "7d3c1a52-0001" sample_world = (Return true, w2) /\
    KanbanBoard.getTask sample_board "7d3c1a52-0001" w2 = (Return None, w2).
Proof.
  assert (Storage.loadTasks "/p" sample_world
          = (Return [login_task; docs_task], sample_world)) as Hload
    by (vm_compute; reflexivity).
  assert ("no-such-id" ∉ ids [login_task; docs_task]) as Hnot
    by (apply (bool_decide_unpack _); vm_compute; exact I).
  assert ("7d3c1a52-0001" ∈ ids [login_task; docs_task]) as Hin
    by (apply (bool_decide_unpack _); vm_compute; exact I).
  assert (NoDup (ids [login_task; docs_task])) as Hnd
    by (apply (bool_decide_unpack _); vm_compute; exact I).
  split; [exact Hload|]. split; [exact Hnot|]. split; [exact Hin|]. split; [exact Hnd|].
  pose proof (deleteTask_removes_one_entry sample_board "no-such-id"
                sample_world sample_world _ Hload) as [Hunknown _].
  pose proof (deleteTask_removes_one_entry sample_board "7d3c1a52-0001"
                sample_world sample_world _ Hload) as [_ Hknown].
  split; [exact (proj1 (Hunknown Hnot))|].
  destruct (Hknown Hin) as (i & old & w2 & _ & Hdel & _ & _ & _ & Hget).
  exists w2. split; [exact Hdel|exact (Hget Hnd)].
Defined.

(** *** [getStats] *)

Lemma increment_stats_of b t r d task :
  KanbanBoard.increment (stats_of b t r d) task =
  stats_of (b + bump backlog task) (t + bump todo task)
           (r + bump review task) (d + bump done task).
Proof.
  unfold KanbanBoard.increment, stats_of, bump.
  destruct (Task.column task); simpl;
    repeat (first [rewrite alter_insert_eq | rewrite alter_insert_ne by discriminate]);
    rewrite ?Z.add_0_r; reflexivity.
Qed.

Lemma count_in_cons c task ts :
  count_in c (task :: ts) = (bump c task + count_in c ts)%Z.
Proof.
  unfold count_in, bump. rewrite filter_cons.
  destruct (decide (Task.column task = c)); simpl; lia.
Qed.

(** The loop of [getStats] adds to each key the number of tasks in its
    column. *)
Lemma fold_increment ts b t r d :
  fold_left KanbanBoard.increment ts (stats_of b t r d) =
  stats_of (b + count_in backlog ts) (t + count_in todo ts)
           (r + count_in review ts) (d + count_in done ts).
Proof.
  revert b t r d. induction ts as [|task ts IH]; intros b t r d; simpl.
  - unfold count_in. simpl. rewrite !Z.add_0_r. reflexivity.
  - rewrite increment_stats_of, IH, !count_in_cons, !Z.add_assoc. reflexivity.
Qed.

Lemma count_in_total ts :
  (count_in backlog ts + count_in todo ts + count_in review ts + count_in done ts
   = Z.of_nat (length ts))%Z.
Proof.
  induction ts as [|task ts IH]; [reflexivity|].
  rewrite !count_in_cons. unfold bump. simpl length.
  destruct (Task.column task); simpl; lia.
Qed.

Lemma count_in_zero c ts :
  count_in c ts = 0%Z <-> Forall (fun t => Task.column t <> c) ts.
Proof.
  induction ts as [|task ts IH]; [split; [constructor|reflexivity]|].
  rewrite count_in_cons. unfold bump.
  assert (0 <= count_in c ts)%Z as Hpos by (unfold count_in; lia).
  destruct (decide (Task.column task = c)) as [Heq|Hne].
  - split; [lia|]. intros H. inversion H; subst. congruence.
  - rewrite Z.add_0_l, IH. split.
    + intros H. constructor; assumption.
    + intros H. inversion H; assumption.
Qed.

(** C5.  Let the store hold the collection [ts].  [getStats] returns an
    object whose keys are exactly the four column names; each key maps to the
    number of tasks of [ts] in that column, which is zero exactly when no
    task is in it; and the four counts sum to the number of tasks of [ts]. *)
Theorem getStats_counts_per_column
    (this : KanbanBoard.t) (w w1 : World Task.t) (ts : list Task.t) :
  Storage.loadTasks (KanbanBoard.projectPath this) w = (Return ts, w1) ->
  exists stats : gmap string Z,
    KanbanBoard.getStats this w = (Return stats, w1) /\
    dom stats = (list_to_set (map column_name COLUMNS) : gset string) /\
    (forall c, stats !! column_name c = Some (count_in c ts)) /\
    (forall c, count_in c ts = 0%Z <-> Forall (fun t => Task.column t <> c) ts) /\
    (count_in backlog ts + count_in todo ts + count_in review ts + count_in done ts
     = Z.of_nat (length ts))%Z.
Proof.
  intros Hload. unfold KanbanBoard.getStats. unfold_M. rewrite Hload.
  eexists. split; [reflexivity|].
  fold (stats_of 0 0 0 0). rewrite fold_increment. simpl. unfold stats_of.
  split; [|split; [|split]].
  - rewrite !dom_insert_L, dom_empty_L. simpl. set_solver.
  - intros []; simpl;
      repeat (first [rewrite lookup_insert_eq | rewrite lookup_insert_ne by discriminate]);
      reflexivity.
  - intros c. apply count_in_zero.
  - apply count_in_total.
Qed.

(** The theorem on the sample project: one task in the backlog, one in todo,
    none elsewhere. *)
Lemma getStats_counts_per_column_witness :
  Storage.loadTasks "/p" sample_world = (Return [login_task; docs_task], sample_world) /\
  exists stats : gmap string Z,
    KanbanBoard.getStats sample_board sample_world = (Return stats, sample_world) /\
    stats !! "backlog" = Some 1%Z /\
    stats !! "todo" = Some 1%Z /\
    stats !! "review" = Some 0%Z /\
    stats !! "done" = Some 0%Z.
Proof.
  assert (Storage.loadTasks "/p" sample_world
          = (Return [login_task; docs_task], sample_world)) as Hload
    by (vm_compute; reflexivity).
  split; [exact Hload|].
  destruct (getStats_counts_per_column sample_board sample_world sample_world _ Hload)
    as (stats & Hstats & _ & Hcount & _).
  exists stats. split; [exact Hstats|].
  split; [exact (Hcount backlog)|]. split; [exact (Hcount todo)|].
  split; [exact (Hcount review)|exact (Hcount done)].
Defined.

End Board.

(** ** Project Registry *)

Section Registry.
Implicit Types (h : option (YamlFile GlobalConfig.t)) (path : string) (l : list string).

(** [loadGlobalConfig] never fails and never writes. *)
Lemma loadGlobalConfig_eq h :
  GlobalConfig.loadGlobalConfig h = (Return (registry_of h), h).
Proof. destruct h as [[why| |config]|]; reflexivity. Qed.

Lemma getRecentProjects_eq h :
  GlobalConfig.getRecentProjects h =
  (Return (default [] (GlobalConfig.recentProjects (registry_of h))), h).
Proof.
  unfold GlobalConfig.getRecentProjects. unfold_M. rewrite loadGlobalConfig_eq. reflexivity.
Qed.

Lemma getLastProjectPath_eq h :
  GlobalConfig.getLastProjectPath h =
  (Return (GlobalConfig.lastProjectPath (registry_of h)), h).
Proof.
  unfold GlobalConfig.getLastProjectPath. unfold_M. rewrite loadGlobalConfig_eq. reflexivity.
Qed.

Lemma setLastProjectPath_eq path h :
  GlobalConfig.setLastProjectPath path h =
  (Return tt,
   Some (YamlMapping
     {| GlobalConfig.lastProjectPath := Some path;
        GlobalConfig.recentProjects :=
          Some (take 10 (path :: without_first path
                                   (default [] (GlobalConfig.recentProjects (registry_of h))))) |})).
Proof.
  unfold GlobalConfig.setLastProjectPath. unfold_M. rewrite loadGlobalConfig_eq. reflexivity.
Qed.

Lemma filter_ne_absent path l :
  path ∉ l -> filter (fun q => q <> path) l = l.
Proof.
  induction l as [|a l IH]; intros Hnot; [reflexivity|].
  rewrite filter_cons. destruct (decide (a <> path)) as [_|Heq].
  - f_equal. apply IH. set_solver.
  - exfalso. apply Hnot. destruct (decide (a = path)) as [->|?]; [set_solver|contradiction].
Qed.

(** On a list without repetitions, removing the first occurrence removes
    every occurrence. *)
Lemma without_first_filter path l :
  NoDup l -> without_first path l = filter (fun q => q <> path) l.
Proof.
  unfold without_first, indexOf, splice1.
  induction 1 as [|a l Ha Hnd IH]; [reflexivity|].
  simpl findIndex. rewrite filter_cons.
  destruct (String.eqb_spec path a) as [->|Hne].
  - simpl. destruct (decide (a <> a)) as [?|_]; [contradiction|].
    symmetry. apply filter_ne_absent, Ha.
  - destruct (decide (a <> path)) as [_|Hn]; [|exfalso; apply Hn; congruence].
    pose proof (findIndex_range (String.eqb path) l) as Hr.
    destruct (Z.eqb_spec (findIndex (String.eqb path) l) (-1)) as [Heq|Hneq].
    + rewrite Heq in IH. simpl in *. f_equal. exact IH.
    + destruct (Z.gtb_spec (findIndex (String.eqb path) l) (-1)) as [_|?]; [|lia].
      destruct (Z.gtb_spec (findIndex (String.eqb path) l + 1) (-1)) as [_|?]; [|lia].
      replace (Z.to_nat (findIndex (String.eqb path) l + 1))
        with (S (Z.to_nat (findIndex (String.eqb path) l))) by lia.
      simpl. f_equal. exact IH.
Qed.

(** Cutting a list without repetitions to [n + 1] entries before a path is
    removed loses nothing of the first [n] entries that remain. *)
Lemma take_filter_take path l (n : nat) :
  NoDup l ->
  take n (filter (fun q => q <> path) (take (S n) l)) = take n (filter (fun q => q <> path) l).
Proof.
  intros Hnd. revert n. induction Hnd as [|a l Ha Hnd IH]; intros n; [reflexivity|].
  rewrite firstn_cons, !filter_cons.
  destruct (decide (a <> path)) as [Hne|Heq].
  - destruct n as [|n]; [reflexivity|]. simpl. f_equal. apply IH.
  - assert (a = path) as -> by (destruct (decide (a = path)); [assumption|contradiction]).
    rewrite (filter_ne_absent path l Ha).
    rewrite filter_ne_absent.
    + apply take_idemp.
    + intros Hin. apply Ha. eapply subseteq_take, Hin.
Qed.

Lemma NoDup_take_prefix (n : nat) l : NoDup l -> NoDup (take n l).
Proof. intros Hnd. apply (sublist_NoDup _ l Hnd), sublist_take. Qed.

Lemma most_recent_first_NoDup l : NoDup (most_recent_first l).
Proof.
  induction l as [|a l IH]; simpl; [constructor|].
  constructor; [|apply NoDup_filter, IH].
  intros Hin. apply list_elem_of_filter in Hin as [Hne _]. congruence.
Qed.

Lemma most_recent_first_id l : NoDup l -> most_recent_first l = l.
Proof.
  induction 1 as [|a l Ha Hnd IH]; simpl; [reflexivity|].
  rewrite IH, (filter_ne_absent a l Ha). reflexivity.
Qed.

Lemma after_calls_snoc calls path h :
  after_calls (calls ++ [path]) h
  = snd (GlobalConfig.setLastProjectPath path (after_calls calls h)).
Proof. unfold after_calls. rewrite fold_left_app. reflexivity. Qed.

(** The recent list after a sequence of calls, in closed form. *)
Lemma recent_after_calls h calls :
  let old := default [] (GlobalConfig.recentProjects (registry_of h)) in
  NoDup old -> length old <= 10 ->
  default [] (GlobalConfig.recentProjects (registry_of (after_calls calls h))) =
  take 10 (most_recent_first (rev calls ++ old)).
Proof.
  intros old Hnd Hlen. induction calls as [|path calls IH] using rev_ind.
  - simpl. rewrite (most_recent_first_id _ Hnd). symmetry. apply take_ge. exact Hlen.
  - rewrite after_calls_snoc, setLastProjectPath_eq. simpl snd. simpl registry_of.
    cbn [GlobalConfig.recentProjects default from_option id]. rewrite IH.
    rewrite rev_app_distr. simpl rev. simpl app. simpl most_recent_first.
    rewrite without_first_filter by (apply NoDup_take_prefix, most_recent_first_NoDup).
    rewrite !firstn_cons. f_equal.
    apply take_filter_take, most_recent_first_NoDup.
Qed.

(** C9.  Start from a registry whose recent list [old] has no duplicates and
    at most 10 entries (an absent registry file is one), and make the calls
    [setLastProjectPath(path)] for the paths of [calls], in order.  Then
    [getRecentProjects] returns the paths most recent first, each once, cut
    to 10 entries.  A further call with [path] sets the last-used path to
    [path] and makes the recent list [path] followed by the former list
    without [path], cut to 10 entries.  In particular after the calls
    [a], [b], [a] with [a] different from [b] the list begins with [a], [b]
    and holds [a] once. *)
Theorem setLastProjectPath_keeps_recent_list
    (h : GlobalConfig.Home) (old calls : list string) :
  GlobalConfig.getRecentProjects h = (Return old, h) ->
  NoDup old ->
  length old <= 10 ->
  let h1 := after_calls calls h in
  exists recent,
    GlobalConfig.getRecentProjects h1 = (Return recent, h1) /\
    recent = take 10 (most_recent_first (rev calls ++ old)) /\
    NoDup recent /\
    length recent <= 10 /\
    (forall path,
       exists h2,
         GlobalConfig.setLastProjectPath path h1 = (Return tt, h2) /\
         GlobalConfig.getLastProjectPath h2 = (Return (Some path), h2) /\
         GlobalConfig.getRecentProjects h2 =
           (Return (take 10 (path :: filter (fun q => q <> path) recent)), h2)) /\
    (forall a b, calls = [a; b; a] -> a <> b ->
       exists rest, recent = a :: b :: rest /\ a ∉ rest).
Proof.
  intros Hold Hnd Hlen h1.
  rewrite getRecentProjects_eq in Hold. injection Hold as Hold.
  pose proof (recent_after_calls h calls) as Hrec. simpl in Hrec. rewrite Hold in Hrec.
  specialize (Hrec Hnd Hlen). fold h1 in Hrec.
  exists (take 10 (most_recent_first (rev calls ++ old))).
  assert (NoDup (take 10 (most_recent_first (rev calls ++ old)))) as Hnd1
    by apply NoDup_take_prefix, most_recent_first_NoDup.
  split; [rewrite getRecentProjects_eq, Hrec; reflexivity|].
  split; [reflexivity|]. split; [exact Hnd1|]. split; [rewrite length_take; lia|]. split.
  - intros path. eexists. split; [apply setLastProjectPath_eq|].
    rewrite getLastProjectPath_eq, getRecentProjects_eq. simpl.
    split; [reflexivity|]. rewrite Hrec, (without_first_filter _ _ Hnd1). reflexivity.
  - intros a b -> Hab. simpl rev. simpl app. simpl most_recent_first.
    rewrite !filter_cons.
    destruct (decide (b <> a)) as [_|Hn]; [|exfalso; apply Hn; congruence].
    rewrite !firstn_cons. eexists. split; [reflexivity|].
    intros Hin. apply subseteq_take in Hin.
    apply list_elem_of_filter in Hin as [Hne _]. congruence.
Qed.

(** The theorem on an absent registry file and the calls [/a], [/b], [/a]:
    the recent list is [/a], [/b]. *)
Lemma setLastProjectPath_keeps_recent_list_witness :
  GlobalConfig.getRecentProjects None = (Return [], None) /\
  NoDup ([] : list string) /\
  length ([] : list string) <= 10 /\
  exists recent,
    GlobalConfig.getRecentProjects (after_calls ["/a"; "/b"; "/a"] None)
      = (Return recent, after_calls ["/a"; "/b"; "/a"] None) /\
    recent = ["/a"; "/b"].
Proof.
  assert (GlobalConfig.getRecentProjects None = (Return [], None)) as Hold by reflexivity.
  assert (NoDup ([] : list string)) as Hnd by constructor.
  assert (length ([] : list string) <= 10) as Hlen by (simpl; lia).
  split; [exact Hold|]. split; [exact Hnd|]. split; [exact Hlen|].
  destruct (setLastProjectPath_keeps_recent_list None [] ["/a"; "/b"; "/a"] Hold Hnd Hlen)
    as (recent & Hget & Hrecent & _).
  exists recent. split; [exact Hget|]. rewrite Hrecent. vm_compute. reflexivity.
Defined.

(** C10, as amended.  When the registry file exists and cannot be parsed,
    [getLastProjectPath] and [getRecentProjects] do not fail: the parse
    failure is caught inside [loadGlobalConfig], the first returns absent, the
    second the empty list, and the file is left as it is. *)
Theorem registry_reads_swallow_parse_failure (why : string) :
  let h : GlobalConfig.Home := Some (YamlInvalid why) in
  GlobalConfig.getLastProjectPath h = (Return None, h) /\
  GlobalConfig.getRecentProjects h = (Return [], h).
Proof. split; reflexivity. Qed.

(** C10 as stated fails: on a registry file that does not parse, both reads
    return instead of failing. *)
Lemma registry_reads_do_not_fail :
  GlobalConfig.getLastProjectPath (Some (YamlInvalid "bad indentation")) =
    (Return None, Some (YamlInvalid "bad indentation")) /\
  GlobalConfig.getRecentProjects (Some (YamlInvalid "bad indentation")) =
    (Return [], Some (YamlInvalid "bad indentation")).
Proof. split; reflexivity. Qed.

End Registry.

(** * Further properties *)

(** ** Paths *)

Lemma append_suffix_ne (s suffix : string) : suffix <> "" -> s +:+ suffix <> s.
Proof.
  intros Hs. induction s as [|a s IH].
  - exact Hs.
  - intros H. injection H as H. exact (IH H).
Qed.

(** ** The stores: round trips and failures *)

Section StoreRoundTrips.
Context {E : Type}.
Implicit Types (w v : World E) (p : string) (ts : list E).

(** A config that was loaded is in the config file, and the load has written
    nothing else. *)
Lemma loadConfig_Return p w w1 (config : BoardConfig.t) :
  Config.loadConfig p w = (Return config, w1) ->
  exists content,
    configFiles w1 !! Config.getConfigPath p = Some content /\
    parsed_config content = Some config /\
    tasksFiles w1 = tasksFiles w /\
    (forall q, q <> Config.getConfigPath p -> configFiles w1 !! q = configFiles w !! q).
Proof.
  rewrite loadConfig_eq.
  destruct (configFiles w !! Config.getConfigPath p) as [[why| |m]|] eqn:Hc.
  - discriminate.
  - intros [= <- <-]. exists YamlNull. repeat split; assumption || reflexivity.
  - intros [= <- <-]. exists (YamlMapping m). repeat split; assumption || reflexivity.
  - intros [= <- <-]. eexists. simpl. split; [apply lookup_insert_eq|].
    split; [reflexivity|]. split; [reflexivity|].
    intros q Hq. apply lookup_insert_ne. congruence.
Qed.

(** [loadConfig] fails only on a config file that does not parse, and then
    leaves the state as it was. *)
Lemma loadConfig_Throw p w w1 e :
  Config.loadConfig p w = (Throw e, w1) ->
  w1 = w /\
  e = new_Error ("Failed to parse config file: " +:+ Config.getConfigPath p) /\
  exists why, configFiles w !! Config.getConfigPath p = Some (YamlInvalid why).
Proof.
  rewrite loadConfig_eq.
  destruct (configFiles w !! Config.getConfigPath p) as [[why| |m]|] eqn:Hc; try discriminate.
  intros [= <- <-]. eauto.
Qed.

Lemma loadTasks_again p w w1 ts :
  Storage.loadTasks p w = (Return ts, w1) -> Storage.loadTasks p w1 = (Return ts, w1).
Proof. intros Hload. apply loadTasks_Stored, (loadTasks_Return _ _ _ _ Hload). Qed.

(** A load that fails has written no task file, and fails in the same way
    whatever the clock and the uuid generator are. *)
Lemma loadTasks_Throw p e w w1 :
  Storage.loadTasks p w = (Throw e, w1) ->
  tasksFiles w1 = tasksFiles w /\
  forall v, same_files w v ->
    exists v1, Storage.loadTasks p v = (Throw e, v1) /\ tasksFiles v1 = tasksFiles v.
Proof.
  rewrite loadTasks_eq, loadConfig_eq.
  destruct (configFiles w !! Config.getConfigPath p) as [[why| |m]|] eqn:Hc; simpl.
  - intros [= <- <-]. split; [reflexivity|].
    intros v [Hcf Htf]. rewrite loadTasks_eq, loadConfig_eq, <- Hcf, Hc. eauto.
  - destruct (tasksFiles w !! _) as [[why|[elems|]]|] eqn:Ht; try discriminate.
    + intros [= <- <-]. split; [reflexivity|].
      intros v [Hcf Htf]. rewrite loadTasks_eq, loadConfig_eq, <- Hcf, Hc. simpl.
      rewrite <- Htf, Ht. eauto.
    + intros [= <- <-]. split; [reflexivity|].
      intros v [Hcf Htf]. rewrite loadTasks_eq, loadConfig_eq, <- Hcf, Hc. simpl.
      rewrite <- Htf, Ht. eauto.
    + rewrite saveTasks_eq, loadConfig_eq, Hc. discriminate.
  - destruct (tasksFiles w !! _) as [[why|[elems|]]|] eqn:Ht; try discriminate.
    + intros [= <- <-]. split; [reflexivity|].
      intros v [Hcf Htf]. rewrite loadTasks_eq, loadConfig_eq, <- Hcf, Hc. simpl.
      rewrite <- Htf, Ht. eauto.
    + intros [= <- <-]. split; [reflexivity|].
      intros v [Hcf Htf]. rewrite loadTasks_eq, loadConfig_eq, <- Hcf, Hc. simpl.
      rewrite <- Htf, Ht. eauto.
    + rewrite saveTasks_eq, loadConfig_eq, Hc. discriminate.
  - destruct (tasksFiles w !! _) as [[why|[elems|]]|] eqn:Ht; try discriminate.
    + intros [= <- <-]. split; [reflexivity|].
      intros v [Hcf Htf]. rewrite loadTasks_eq, loadConfig_eq, <- Hcf, Hc. simpl.
      rewrite <- Htf, Ht. eauto.
    + intros [= <- <-]. split; [reflexivity|].
      intros v [Hcf Htf]. rewrite loadTasks_eq, loadConfig_eq, <- Hcf, Hc. simpl.
      rewrite <- Htf, Ht. eauto.
    + rewrite saveTasks_eq, loadConfig_eq. simpl. rewrite lookup_insert_eq. discriminate.
Qed.

(** [saveTasks] once the config has been loaded: the state it leaves. *)
Lemma saveTasks_Return p ts w wc (config : BoardConfig.t) :
  Config.loadConfig p w = (Return config, wc) ->
  let tasksPath := path_join p (BoardConfig.tasksFile config) in
  Storage.saveTasks p ts w =
    (Return tt,
     set_tasksFiles (<[tasksPath := JSON_stringify ts]>
                       (delete (tasksPath +:+ ".tmp") (tasksFiles wc))) wc).
Proof. intros Hcfg. rewrite saveTasks_eq, Hcfg. reflexivity. Qed.

(** X1.  Let the project's config load and name the task file by a plain
    file name, at another path than the config file's.  Then [saveTasks]
    returns, and a [loadTasks] after it returns the array that was saved,
    whatever the task file held before.  The write goes through the file
    [<tasksPath>.tmp], which is gone afterwards (a file that was there under
    this name is lost); every other task file is untouched, and the config
    still loads as it did. *)
Theorem saveTasks_then_loadTasks p ts w wc (config : BoardConfig.t) :
  Config.loadConfig p w = (Return config, wc) ->
  file_name (BoardConfig.tasksFile config) = true ->
  let tasksPath := path_join p (BoardConfig.tasksFile config) in
  tasksPath <> Config.getConfigPath p ->
  exists w',
    Storage.saveTasks p ts w = (Return tt, w') /\
    Storage.loadTasks p w' = (Return ts, w') /\
    tasksFiles w' !! tasksPath = Some (JSON_stringify ts) /\
    tasksFiles w' !! (tasksPath +:+ ".tmp") = None /\
    (forall q, q <> tasksPath -> q <> tasksPath +:+ ".tmp" -> q <> Config.getConfigPath p ->
       tasksFiles w' !! q = tasksFiles w !! q) /\
    Config.loadConfig p w' = (Return config, w').
Proof.
  intros Hcfg _ tasksPath _.
  destruct (loadConfig_Return _ _ _ _ Hcfg) as (content & Hc & Hp & Htf & _).
  eexists. split; [apply (saveTasks_Return _ _ _ _ _ Hcfg)|]. fold tasksPath. simpl.
  split; [|split; [|split; [|split]]].
  - apply loadTasks_Stored. exists content, config. simpl.
    split; [exact Hc|]. split; [exact Hp|]. apply lookup_insert_eq.
  - apply lookup_insert_eq.
  - rewrite lookup_insert_ne.
    + apply lookup_delete_eq.
    + intros H. apply (append_suffix_ne tasksPath ".tmp"); [discriminate|]. symmetry. exact H.
  - intros q Hq Hq' _. rewrite lookup_insert_ne by congruence.
    rewrite lookup_delete_ne by congruence. rewrite Htf. reflexivity.
  - apply (loadConfig_Stored _ _ content config); [exact Hc|exact Hp].
Qed.

(** X2.  [addTask] appends: when the store holds [ts], a load after
    [addTask] returns [ts] followed by the task.  When the load inside it
    fails, [addTask] fails with the same error and no task file has been
    written. *)
Theorem addTask_appends p (task : E) w :
  (forall ts w1, Storage.loadTasks p w = (Return ts, w1) ->
     exists w2,
       Storage.addTask p task w = (Return tt, w2) /\
       Storage.loadTasks p w2 = (Return (ts ++ [task]), w2)) /\
  (forall e w1, Storage.loadTasks p w = (Throw e, w1) ->
     Storage.addTask p task w = (Throw e, w1) /\ tasksFiles w1 = tasksFiles w).
Proof.
  split.
  - intros ts w1 Hload. pose proof (loadTasks_Return _ _ _ _ Hload) as Hst.
    destruct (saveTasks_Stored p ts (ts ++ [task]) w1 Hst) as (w2 & Hsave & Hst2 & _).
    exists w2. unfold Storage.addTask. unfold_M. rewrite Hload.
    split; [exact Hsave|apply loadTasks_Stored, Hst2].
  - intros e w1 Hload. unfold Storage.addTask. unfold_M. rewrite Hload.
    split; [reflexivity|]. apply (loadTasks_Throw _ _ _ _ Hload).
Qed.

(** X3.  A config file that exists and does not parse blocks both stores:
    [loadConfig], [updateConfig], [getTasksPath], [loadTasks], [saveTasks] and
    [addTask] all fail with the error that names the config file, and none of
    them changes the state, so the file is neither repaired nor replaced. *)
Theorem unparsable_config_blocks_the_stores p (why : string) w :
  configFiles w !! Config.getConfigPath p = Some (YamlInvalid why) ->
  exists e,
    e = new_Error ("Failed to parse config file: " +:+ path_join p ".config-viban.yml") /\
    Config.configExists p w = (Return true, w) /\
    Config.loadConfig p w = (Throw e, w) /\
    (forall boardName tasksFile, Config.updateConfig p boardName tasksFile w = (Throw e, w)) /\
    Storage.getTasksPath p w = (Throw e, w) /\
    Storage.loadTasks p w = (Throw e, w) /\
    (forall ts, Storage.saveTasks p ts w = (Throw e, w)) /\
    (forall task, Storage.addTask p task w = (Throw e, w)).
Proof.
  intros Hc. eexists. split; [reflexivity|].
  assert (Config.loadConfig p w
          = (Throw (new_Error ("Failed to parse config file: "
                               +:+ path_join p ".config-viban.yml")), w)) as Hcfg
    by (rewrite loadConfig_eq, Hc; reflexivity).
  assert (Storage.loadTasks p w
          = (Throw (new_Error ("Failed to parse config file: "
                               +:+ path_join p ".config-viban.yml")), w)) as Hload
    by (rewrite loadTasks_eq, Hcfg; reflexivity).
  split; [|split; [exact Hcfg|split; [|split; [|split; [exact Hload|split]]]]].
  - unfold Config.configExists, existsSync_config. unfold_M. rewrite Hc. reflexivity.
  - intros boardName tasksFile. unfold Config.updateConfig. unfold_M. rewrite Hcfg. reflexivity.
  - unfold Storage.getTasksPath. unfold_M. rewrite Hcfg. reflexivity.
  - intros ts. rewrite saveTasks_eq, Hcfg. reflexivity.
  - intros task. unfold Storage.addTask. unfold_M. rewrite Hload. reflexivity.
Qed.

(** [updateConfig] once the config has been loaded: what it returns and the
    state it leaves. *)
Lemma updateConfig_Return p (boardName tasksFile : option string) w wc (current : BoardConfig.t) :
  Config.loadConfig p w = (Return current, wc) ->
  let updated :=
    {| BoardConfig.boardName := default (BoardConfig.boardName current) boardName;
       BoardConfig.tasksFile := default (BoardConfig.tasksFile current) tasksFile;
       BoardConfig.createdAt := BoardConfig.createdAt current |} in
  Config.updateConfig p boardName tasksFile w
    = (Return updated, snd (Config.saveConfig p updated wc)).
Proof.
  intros Hcfg updated. unfold Config.updateConfig. unfold_M. rewrite Hcfg. reflexivity.
Qed.

(** X6.  Changing [tasksFile] through [updateConfig] does not carry the
    tasks over.  In an initialised project holding [ts], let [updateConfig]
    point the config at a plain file name, and let the config read back as
    it was written.  When no file exists yet under the new name (and the
    former task file is not the temporary file of the new one, which a save
    removes), [updateConfig] touches no task file, and the [loadTasks] after
    it creates the new file and returns the empty collection, while the
    former task file still holds [ts]. *)
Theorem updateConfig_tasksFile_leaves_tasks_behind p (name : string) w config ts updated w2 :
  Config.loadConfig p w = (Return config, w) ->
  Storage.loadTasks p w = (Return ts, w) ->
  file_name name = true ->
  Config.updateConfig p None (Some name) w = (Return updated, w2) ->
  Config.loadConfig p w2 = (Return updated, w2) ->
  let formerPath := path_join p (BoardConfig.tasksFile config) in
  let tasksPath := path_join p name in
  tasksFiles w !! tasksPath = None ->
  configFiles w !! tasksPath = None ->
  formerPath <> tasksPath +:+ ".tmp" ->
  BoardConfig.tasksFile updated = name /\
  tasksFiles w2 = tasksFiles w /\
  exists w3,
    Storage.loadTasks p w2 = (Return [], w3) /\
    tasksFiles w3 !! tasksPath = Some (JSON_stringify []) /\
    tasksFiles w3 !! formerPath = Some (JSON_stringify ts).
Proof.
  intros Hcfg Hload _ Hupd Hcfg2 formerPath tasksPath Hnone _ Hne2.
  rewrite (updateConfig_Return p None (Some name) w w config Hcfg) in Hupd.
  injection Hupd as <- <-. simpl in Hcfg2.
  destruct (loadTasks_Return _ _ _ _ Hload) as (content & cfg & Hc & Hp & Ht).
  pose proof (loadConfig_Stored p w content cfg Hc Hp) as Hcfg'.
  rewrite Hcfg in Hcfg'. injection Hcfg' as <-. fold formerPath in Ht.
  assert (tasksPath <> formerPath) as Hne by (intros Heq; rewrite Heq in Hnone; congruence).
  split; [reflexivity|]. split; [reflexivity|].
  pose proof (saveTasks_Return p [] _ _ _ Hcfg2) as Hsave. simpl in Hsave.
  eexists. split; [|split].
  - rewrite loadTasks_eq, Hcfg2. simpl. fold tasksPath. rewrite Hnone.
    fold tasksPath in Hsave. rewrite Hsave. reflexivity.
  - simpl. apply lookup_insert_eq.
  - simpl. rewrite lookup_insert_ne by exact Hne.
    rewrite lookup_delete_ne by congruence. exact Ht.
Qed.

End StoreRoundTrips.

(** The theorems of this section on the sample states. *)

Lemma saveTasks_then_loadTasks_witness :
  Config.loadConfig "/p" fresh_world
    = (Return (config_created fresh_world), snd (Config.loadConfig "/p" fresh_world)) /\
  file_name (BoardConfig.tasksFile (config_created fresh_world)) = true /\
  path_join "/p" (BoardConfig.tasksFile (config_created fresh_world))
    <> Config.getConfigPath "/p" /\
  exists w',
    Storage.saveTasks "/p" [login_task] fresh_world = (Return tt, w') /\
    Storage.loadTasks "/p" w' = (Return [login_task], w') /\
    tasksFiles w' !! "/p/tasks.json" = Some (JSON_stringify [login_task]) /\
    tasksFiles w' !! "/p/tasks.json.tmp" = None /\
    Config.loadConfig "/p" w' = (Return (config_created fresh_world), w').
Proof.
  assert (Config.loadConfig "/p" fresh_world
          = (Return (config_created fresh_world), snd (Config.loadConfig "/p" fresh_world)))
    as Hcfg by (vm_compute; reflexivity).
  assert (file_name (BoardConfig.tasksFile (config_created fresh_world)) = true) as Hname
    by (vm_compute; reflexivity).
  assert (path_join "/p" (BoardConfig.tasksFile (config_created fresh_world))
          <> Config.getConfigPath "/p") as Hne by (vm_compute; discriminate).
  split; [exact Hcfg|]. split; [exact Hname|]. split; [exact Hne|].
  destruct (saveTasks_then_loadTasks "/p" [login_task] fresh_world _ _ Hcfg Hname Hne)
    as (w' & Hsave & Hload & Hfile & Htmp & _ & Hcfg').
  exists w'. split; [exact Hsave|]. split; [exact Hload|]. split; [exact Hfile|].
  split; [exact Htmp|exact Hcfg'].
Defined.

Lemma addTask_appends_witness :
  Storage.loadTasks "/p" sample_world = (Return [login_task; docs_task], sample_world) /\
  Storage.loadTasks "/p" world_with_corrupt_tasks
    = (Throw (new_Error "Invalid JSON in tasks file: /p/tasks.json"), world_with_corrupt_tasks) /\
  (exists w2,
     Storage.addTask "/p" login_task sample_world = (Return tt, w2) /\
     Storage.loadTasks "/p" w2 = (Return [login_task; docs_task; login_task], w2)) /\
  Storage.addTask "/p" login_task world_with_corrupt_tasks
    = (Throw (new_Error "Invalid JSON in tasks file: /p/tasks.json"), world_with_corrupt_tasks).
Proof.
  assert (Storage.loadTasks "/p" sample_world
          = (Return [login_task; docs_task], sample_world)) as Hload
    by (vm_compute; reflexivity).
  assert (Storage.loadTasks "/p" world_with_corrupt_tasks
          = (Throw (new_Error "Invalid JSON in tasks file: /p/tasks.json"),
             world_with_corrupt_tasks)) as Hthrow
    by (vm_compute; reflexivity).
  split; [exact Hload|]. split; [exact Hthrow|]. split.
  - exact (proj1 (addTask_appends "/p" login_task sample_world) _ _ Hload).
  - exact (proj1 (proj2 (addTask_appends "/p" login_task world_with_corrupt_tasks) _ _ Hthrow)).
Defined.

Lemma unparsable_config_blocks_the_stores_witness :
  configFiles world_with_broken_project !! Config.getConfigPath "/q"
    = Some (YamlInvalid "bad indentation of a mapping entry") /\
  exists e,
    e = new_Error "Failed to parse config file: /q/.config-viban.yml" /\
    Storage.loadTasks "/q" world_with_broken_project = (Throw e, world_with_broken_project) /\
    Storage.saveTasks "/q" [login_task] world_with_broken_project
      = (Throw e, world_with_broken_project).
Proof.
  assert (configFiles world_with_broken_project !! Config.getConfigPath "/q"
          = Some (YamlInvalid "bad indentation of a mapping entry")) as Hc
    by (vm_compute; reflexivity).
  split; [exact Hc|].
  destruct (unparsable_config_blocks_the_stores "/q" _ world_with_broken_project Hc)
    as (e & He & _ & _ & _ & _ & Hload & Hsave & _).
  exists e. split; [exact He|]. split; [exact Hload|exact (Hsave [login_task])].
Defined.

Lemma updateConfig_tasksFile_leaves_tasks_behind_witness :
  Config.loadConfig "/p" sample_world
    = (Return {| BoardConfig.boardName := "Kanban Board";
                 BoardConfig.tasksFile := "tasks.json";
                 BoardConfig.createdAt := Some "2026-02-27T09:00:00.000Z" |}, sample_world) /\
  Storage.loadTasks "/p" sample_world = (Return [login_task; docs_task], sample_world) /\
  file_name "sprint.json" = true /\
  tasksFiles sample_world !! path_join "/p" "sprint.json" = None /\
  configFiles sample_world !! path_join "/p" "sprint.json" = None /\
  path_join "/p" "tasks.json" <> path_join "/p" "sprint.json" +:+ ".tmp" /\
  exists updated w2 w3,
    Config.updateConfig "/p" None (Some "sprint.json") sample_world = (Return updated, w2) /\
    Config.loadConfig "/p" w2 = (Return updated, w2) /\
    BoardConfig.tasksFile updated = "sprint.json" /\
    Storage.loadTasks "/p" w2 = (Return [], w3) /\
    tasksFiles w3 !! "/p/sprint.json" = Some (JSON_stringify []) /\
    tasksFiles w3 !! "/p/tasks.json" = Some (JSON_stringify [login_task; docs_task]).
Proof.
  assert (Config.loadConfig "/p" sample_world
          = (Return {| BoardConfig.boardName := "Kanban Board";
                       BoardConfig.tasksFile := "tasks.json";
                       BoardConfig.createdAt := Some "2026-02-27T09:00:00.000Z" |},
             sample_world)) as Hcfg
    by (vm_compute; reflexivity).
  assert (Storage.loadTasks "/p" sample_world
          = (Return [login_task; docs_task], sample_world)) as Hload
    by (vm_compute; reflexivity).
  assert (file_name "sprint.json" = true) as Hname by (vm_compute; reflexivity).
  assert (tasksFiles sample_world !! path_join "/p" "sprint.json" = None) as Hnone
    by (vm_compute; reflexivity).
  assert (configFiles sample_world !! path_join "/p" "sprint.json" = None) as Hnone'
    by (vm_compute; reflexivity).
  assert (path_join "/p" "tasks.json" <> path_join "/p" "sprint.json" +:+ ".tmp") as Hne2
    by (vm_compute; discriminate).
  split; [exact Hcfg|]. split; [exact Hload|]. split; [exact Hname|].
  split; [exact Hnone|]. split; [exact Hnone'|]. split; [exact Hne2|].
  destruct (Config.updateConfig "/p" None (Some "sprint.json") sample_world)
    as [[updated|e] w2] eqn:Hupd; [|vm_compute in Hupd; discriminate].
  assert (Config.loadConfig "/p" w2 = (Return updated, w2)) as Hcfg2
    by (vm_compute in Hupd; injection Hupd as <- <-; vm_compute; reflexivity).
  destruct (updateConfig_tasksFile_leaves_tasks_behind "/p" "sprint.json" sample_world _ _ _ _
              Hcfg Hload Hname Hupd Hcfg2 Hnone Hnone' Hne2)
    as (Hfile & _ & w3 & Hload2 & Hnew & Hold).
  exists updated, w2, w3. split; [reflexivity|]. split; [exact Hcfg2|]. split; [exact Hfile|].
  split; [exact Hload2|]. split; [exact Hnew|exact Hold].
Defined.

(** ** Board Engine: reading, failing and composing *)

Section BoardReads.
Implicit Types (w v : World Task.t) (p taskId : string) (ts : list Task.t).

Lemma first_with_id_login :
  first_with_id [login_task; docs_task] "7d3c1a52-0001" 0 login_task.
Proof. split; [reflexivity|]. split; [reflexivity|]. intros j t Hj. lia. Qed.

Lemma first_with_id_docs :
  first_with_id [login_task; docs_task] "7d3c1a52-0002" 1 docs_task.
Proof.
  split; [reflexivity|]. split; [reflexivity|].
  intros [|j] t Hj Ht; [|lia]. injection Ht as <-. discriminate.
Qed.

Lemma find_first_with_id ts taskId i old :
  first_with_id ts taskId i old ->
  find (fun t => String.eqb (Task.id t) taskId) ts = Some old.
Proof.
  intros Hfirst. rewrite find_findIndex, (findIndex_first_with_id _ _ _ _ Hfirst).
  destruct (Z.eqb_spec (Z.of_nat i) (-1)) as [?|_]; [lia|].
  rewrite Nat2Z.id. apply Hfirst.
Qed.

Lemma getTask_Return (this : KanbanBoard.t) taskId w w1 ts :
  Storage.loadTasks (KanbanBoard.projectPath this) w = (Return ts, w1) ->
  KanbanBoard.getTask this taskId w
    = (Return (find (fun t => String.eqb (Task.id t) taskId) ts), w1).
Proof.
  intros Hload. unfold KanbanBoard.getTask, Storage.findTask. unfold_M.
  rewrite Hload. reflexivity.
Qed.

Lemma stats_of_lookup b t r d c :
  stats_of b t r d !! column_name c =
  Some match c with backlog => b | todo => t | review => r | done => d end.
Proof.
  unfold stats_of. destruct c; simpl;
    repeat (first [rewrite lookup_insert_eq | rewrite lookup_insert_ne by discriminate]);
    reflexivity.
Qed.

Lemma getStats_Return (this : KanbanBoard.t) w w1 ts :
  Storage.loadTasks (KanbanBoard.projectPath this) w = (Return ts, w1) ->
  KanbanBoard.getStats this w =
    (Return (stats_of (count_in backlog ts) (count_in todo ts)
                      (count_in review ts) (count_in done ts)), w1).
Proof.
  intros Hload. unfold KanbanBoard.getStats. unfold_M. rewrite Hload.
  fold (stats_of 0 0 0 0). rewrite fold_increment. reflexivity.
Qed.

Lemma getStats_lookup (this : KanbanBoard.t) w w1 ts :
  Storage.loadTasks (KanbanBoard.projectPath this) w = (Return ts, w1) ->
  exists stats : gmap string Z,
    KanbanBoard.getStats this w = (Return stats, w1) /\
    forall c, stats !! column_name c = Some (count_in c ts).
Proof.
  intros Hload. eexists. split; [apply (getStats_Return _ _ _ _ Hload)|].
  intros c. rewrite stats_of_lookup. destruct c; reflexivity.
Qed.

(** [getState] returns the stored collection with the config of the
    project. *)
Lemma getState_Return (this : KanbanBoard.t) w w1 ts :
  Storage.loadTasks (KanbanBoard.projectPath this) w = (Return ts, w1) ->
  exists config,
    Config.loadConfig (KanbanBoard.projectPath this) w1 = (Return config, w1) /\
    KanbanBoard.getState this w
      = (Return {| KanbanBoard.tasks := ts; KanbanBoard.config := config |}, w1).
Proof.
  intros Hload.
  destruct (loadTasks_Return _ _ _ _ Hload) as (content & config & Hc & Hp & _).
  pose proof (loadConfig_Stored _ w1 content config Hc Hp) as Hcfg.
  exists config. split; [exact Hcfg|].
  unfold KanbanBoard.getState. unfold_M. rewrite Hload, Hcfg. reflexivity.
Qed.

Lemma grouped_of_lookup b t r d c :
  grouped_of b t r d !! column_name c =
  Some match c with backlog => b | todo => t | review => r | done => d end.
Proof.
  unfold grouped_of. destruct c; simpl;
    repeat (first [rewrite lookup_insert_eq | rewrite lookup_insert_ne by discriminate]);
    reflexivity.
Qed.

Lemma push_grouped_of b t r d task :
  KanbanBoard.push_grouped (grouped_of b t r d) task =
  grouped_of (b ++ only_in backlog task) (t ++ only_in todo task)
             (r ++ only_in review task) (d ++ only_in done task).
Proof.
  unfold KanbanBoard.push_grouped, grouped_of, only_in.
  destruct (Task.column task); simpl;
    repeat (first [rewrite alter_insert_eq | rewrite alter_insert_ne by discriminate]);
    rewrite ?app_nil_r; reflexivity.
Qed.

Lemma tasks_in_cons c task ts :
  tasks_in c (task :: ts) = only_in c task ++ tasks_in c ts.
Proof.
  unfold tasks_in, only_in. rewrite filter_cons.
  destruct (decide (Task.column task = c)); reflexivity.
Qed.

(** The loop of [getTasksByColumn] appends to each key the tasks of its
    column, in order. *)
Lemma fold_push_grouped ts b t r d :
  fold_left KanbanBoard.push_grouped ts (grouped_of b t r d) =
  grouped_of (b ++ tasks_in backlog ts) (t ++ tasks_in todo ts)
             (r ++ tasks_in review ts) (d ++ tasks_in done ts).
Proof.
  revert b t r d. induction ts as [|task ts IH]; intros b t r d; simpl.
  - unfold tasks_in. simpl. rewrite !app_nil_r. reflexivity.
  - rewrite push_grouped_of, IH, !tasks_in_cons, <- !app_assoc. reflexivity.
Qed.

(** X7.  When the store cannot be loaded (the config or the task file does
    not parse, or the task file holds no array), every operation of the board
    fails with the error of the load, and no task file has been written: the
    broken file is left as it is.  ([moveTask] is given a valid column; an
    invalid one is refused before the store is read.) *)
Theorem unreadable_store_fails_every_operation
    (this : KanbanBoard.t) (w w1 : World Task.t) (e : Exception) :
  Storage.loadTasks (KanbanBoard.projectPath this) w = (Throw e, w1) ->
  tasksFiles w1 = tasksFiles w /\
  (forall column, KanbanBoard.getTasks this column w = (Throw e, w1)) /\
  KanbanBoard.getTasksByColumn this w = (Throw e, w1) /\
  (forall taskId, KanbanBoard.getTask this taskId w = (Throw e, w1)) /\
  (forall taskId updates, KanbanBoard.updateTask this taskId updates w = (Throw e, w1)) /\
  (forall taskId c, KanbanBoard.moveTask this taskId (column_name c) w = (Throw e, w1)) /\
  (forall taskId, KanbanBoard.moveToReview this taskId w = (Throw e, w1)) /\
  (forall taskId, KanbanBoard.completeTask this taskId w = (Throw e, w1)) /\
  (forall taskId, KanbanBoard.deleteTask this taskId w = (Throw e, w1)) /\
  KanbanBoard.getStats this w = (Throw e, w1) /\
  KanbanBoard.getState this w = (Throw e, w1) /\
  (forall input, exists w2,
     KanbanBoard.createTask this input w = (Throw e, w2) /\ tasksFiles w2 = tasksFiles w).
Proof.
  intros Hload. destruct (loadTasks_Throw _ _ _ _ Hload) as (Htf & Hsame).
  split; [exact Htf|].
  assert (forall taskId updates,
            Storage.updateTask (KanbanBoard.projectPath this) taskId updates w = (Throw e, w1))
    as Hupd by (intros; unfold Storage.updateTask; unfold_M; rewrite Hload; reflexivity).
  assert (forall taskId c, KanbanBoard.moveTask this taskId (column_name c) w = (Throw e, w1))
    as Hmove by (intros; unfold KanbanBoard.moveTask; rewrite find_column_name; apply Hupd).
  repeat split.
  - intros column. unfold KanbanBoard.getTasks. unfold_M. rewrite Hload. reflexivity.
  - unfold KanbanBoard.getTasksByColumn. unfold_M. rewrite Hload. reflexivity.
  - intros taskId. unfold KanbanBoard.getTask, Storage.findTask. unfold_M.
    rewrite Hload. reflexivity.
  - intros taskId updates. apply Hupd.
  - exact Hmove.
  - intros taskId. apply (Hmove taskId review).
  - intros taskId. apply (Hmove taskId done).
  - intros taskId. unfold KanbanBoard.deleteTask, Storage.deleteTask. unfold_M.
    rewrite Hload. reflexivity.
  - unfold KanbanBoard.getStats. unfold_M. rewrite Hload. reflexivity.
  - unfold KanbanBoard.getState. unfold_M. rewrite Hload. reflexivity.
  - intros input. unfold KanbanBoard.createTask, Date_toISOString, uuidv4. unfold_M.
    match goal with |- context [Storage.loadTasks _ ?v] =>
      destruct (Hsame v (conj eq_refl eq_refl)) as (v1 & Hload' & Htf')
    end.
    rewrite Hload'. exists v1. split; [reflexivity|exact Htf'].
Qed.

(** The theorem on the sample project with its task file cut off. *)
Lemma unreadable_store_fails_every_operation_witness :
  Storage.loadTasks "/p" world_with_corrupt_tasks
    = (Throw (new_Error "Invalid JSON in tasks file: /p/tasks.json"), world_with_corrupt_tasks) /\
  KanbanBoard.getStats sample_board world_with_corrupt_tasks
    = (Throw (new_Error "Invalid JSON in tasks file: /p/tasks.json"), world_with_corrupt_tasks) /\
  KanbanBoard.deleteTask sample_board "7d3c1a52-0001" world_with_corrupt_tasks
    = (Throw (new_Error "Invalid JSON in tasks file: /p/tasks.json"), world_with_corrupt_tasks) /\
  exists w2,
    KanbanBoard.createTask sample_board review_input world_with_corrupt_tasks
      = (Throw (new_Error "Invalid JSON in tasks file: /p/tasks.json"), w2) /\
    tasksFiles w2 = tasksFiles world_with_corrupt_tasks.
Proof.
  assert (Storage.loadTasks "/p" world_with_corrupt_tasks
          = (Throw (new_Error "Invalid JSON in tasks file: /p/tasks.json"),
             world_with_corrupt_tasks)) as Hload
    by (vm_compute; reflexivity).
  split; [exact Hload|].
  destruct (unreadable_store_fails_every_operation sample_board _ _ _ Hload)
    as (_ & _ & _ & _ & _ & _ & _ & _ & Hdel & Hstats & _ & Hcreate).
  split; [exact Hstats|]. split; [exact (Hdel "7d3c1a52-0001")|]. exact (Hcreate review_input).
Defined.

(** X8.  Once a load has succeeded the project is initialised, and from then
    on no read writes: [loadTasks], [configExists], [loadConfig],
    [getTasksPath], [getState], [getTasks], [getTasksByColumn], [getTask] and
    [getStats] all return and leave the whole state (files, clock, uuid
    generator) exactly as it was; [getState] returns the stored collection
    with the loaded config. *)
Theorem reads_leave_initialised_project_unchanged (this : KanbanBoard.t) w w1 ts :
  Storage.loadTasks (KanbanBoard.projectPath this) w = (Return ts, w1) ->
  let p := KanbanBoard.projectPath this in
  Storage.loadTasks p w1 = (Return ts, w1) /\
  Config.configExists p w1 = (Return true, w1) /\
  (exists config,
     Config.loadConfig p w1 = (Return config, w1) /\
     Storage.getTasksPath p w1 = (Return (path_join p (BoardConfig.tasksFile config)), w1) /\
     KanbanBoard.getState this w1
       = (Return {| KanbanBoard.tasks := ts; KanbanBoard.config := config |}, w1)) /\
  (forall column, exists tasks, KanbanBoard.getTasks this column w1 = (Return tasks, w1)) /\
  (exists grouped, KanbanBoard.getTasksByColumn this w1 = (Return grouped, w1)) /\
  (forall taskId, exists task, KanbanBoard.getTask this taskId w1 = (Return task, w1)) /\
  (exists stats, KanbanBoard.getStats this w1 = (Return stats, w1)).
Proof.
  intros Hload p. pose proof (loadTasks_again _ _ _ _ Hload) as Hload1. fold p in Hload1.
  destruct (loadTasks_Return _ _ _ _ Hload) as (content & cfg & Hc & Hp & Ht). fold p in Hc, Ht.
  pose proof (loadConfig_Stored p w1 content cfg Hc Hp) as Hcfg.
  split; [exact Hload1|]. split; [|split; [|split; [|split; [|split]]]].
  - unfold Config.configExists, existsSync_config. unfold_M. rewrite Hc.
    rewrite bool_decide_eq_true_2 by eauto. reflexivity.
  - exists cfg. split; [exact Hcfg|]. split.
    + unfold Storage.getTasksPath. unfold_M. rewrite Hcfg. reflexivity.
    + unfold KanbanBoard.getState. unfold_M. fold p. rewrite Hload1, Hcfg. reflexivity.
  - intros column. unfold KanbanBoard.getTasks. unfold_M. fold p. rewrite Hload1.
    destruct column; eauto.
  - unfold KanbanBoard.getTasksByColumn. unfold_M. fold p. rewrite Hload1. eauto.
  - intros taskId. rewrite (getTask_Return _ _ _ _ _ Hload1). eauto.
  - rewrite (getStats_Return _ _ _ _ Hload1). eauto.
Qed.

(** The theorem on a fresh directory: the first load writes both files, the
    reads after it write nothing. *)
Lemma reads_leave_initialised_project_unchanged_witness :
  exists w1,
    Storage.loadTasks "/p" fresh_world = (Return [], w1) /\
    Storage.loadTasks "/p" w1 = (Return [], w1) /\
    Config.configExists "/p" w1 = (Return true, w1) /\
    (exists stats, KanbanBoard.getStats sample_board w1 = (Return stats, w1)).
Proof.
  assert (Storage.loadTasks "/p" fresh_world
          = (Return [], snd (Storage.loadTasks "/p" fresh_world))) as Hload
    by (vm_compute; reflexivity).
  exists (snd (Storage.loadTasks "/p" fresh_world)). split; [exact Hload|].
  destruct (reads_leave_initialised_project_unchanged sample_board fresh_world _ _ Hload)
    as (Hagain & Hexists & _ & _ & _ & _ & Hstats).
  split; [exact Hagain|]. split; [exact Hexists|exact Hstats].
Defined.

(** X9.  [getTasks] without a column returns the stored collection as it
    is.  With a column it returns exactly the stored tasks of that column, in
    their stored order, and its length is the count [getStats] gives for the
    column. *)
Theorem getTasks_filters_by_column (this : KanbanBoard.t) w w1 ts :
  Storage.loadTasks (KanbanBoard.projectPath this) w = (Return ts, w1) ->
  KanbanBoard.getTasks this None w = (Return ts, w1) /\
  forall c, exists tasks_c,
    KanbanBoard.getTasks this (Some c) w = (Return tasks_c, w1) /\
    (forall t, t ∈ tasks_c <-> t ∈ ts /\ Task.column t = c) /\
    sublist tasks_c ts /\
    exists stats : gmap string Z,
      KanbanBoard.getStats this w = (Return stats, w1) /\
      stats !! column_name c = Some (Z.of_nat (length tasks_c)).
Proof.
  intros Hload. unfold KanbanBoard.getTasks. unfold_M. rewrite Hload.
  split; [reflexivity|]. intros c. eexists. split; [reflexivity|].
  split; [|split].
  - intros t. rewrite list_elem_of_filter. tauto.
  - apply sublist_filter.
  - destruct (getStats_lookup this w w1 ts Hload) as (stats & Hstats & Hcount).
    exists stats. split; [exact Hstats|]. apply Hcount.
Qed.

(** The theorem on the sample project, for the column [todo]. *)
Lemma getTasks_filters_by_column_witness :
  Storage.loadTasks "/p" sample_world = (Return [login_task; docs_task], sample_world) /\
  KanbanBoard.getTasks sample_board None sample_world
    = (Return [login_task; docs_task], sample_world) /\
  exists tasks_c,
    KanbanBoard.getTasks sample_board (Some todo) sample_world = (Return tasks_c, sample_world) /\
    (forall t, t ∈ tasks_c <-> t ∈ [login_task; docs_task] /\ Task.column t = todo) /\
    exists stats : gmap string Z,
      KanbanBoard.getStats sample_board sample_world = (Return stats, sample_world) /\
      stats !! "todo" = Some (Z.of_nat (length tasks_c)).
Proof.
  assert (Storage.loadTasks "/p" sample_world
          = (Return [login_task; docs_task], sample_world)) as Hload
    by (vm_compute; reflexivity).
  split; [exact Hload|].
  destruct (getTasks_filters_by_column sample_board sample_world sample_world _ Hload)
    as [Hall Hcol].
  split; [exact Hall|].
  destruct (Hcol todo) as (tasks_c & Hget & Hmem & _ & Hstats).
  exists tasks_c. split; [exact Hget|]. split; [exact Hmem|exact Hstats].
Defined.

(** X10.  [getTasksByColumn] returns an object whose keys are exactly the
    four column names; each key holds what [getTasks] returns for that
    column, that is the stored tasks of the column in their stored order; and
    every stored task is in the list of its own column. *)
Theorem getTasksByColumn_groups_in_order (this : KanbanBoard.t) w w1 ts :
  Storage.loadTasks (KanbanBoard.projectPath this) w = (Return ts, w1) ->
  exists grouped : gmap string (list Task.t),
    KanbanBoard.getTasksByColumn this w = (Return grouped, w1) /\
    dom grouped = (list_to_set (map column_name COLUMNS) : gset string) /\
    (forall c, exists tasks_c,
       grouped !! column_name c = Some tasks_c /\
       KanbanBoard.getTasks this (Some c) w = (Return tasks_c, w1) /\
       sublist tasks_c ts /\
       Forall (fun t => Task.column t = c) tasks_c) /\
    (forall t, t ∈ ts ->
       exists tasks_c, grouped !! column_name (Task.column t) = Some tasks_c /\ t ∈ tasks_c).
Proof.
  intros Hload. unfold KanbanBoard.getTasksByColumn, KanbanBoard.getTasks. unfold_M.
  rewrite Hload. eexists. split; [reflexivity|].
  fold (grouped_of [] [] [] []). rewrite fold_push_grouped. simpl.
  split; [|split].
  - unfold grouped_of. rewrite !dom_insert_L, dom_empty_L. simpl. set_solver.
  - intros c. exists (tasks_in c ts). split; [|split; [|split]].
    + rewrite grouped_of_lookup. destruct c; reflexivity.
    + reflexivity.
    + apply sublist_filter.
    + apply Forall_forall. intros t Ht. apply list_elem_of_filter in Ht as [Hc _]. exact Hc.
  - intros t Ht. exists (tasks_in (Task.column t) ts). split.
    + rewrite grouped_of_lookup. destruct (Task.column t); reflexivity.
    + apply list_elem_of_filter. split; [reflexivity|exact Ht].
Qed.

(** The theorem on the sample project: one task under [backlog], one under
    [todo], none under [review]. *)
Lemma getTasksByColumn_groups_in_order_witness :
  Storage.loadTasks "/p" sample_world = (Return [login_task; docs_task], sample_world) /\
  exists grouped : gmap string (list Task.t),
    KanbanBoard.getTasksByColumn sample_board sample_world = (Return grouped, sample_world) /\
    grouped !! "backlog" = Some [login_task] /\
    grouped !! "todo" = Some [docs_task] /\
    grouped !! "review" = Some [].
Proof.
  assert (Storage.loadTasks "/p" sample_world
          = (Return [login_task; docs_task], sample_world)) as Hload
    by (vm_compute; reflexivity).
  split; [exact Hload|].
  destruct (getTasksByColumn_groups_in_order sample_board sample_world sample_world _ Hload)
    as (grouped & Hget & _ & _ & _).
  exists grouped. split; [exact Hget|].
  assert (grouped = grouped_of [login_task] [docs_task] [] []) as ->.
  { assert (KanbanBoard.getTasksByColumn sample_board sample_world
            = (Return (grouped_of [login_task] [docs_task] [] []), sample_world)) as Hc
      by (vm_compute; reflexivity).
    rewrite Hc in Hget. injection Hget as <-. reflexivity. }
  split; [|split]; vm_compute; reflexivity.
Defined.

End BoardReads.

(** ** Board Engine: how the operations compose *)

Section BoardComposition.
Implicit Types (w v : World Task.t) (p taskId : string) (ts : list Task.t).

Lemma ids_insert ts i old new :
  ts !! i = Some old -> Task.id new = Task.id old -> ids (<[i := new]> ts) = ids ts.
Proof.
  intros Hi Hid. unfold ids. rewrite list_fmap_insert, Hid.
  apply list_insert_id. rewrite list_lookup_fmap, Hi. reflexivity.
Qed.

(** A task replaced by one of the same id is still the first with that id. *)
Lemma first_with_id_insert ts taskId i old new :
  first_with_id ts taskId i old -> Task.id new = taskId ->
  first_with_id (<[i := new]> ts) taskId i new.
Proof.
  intros (Hi & Hid & Hbefore) Hnew. split; [|split; [exact Hnew|]].
  - apply list_lookup_insert_eq. apply lookup_lt_Some in Hi. exact Hi.
  - intros j t Hj Ht. rewrite list_lookup_insert_ne in Ht by lia. eauto.
Qed.

(** A task appended under an id that is new is the first with that id. *)
Lemma first_with_id_snoc ts task :
  Task.id task ∉ ids ts -> first_with_id (ts ++ [task]) (Task.id task) (length ts) task.
Proof.
  intros Hnot. split; [|split; [reflexivity|]].
  - rewrite lookup_app_r by lia. rewrite Nat.sub_diag. reflexivity.
  - intros j t Hj Ht Heq. rewrite lookup_app_l in Ht by exact Hj.
    apply Hnot. rewrite <- Heq. unfold ids. apply list_elem_of_fmap_2.
    apply list_elem_of_lookup. eauto.
Qed.

Lemma delete_NoDup_filter (l : list string) (i : nat) (x : string) :
  NoDup l -> l !! i = Some x -> delete i l = filter (fun y => y <> x) l.
Proof.
  intros Hl. revert i. induction Hl as [|a l Ha Hl IH]; intros [|i] Hi; try discriminate.
  - simpl in Hi. injection Hi as ->. simpl. rewrite filter_cons.
    destruct (decide (x <> x)) as [?|_]; [contradiction|].
    symmetry. apply filter_ne_absent, Ha.
  - simpl in Hi. simpl. rewrite filter_cons.
    destruct (decide (a <> x)) as [_|Hn].
    + f_equal. apply IH, Hi.
    + exfalso. apply Ha. destruct (decide (a = x)) as [->|?]; [|contradiction].
      apply list_elem_of_lookup. eauto.
Qed.

Lemma Storage_deleteTask_found p taskId w w1 ts i old :
  Storage.loadTasks p w = (Return ts, w1) ->
  first_with_id ts taskId i old ->
  exists w2,
    Storage.deleteTask p taskId w = (Return true, w2) /\
    Storage.loadTasks p w2 = (Return (delete i ts), w2).
Proof.
  intros Hload Hfirst. pose proof (loadTasks_Return _ _ _ _ Hload) as Hst.
  destruct (saveTasks_Stored _ ts (delete i ts) w1 Hst) as (w2 & Hsave & Hst2 & _).
  exists w2. unfold Storage.deleteTask. unfold_M. rewrite Hload.
  rewrite (findIndex_first_with_id _ _ _ _ Hfirst).
  destruct (Z.eqb_spec (Z.of_nat i) (-1)) as [?|_]; [lia|].
  unfold splice1. rewrite Nat2Z.id, Hsave.
  split; [reflexivity|apply loadTasks_Stored, Hst2].
Qed.

Lemma Storage_deleteTask_unknown p taskId w w1 ts :
  Storage.loadTasks p w = (Return ts, w1) ->
  taskId ∉ ids ts ->
  Storage.deleteTask p taskId w = (Return false, w1).
Proof.
  intros Hload Hid. unfold Storage.deleteTask. unfold_M. rewrite Hload.
  rewrite (findIndex_unknown _ _ Hid). reflexivity.
Qed.

(** [moveTask] with the name of a column, on a task that is found. *)
Lemma moveTask_found (this : KanbanBoard.t) taskId (c : ColumnType) w w1 ts i old :
  Storage.loadTasks (KanbanBoard.projectPath this) w = (Return ts, w1) ->
  first_with_id ts taskId i old ->
  let new := moved_to c (clock w1 (clockReads w1)) old in
  exists w2,
    KanbanBoard.moveTask this taskId (column_name c) w = (Return (Some new), w2) /\
    Storage.loadTasks (KanbanBoard.projectPath this) w2 = (Return (<[i := new]> ts), w2).
Proof.
  intros Hload Hfirst new. unfold KanbanBoard.moveTask. rewrite find_column_name.
  destruct (Storage_updateTask_found _ taskId (KanbanBoard.only_column c)
              _ _ _ _ _ Hload Hfirst) as (w2 & Hupd & Hload2).
  exists w2. subst new. unfold moved_to. destruct old. split; [exact Hupd|exact Hload2].
Qed.

Lemma moveTask_unknown (this : KanbanBoard.t) taskId (c : ColumnType) w w1 ts :
  Storage.loadTasks (KanbanBoard.projectPath this) w = (Return ts, w1) ->
  taskId ∉ ids ts ->
  KanbanBoard.moveTask this taskId (column_name c) w = (Return None, w1).
Proof.
  intros Hload Hid. unfold KanbanBoard.moveTask. rewrite find_column_name.
  apply (Storage_updateTask_unknown _ _ _ _ _ _ Hload Hid).
Qed.

Lemma count_in_insert c ts i old new :
  ts !! i = Some old ->
  count_in c (<[i := new]> ts) = (count_in c ts - bump c old + bump c new)%Z.
Proof.
  revert i. induction ts as [|a ts IH]; intros [|i] Hi; try discriminate; simpl in *.
  - injection Hi as ->. rewrite !count_in_cons. lia.
  - rewrite !count_in_cons, (IH i Hi). lia.
Qed.

Lemma ids_insert_id ts i new : ids (<[i := new]> ts) = <[i := Task.id new]> (ids ts).
Proof. unfold ids. apply list_fmap_insert. Qed.

Lemma ids_lookup ts i old : ts !! i = Some old -> ids ts !! i = Some (Task.id old).
Proof. intros Hi. unfold ids. rewrite list_lookup_fmap, Hi. reflexivity. Qed.

(** In a list without repetitions, an entry replaced by a value that is new
    to the list leaves no occurrence of the former value. *)
Lemma NoDup_insert_absent (l : list string) (i : nat) (x y : string) :
  NoDup l -> l !! i = Some x -> y <> x -> x ∉ <[i := y]> l.
Proof.
  intros Hnd Hi Hne Hin. apply list_elem_of_lookup in Hin as (j & Hj).
  destruct (decide (j = i)) as [->|Hji].
  - rewrite list_lookup_insert_eq in Hj by (apply lookup_lt_Some in Hi; exact Hi).
    congruence.
  - rewrite list_lookup_insert_ne in Hj by congruence.
    apply Hji. apply (NoDup_lookup _ _ _ _ Hnd Hj Hi).
Qed.

(** A list without repetitions in which one entry is replaced has no
    repetition exactly when the new value is the former one or is new to the
    list. *)
Lemma NoDup_insert_iff (l : list string) (i : nat) (x y : string) :
  NoDup l -> l !! i = Some x -> (NoDup (<[i := y]> l) <-> y = x \/ y ∉ l).
Proof.
  intros Hnd Hi. assert (i < length l) as Hlt by (apply lookup_lt_Some in Hi; exact Hi).
  split.
  - intros Hnd'. destruct (decide (y = x)) as [?|Hne]; [left; assumption|]. right.
    intros Hin. apply list_elem_of_lookup in Hin as (j & Hj).
    assert (j <> i) as Hji by (intros ->; congruence).
    assert (<[i := y]> l !! j = Some y) as H1 by (rewrite list_lookup_insert_ne by congruence; exact Hj).
    assert (<[i := y]> l !! i = Some y) as H2 by (apply list_lookup_insert_eq; exact Hlt).
    apply Hji. apply (NoDup_lookup _ _ _ _ Hnd' H1 H2).
  - intros [->|Hnot].
    + rewrite list_insert_id by exact Hi. exact Hnd.
    + apply NoDup_alt. intros j k z Hj Hk.
      destruct (decide (j = i)) as [->|Hji], (decide (k = i)) as [->|Hki]; [reflexivity| | |].
      * rewrite list_lookup_insert_eq in Hj by exact Hlt.
        rewrite list_lookup_insert_ne in Hk by congruence.
        exfalso. apply Hnot. apply list_elem_of_lookup. exists k. congruence.
      * rewrite list_lookup_insert_eq in Hk by exact Hlt.
        rewrite list_lookup_insert_ne in Hj by congruence.
        exfalso. apply Hnot. apply list_elem_of_lookup. exists j. congruence.
      * rewrite list_lookup_insert_ne in Hj by congruence.
        rewrite list_lookup_insert_ne in Hk by congruence.
        apply (NoDup_lookup _ _ _ _ Hnd Hj Hk).
Qed.

(** A task put in place of another, under an id that no stored task has, is
    the first with that id. *)
Lemma first_with_id_insert_new ts i old new :
  ts !! i = Some old -> Task.id new ∉ ids ts ->
  first_with_id (<[i := new]> ts) (Task.id new) i new.
Proof.
  intros Hi Hnot. split; [|split; [reflexivity|]].
  - apply list_lookup_insert_eq. apply lookup_lt_Some in Hi. exact Hi.
  - intros j t Hj Ht Heq. rewrite list_lookup_insert_ne in Ht by lia.
    apply Hnot. rewrite <- Heq. unfold ids. apply list_elem_of_fmap_2.
    apply list_elem_of_lookup. eauto.
Qed.

(** X11.  [getTask] returns the first stored task that carries the id, and
    absent when no stored task does.  After an update of that id that carries
    no [id] key, or carries the same id, [getTask] returns the task that
    [updateTask] returned.  After an update that carries another id, in a
    store whose ids are pairwise distinct, [getTask] returns absent under the
    former id and, when no stored task had the new id, the task that
    [updateTask] returned under the new one. *)
Theorem getTask_returns_first_with_id (this : KanbanBoard.t) taskId w w1 ts :
  Storage.loadTasks (KanbanBoard.projectPath this) w = (Return ts, w1) ->
  (taskId ∉ ids ts -> KanbanBoard.getTask this taskId w = (Return None, w1)) /\
  (forall i old, first_with_id ts taskId i old ->
     KanbanBoard.getTask this taskId w = (Return (Some old), w1) /\
     forall updates, exists new w2,
       KanbanBoard.updateTask this taskId updates w = (Return (Some new), w2) /\
       (PartialTask.id updates = None \/ PartialTask.id updates = Some taskId ->
          KanbanBoard.getTask this taskId w2 = (Return (Some new), w2)) /\
       (forall id, PartialTask.id updates = Some id -> id <> taskId -> NoDup (ids ts) ->
          KanbanBoard.getTask this taskId w2 = (Return None, w2) /\
          (id ∉ ids ts -> KanbanBoard.getTask this id w2 = (Return (Some new), w2)))).
Proof.
  intros Hload. rewrite (getTask_Return _ _ _ _ _ Hload). split.
  - intros Hid. rewrite (find_unknown _ _ Hid). reflexivity.
  - intros i old Hfirst. rewrite (find_first_with_id _ _ _ _ Hfirst).
    split; [reflexivity|]. intros updates.
    destruct (Storage_updateTask_found _ taskId updates _ _ _ _ _ Hload Hfirst)
      as (w2 & Hupd & Hload2).
    eexists. exists w2. split; [exact Hupd|]. split.
    + intros Hsame. rewrite (getTask_Return _ _ _ _ _ Hload2).
      erewrite find_first_with_id; [reflexivity|].
      apply (first_with_id_insert _ _ _ _ _ Hfirst). simpl.
      destruct Hfirst as (_ & Hid & _). destruct Hsame as [-> | ->]; [exact Hid|reflexivity].
    + intros id Hid Hne Hnd. destruct Hfirst as (Hi & Hold & _).
      split.
      * rewrite (getTask_Return _ _ _ _ _ Hload2). rewrite find_unknown; [reflexivity|].
        rewrite ids_insert_id. simpl. rewrite Hid. simpl.
        apply (NoDup_insert_absent _ _ _ _ Hnd); [|exact Hne].
        rewrite (ids_lookup _ _ _ Hi), Hold. reflexivity.
      * intros Hnew. rewrite (getTask_Return _ _ _ _ _ Hload2).
        match goal with |- context [<[i := ?n]> ts] => set (new := n) end.
        assert (Task.id new = id) as Hnewid by (subst new; simpl; rewrite Hid; reflexivity).
        rewrite <- Hnewid.
        erewrite find_first_with_id; [reflexivity|].
        apply (first_with_id_insert_new _ _ _ _ Hi). rewrite Hnewid. exact Hnew.
Qed.

(** The theorem on the sample project: the second task is found before and
    after it is given a new title; after it is given the id of the first
    task, nothing is found under its former id. *)
Lemma getTask_returns_first_with_id_witness :
  Storage.loadTasks "/p" sample_world = (Return [login_task; docs_task], sample_world) /\
  ("no-such-id" ∉ ids [login_task; docs_task]) /\
  first_with_id [login_task; docs_task] "7d3c1a52-0002" 1 docs_task /\
  KanbanBoard.getTask sample_board "no-such-id" sample_world = (Return None, sample_world) /\
  KanbanBoard.getTask sample_board "7d3c1a52-0002" sample_world
    = (Return (Some docs_task), sample_world) /\
  (exists new w2,
     KanbanBoard.updateTask sample_board "7d3c1a52-0002" retitle sample_world
       = (Return (Some new), w2) /\
     KanbanBoard.getTask sample_board "7d3c1a52-0002" w2 = (Return (Some new), w2)) /\
  exists new w2,
    KanbanBoard.updateTask sample_board "7d3c1a52-0002" renumber sample_world
      = (Return (Some new), w2) /\
    KanbanBoard.getTask sample_board "7d3c1a52-0002" w2 = (Return None, w2).
Proof.
  assert (Storage.loadTasks "/p" sample_world
          = (Return [login_task; docs_task], sample_world)) as Hload
    by (vm_compute; reflexivity).
  assert ("no-such-id" ∉ ids [login_task; docs_task]) as Hnot
    by (apply (bool_decide_unpack _); vm_compute; exact I).
  assert (NoDup (ids [login_task; docs_task])) as Hnd
    by (apply (bool_decide_unpack _); vm_compute; exact I).
  split; [exact Hload|]. split; [exact Hnot|]. split; [exact first_with_id_docs|].
  pose proof (getTask_returns_first_with_id sample_board "no-such-id"
                sample_world sample_world _ Hload) as [Hunknown _].
  pose proof (getTask_returns_first_with_id sample_board "7d3c1a52-0002"
                sample_world sample_world _ Hload) as [_ Hknown].
  split; [exact (Hunknown Hnot)|].
  destruct (Hknown 1 docs_task first_with_id_docs) as [Hget Hupd].
  split; [exact Hget|]. split.
  - destruct (Hupd retitle) as (new & w2 & Hu & Hsame & _).
    exists new, w2. split; [exact Hu|]. apply Hsame. left. reflexivity.
  - destruct (Hupd renumber) as (new & w2 & Hu & _ & Hother).
    exists new, w2. split; [exact Hu|].
    apply (Hother "7d3c1a52-0001" eq_refl); [discriminate|exact Hnd].
Defined.

(** X12.  A task that was created can be read back and deleted again: when
    the id [uuidv4] returns is not in the store, [getTask] under the id of the
    created task returns that task, [deleteTask] under it returns true, and
    afterwards the store holds exactly what it held before the creation and
    [getTask] returns absent. *)
Theorem createTask_then_deleteTask
    (this : KanbanBoard.t) (input : CreateTaskInput.t) w w1 ts :
  Storage.loadTasks (KanbanBoard.projectPath this) w = (Return ts, w1) ->
  uuids w (uuidsDrawn w) ∉ ids ts ->
  exists task w2 w3,
    KanbanBoard.createTask this input w = (Return task, w2) /\
    KanbanBoard.getTask this (Task.id task) w2 = (Return (Some task), w2) /\
    KanbanBoard.deleteTask this (Task.id task) w2 = (Return true, w3) /\
    Storage.loadTasks (KanbanBoard.projectPath this) w3 = (Return ts, w3) /\
    KanbanBoard.getTask this (Task.id task) w3 = (Return None, w3).
Proof.
  intros Hload Hfresh.
  destruct (createTask_appends this input w w1 ts Hload) as (w2 & Hcreate & Hload2 & _).
  assert (first_with_id (ts ++ [created_task input w]) (Task.id (created_task input w))
            (length ts) (created_task input w)) as Hfirst
    by (apply first_with_id_snoc; exact Hfresh).
  destruct (Storage_deleteTask_found _ _ _ _ _ _ _ Hload2 Hfirst) as (w3 & Hdel & Hload3).
  assert (delete (length ts) (ts ++ [created_task input w]) = ts) as Hback.
  { rewrite delete_take_drop, take_app_length.
    rewrite drop_ge by (rewrite length_app; simpl; lia). apply app_nil_r. }
  rewrite Hback in Hload3.
  exists (created_task input w), w2, w3.
  split; [exact Hcreate|]. split; [|split; [exact Hdel|split; [exact Hload3|]]].
  - rewrite (getTask_Return _ _ _ _ _ Hload2), (find_first_with_id _ _ _ _ Hfirst). reflexivity.
  - rewrite (getTask_Return _ _ _ _ _ Hload3).
    change (Task.id (created_task input w)) with (uuids w (uuidsDrawn w)).
    rewrite (find_unknown _ _ Hfresh). reflexivity.
Qed.

(** The theorem on the sample project: a third task is created and deleted,
    and the two tasks are left. *)
Lemma createTask_then_deleteTask_witness :
  Storage.loadTasks "/p" sample_world = (Return [login_task; docs_task], sample_world) /\
  (uuids sample_world (uuidsDrawn sample_world) ∉ ids [login_task; docs_task]) /\
  exists task w2 w3,
    KanbanBoard.createTask sample_board review_input sample_world = (Return task, w2) /\
    KanbanBoard.getTask sample_board (Task.id task) w2 = (Return (Some task), w2) /\
    KanbanBoard.deleteTask sample_board (Task.id task) w2 = (Return true, w3) /\
    Storage.loadTasks "/p" w3 = (Return [login_task; docs_task], w3) /\
    KanbanBoard.getTask sample_board (Task.id task) w3 = (Return None, w3).
Proof.
  assert (Storage.loadTasks "/p" sample_world
          = (Return [login_task; docs_task], sample_world)) as Hload
    by (vm_compute; reflexivity).
  assert (uuids sample_world (uuidsDrawn sample_world) ∉ ids [login_task; docs_task]) as Hfresh
    by (apply (bool_decide_unpack _); vm_compute; exact I).
  split; [exact Hload|]. split; [exact Hfresh|].
  exact (createTask_then_deleteTask sample_board review_input sample_world sample_world _
           Hload Hfresh).
Defined.

(** X13.  The operations keep the stored collection unique by id, an update
    that carries an [id] key apart.  From a store whose ids are pairwise
    distinct: [updateTask] with an update that carries no id, and [moveTask],
    return and leave the same ids in the same order; [deleteTask] returns and
    leaves the ids without the one given; [createTask], when the id [uuidv4]
    returns is not in the store, leaves the ids followed by that id; and the
    ids are pairwise distinct after each of them.  [updateTask] with an
    update that carries an id puts that id in the place of the task's: the
    ids are pairwise distinct afterwards exactly when it is the task's own id
    or the id of no stored task. *)
Theorem operations_keep_ids_unique (this : KanbanBoard.t) w w1 ts :
  Storage.loadTasks (KanbanBoard.projectPath this) w = (Return ts, w1) ->
  NoDup (ids ts) ->
  (forall taskId updates, PartialTask.id updates = None ->
     exists result w2 ts2,
       KanbanBoard.updateTask this taskId updates w = (Return result, w2) /\
       Storage.loadTasks (KanbanBoard.projectPath this) w2 = (Return ts2, w2) /\
       ids ts2 = ids ts) /\
  (forall taskId updates id i old,
     PartialTask.id updates = Some id -> first_with_id ts taskId i old ->
     exists result w2 ts2,
       KanbanBoard.updateTask this taskId updates w = (Return result, w2) /\
       Storage.loadTasks (KanbanBoard.projectPath this) w2 = (Return ts2, w2) /\
       ids ts2 = <[i := id]> (ids ts) /\
       (NoDup (ids ts2) <-> id = taskId \/ id ∉ ids ts)) /\
  (forall taskId c, exists result w2 ts2,
     KanbanBoard.moveTask this taskId (column_name c) w = (Return result, w2) /\
     Storage.loadTasks (KanbanBoard.projectPath this) w2 = (Return ts2, w2) /\
     ids ts2 = ids ts) /\
  (forall taskId, exists result w2 ts2,
     KanbanBoard.deleteTask this taskId w = (Return result, w2) /\
     Storage.loadTasks (KanbanBoard.projectPath this) w2 = (Return ts2, w2) /\
     NoDup (ids ts2) /\ ids ts2 = filter (fun id => id <> taskId) (ids ts)) /\
  (forall input, uuids w (uuidsDrawn w) ∉ ids ts ->
     exists task w2 ts2,
       KanbanBoard.createTask this input w = (Return task, w2) /\
       Storage.loadTasks (KanbanBoard.projectPath this) w2 = (Return ts2, w2) /\
       NoDup (ids ts2) /\ ids ts2 = ids ts ++ [uuids w (uuidsDrawn w)]).
Proof.
  intros Hload Hnd.
  assert (forall taskId updates,
            PartialTask.id updates = None ->
            exists result w2 ts2,
              Storage.updateTask (KanbanBoard.projectPath this) taskId updates w
                = (Return result, w2) /\
              Storage.loadTasks (KanbanBoard.projectPath this) w2 = (Return ts2, w2) /\
              ids ts2 = ids ts) as Hupd.
  { intros taskId updates Hnoid. destruct (decide (taskId ∈ ids ts)) as [Hin|Hnot].
    - destruct (first_with_id_exists _ _ Hin) as (i & old & Hfirst).
      destruct (Storage_updateTask_found _ taskId updates _ _ _ _ _ Hload Hfirst)
        as (w2 & Hu & Hload2).
      eexists. exists w2. eexists. split; [exact Hu|]. split; [exact Hload2|].
      apply (ids_insert _ _ old); [apply Hfirst|]. simpl. rewrite Hnoid. reflexivity.
    - exists None, w1, ts. split; [apply (Storage_updateTask_unknown _ _ _ _ _ _ Hload Hnot)|].
      split; [apply (loadTasks_again _ _ _ _ Hload)|reflexivity]. }
  split; [|split; [|split; [|split]]].
  - intros taskId updates Hnoid. apply Hupd. exact Hnoid.
  - intros taskId updates id i old Hid Hfirst.
    destruct (Storage_updateTask_found _ taskId updates _ _ _ _ _ Hload Hfirst)
      as (w2 & Hu & Hload2).
    eexists. exists w2. eexists. split; [exact Hu|]. split; [exact Hload2|].
    rewrite ids_insert_id. simpl. rewrite Hid. simpl. split; [reflexivity|].
    destruct Hfirst as (Hi & Hold & _).
    apply (NoDup_insert_iff _ _ _ _ Hnd). rewrite (ids_lookup _ _ _ Hi), Hold. reflexivity.
  - intros taskId c. unfold KanbanBoard.moveTask. rewrite find_column_name.
    apply Hupd. reflexivity.
  - intros taskId. unfold KanbanBoard.deleteTask.
    destruct (decide (taskId ∈ ids ts)) as [Hin|Hnot].
    + destruct (first_with_id_exists _ _ Hin) as (i & old & Hfirst).
      destruct (Storage_deleteTask_found _ _ _ _ _ _ _ Hload Hfirst) as (w2 & Hdel & Hload2).
      exists true, w2, (delete i ts). split; [exact Hdel|]. split; [exact Hload2|].
      assert (ids (delete i ts) = filter (fun id => id <> taskId) (ids ts)) as Hids.
      { rewrite ids_delete. apply (delete_NoDup_filter _ _ _ Hnd).
        destruct Hfirst as (Hi & Hid & _).
        unfold ids. rewrite list_lookup_fmap, Hi. simpl. congruence. }
      split; [|exact Hids]. rewrite Hids. apply NoDup_filter, Hnd.
    + exists false, w1, ts. split; [apply (Storage_deleteTask_unknown _ _ _ _ _ Hload Hnot)|].
      split; [apply (loadTasks_again _ _ _ _ Hload)|]. split; [exact Hnd|].
      symmetry. apply filter_ne_absent, Hnot.
  - intros input Hfresh.
    destruct (createTask_appends this input w w1 ts Hload) as (w2 & Hcreate & Hload2 & _).
    eexists. exists w2. eexists. split; [exact Hcreate|]. split; [exact Hload2|].
    assert (ids (ts ++ [created_task input w]) = ids ts ++ [uuids w (uuidsDrawn w)]) as Hids
      by (unfold ids; rewrite map_app; reflexivity).
    split; [|exact Hids]. rewrite Hids. apply NoDup_app. split; [exact Hnd|].
    split; [|apply NoDup_singleton].
    intros x Hx Hx'. apply list_elem_of_singleton in Hx'. subst x. exact (Hfresh Hx).
Qed.

(** The theorem on the sample project: deleting the first task leaves the id
    of the second. *)
Lemma operations_keep_ids_unique_witness :
  Storage.loadTasks "/p" sample_world = (Return [login_task; docs_task], sample_world) /\
  NoDup (ids [login_task; docs_task]) /\
  exists result w2 ts2,
    KanbanBoard.deleteTask sample_board "7d3c1a52-0001" sample_world = (Return result, w2) /\
    Storage.loadTasks "/p" w2 = (Return ts2, w2) /\
    NoDup (ids ts2) /\
    ids ts2 = ["7d3c1a52-0002"].
Proof.
  assert (Storage.loadTasks "/p" sample_world
          = (Return [login_task; docs_task], sample_world)) as Hload
    by (vm_compute; reflexivity).
  assert (NoDup (ids [login_task; docs_task])) as Hnd
    by (apply (bool_decide_unpack _); vm_compute; exact I).
  split; [exact Hload|]. split; [exact Hnd|].
  destruct (operations_keep_ids_unique sample_board sample_world sample_world _ Hload Hnd)
    as (_ & _ & _ & Hdel & _).
  destruct (Hdel "7d3c1a52-0001") as (result & w2 & ts2 & Hd & Hload2 & Hnd2 & Hids).
  exists result, w2, ts2. split; [exact Hd|]. split; [exact Hload2|]. split; [exact Hnd2|].
  rewrite Hids. vm_compute. reflexivity.
Defined.

(** X14.  Moving a task shifts one count.  When [moveTask] moves the task
    found under the id to the column [c], the counts [getStats] gives
    afterwards are those before, with one less in the column the task was in
    and one more in [c]; a move to the column the task is in already changes
    no count. *)
Theorem moveTask_shifts_one_count
    (this : KanbanBoard.t) taskId (c : ColumnType) w w1 ts i old :
  Storage.loadTasks (KanbanBoard.projectPath this) w = (Return ts, w1) ->
  first_with_id ts taskId i old ->
  exists moved w2 (before after : gmap string Z),
    KanbanBoard.getStats this w = (Return before, w1) /\
    KanbanBoard.moveTask this taskId (column_name c) w = (Return (Some moved), w2) /\
    KanbanBoard.getStats this w2 = (Return after, w2) /\
    (forall c', exists n n',
       before !! column_name c' = Some n /\ after !! column_name c' = Some n' /\
       n' = (n - (if decide (Task.column old = c') then 1 else 0)
               + (if decide (c = c') then 1 else 0))%Z) /\
    (Task.column old = c -> after = before).
Proof.
  intros Hload Hfirst.
  destruct (moveTask_found this taskId c w w1 ts i old Hload Hfirst) as (w2 & Hmove & Hload2).
  pose proof (proj1 Hfirst) as Hi.
  eexists. exists w2. eexists. eexists.
  split; [apply (getStats_Return _ _ _ _ Hload)|].
  split; [exact Hmove|]. split; [apply (getStats_Return _ _ _ _ Hload2)|].
  split.
  - intros c'. eexists. eexists. rewrite !stats_of_lookup.
    split; [reflexivity|]. split; [reflexivity|].
    destruct c'; rewrite (count_in_insert _ _ _ _ _ Hi); unfold bump; simpl; reflexivity.
  - intros Hsame. rewrite !(count_in_insert _ _ _ _ _ Hi). unfold bump. simpl.
    rewrite Hsame. f_equal; destruct (decide _); lia.
Qed.

(** The theorem on the sample project: completing the first task takes one
    from [backlog] and adds one to [done]. *)
Lemma moveTask_shifts_one_count_witness :
  Storage.loadTasks "/p" sample_world = (Return [login_task; docs_task], sample_world) /\
  first_with_id [login_task; docs_task] "7d3c1a52-0001" 0 login_task /\
  exists moved w2 (before after : gmap string Z),
    KanbanBoard.getStats sample_board sample_world = (Return before, sample_world) /\
    KanbanBoard.moveTask sample_board "7d3c1a52-0001" "done" sample_world
      = (Return (Some moved), w2) /\
    KanbanBoard.getStats sample_board w2 = (Return after, w2) /\
    (exists n n',
       before !! "backlog" = Some n /\ after !! "backlog" = Some n' /\ n' = (n - 1 + 0)%Z) /\
    (exists n n',
       before !! "done" = Some n /\ after !! "done" = Some n' /\ n' = (n - 0 + 1)%Z).
Proof.
  assert (Storage.loadTasks "/p" sample_world
          = (Return [login_task; docs_task], sample_world)) as Hload
    by (vm_compute; reflexivity).
  split; [exact Hload|]. split; [exact first_with_id_login|].
  destruct (moveTask_shifts_one_count sample_board "7d3c1a52-0001" done sample_world sample_world
              _ 0 login_task Hload first_with_id_login)
    as (moved & w2 & before & after & Hb & Hm & Ha & Hshift & _).
  exists moved, w2, before, after. split; [exact Hb|]. split; [exact Hm|]. split; [exact Ha|].
  split; [exact (Hshift backlog)|exact (Hshift done)].
Defined.

(** X15.  [moveToReview] and [completeTask] never raise the column error.
    Under an id that is not in the store both return absent.  On a task that
    is found, from whatever column it is in, [moveToReview] returns it with
    the column [review], [getTask] then returns that task, and a
    [completeTask] after it returns the task with the column [done], its
    other fields those of the original but for [updatedAt], stored in the
    place of the original. *)
Theorem moveToReview_then_completeTask (this : KanbanBoard.t) taskId w w1 ts :
  Storage.loadTasks (KanbanBoard.projectPath this) w = (Return ts, w1) ->
  (taskId ∉ ids ts ->
     KanbanBoard.moveToReview this taskId w = (Return None, w1) /\
     KanbanBoard.completeTask this taskId w = (Return None, w1)) /\
  (forall i old, first_with_id ts taskId i old ->
     exists reviewed completed w2 w3,
       KanbanBoard.moveToReview this taskId w = (Return (Some reviewed), w2) /\
       reviewed = moved_to review (clock w1 (clockReads w1)) old /\
       KanbanBoard.getTask this taskId w2 = (Return (Some reviewed), w2) /\
       KanbanBoard.completeTask this taskId w2 = (Return (Some completed), w3) /\
       completed = moved_to done (clock w2 (clockReads w2)) old /\
       Storage.loadTasks (KanbanBoard.projectPath this) w3 = (Return (<[i := completed]> ts), w3)).
Proof.
  intros Hload. unfold KanbanBoard.moveToReview, KanbanBoard.completeTask. split.
  - intros Hid. split.
    + apply (moveTask_unknown this taskId review _ _ _ Hload Hid).
    + apply (moveTask_unknown this taskId done _ _ _ Hload Hid).
  - intros i old Hfirst.
    destruct (moveTask_found this taskId review w w1 ts i old Hload Hfirst)
      as (w2 & Hmove & Hload2).
    set (reviewed := moved_to review (clock w1 (clockReads w1)) old) in *.
    assert (first_with_id (<[i := reviewed]> ts) taskId i reviewed) as Hfirst2
      by (apply (first_with_id_insert _ _ _ _ _ Hfirst); apply Hfirst).
    destruct (moveTask_found this taskId done w2 w2 _ i reviewed Hload2 Hfirst2)
      as (w3 & Hmove3 & Hload3).
    rewrite list_insert_insert_eq in Hload3.
    exists reviewed, (moved_to done (clock w2 (clockReads w2)) old), w2, w3.
    split; [exact Hmove|]. split; [reflexivity|].
    split; [rewrite (getTask_Return _ _ _ _ _ Hload2), (find_first_with_id _ _ _ _ Hfirst2);
            reflexivity|].
    split; [exact Hmove3|]. split; [reflexivity|exact Hload3].
Qed.

(** The theorem on the sample project: the second task goes from [todo]
    through [review] to [done]. *)
Lemma moveToReview_then_completeTask_witness :
  Storage.loadTasks "/p" sample_world = (Return [login_task; docs_task], sample_world) /\
  ("no-such-id" ∉ ids [login_task; docs_task]) /\
  first_with_id [login_task; docs_task] "7d3c1a52-0002" 1 docs_task /\
  KanbanBoard.moveToReview sample_board "no-such-id" sample_world = (Return None, sample_world) /\
  exists reviewed completed w2 w3,
    KanbanBoard.moveToReview sample_board "7d3c1a52-0002" sample_world
      = (Return (Some reviewed), w2) /\
    Task.column reviewed = review /\
    KanbanBoard.completeTask sample_board "7d3c1a52-0002" w2 = (Return (Some completed), w3) /\
    Task.column completed = done /\
    Task.title completed = Some "Write docs" /\
    Storage.loadTasks "/p" w3 = (Return [login_task; completed], w3).
Proof.
  assert (Storage.loadTasks "/p" sample_world
          = (Return [login_task; docs_task], sample_world)) as Hload
    by (vm_compute; reflexivity).
  assert ("no-such-id" ∉ ids [login_task; docs_task]) as Hnot
    by (apply (bool_decide_unpack _); vm_compute; exact I).
  split; [exact Hload|]. split; [exact Hnot|]. split; [exact first_with_id_docs|].
  pose proof (moveToReview_then_completeTask sample_board "no-such-id"
                sample_world sample_world _ Hload) as [Hunknown _].
  pose proof (moveToReview_then_completeTask sample_board "7d3c1a52-0002"
                sample_world sample_world _ Hload) as [_ Hknown].
  split; [exact (proj1 (Hunknown Hnot))|].
  destruct (Hknown 1 docs_task first_with_id_docs)
    as (reviewed & completed & w2 & w3 & Hr & Hreviewed & _ & Hc & Hcompleted & Hload3).
  exists reviewed, completed, w2, w3. split; [exact Hr|].
  split; [rewrite Hreviewed; reflexivity|]. split; [exact Hc|].
  split; [rewrite Hcompleted; reflexivity|]. split; [rewrite Hcompleted; reflexivity|].
  exact Hload3.
Defined.

End BoardComposition.

(** ** Project Registry: from a registry file that is missing or broken *)

Section RegistryFromAnyFile.
Implicit Types (h : option (YamlFile GlobalConfig.t)) (path : string) (l : list string).

Lemma without_first_sublist path l : sublist (without_first path l) l.
Proof.
  unfold without_first. destruct (indexOf l path >? -1)%Z; [|reflexivity].
  unfold splice1. apply sublist_delete.
Qed.

Lemma without_first_absent path l : path ∉ l -> without_first path l = l.
Proof.
  intros Hnot. unfold without_first, indexOf.
  replace (findIndex (String.eqb path) l) with (-1)%Z; [reflexivity|].
  symmetry. apply findIndex_none, Forall_forall. intros x Hx.
  apply String.eqb_neq. intros ->. exact (Hnot Hx).
Qed.

Lemma without_first_head path l : without_first path (path :: l) = l.
Proof.
  unfold without_first, indexOf, splice1. simpl. rewrite String.eqb_refl. reflexivity.
Qed.

(** X16.  Let the registry file be absent, or hold a document that is empty,
    does not parse, or is a mapping, whatever recent list the mapping has
    (one with repetitions or with more than 10 entries as well); a document
    that parses to a scalar or a sequence is left aside.  Then
    [setLastProjectPath] returns, and afterwards [getLastProjectPath] returns
    the path, [getRecentProjects] returns a list of at most 10 entries that
    begins with the path, and the entries after it are entries of the former
    list in their former order (the first 9 of them when the path is new).  A
    registry file that did not parse is replaced by one that holds the path
    alone. *)
Theorem setLastProjectPath_from_missing_broken_or_mapping h path :
  exists h' rest,
    GlobalConfig.setLastProjectPath path h = (Return tt, h') /\
    GlobalConfig.getLastProjectPath h' = (Return (Some path), h') /\
    GlobalConfig.getRecentProjects h' = (Return (path :: rest), h') /\
    length (path :: rest) <= 10 /\
    (forall old, GlobalConfig.getRecentProjects h = (Return old, h) ->
       sublist rest old /\ (path ∉ old -> rest = take 9 old)) /\
    (forall why, h = Some (YamlInvalid why) ->
       h' = Some (YamlMapping {| GlobalConfig.lastProjectPath := Some path;
                                 GlobalConfig.recentProjects := Some [path] |})).
Proof.
  eexists. eexists. split; [apply setLastProjectPath_eq|].
  rewrite getLastProjectPath_eq, getRecentProjects_eq. simpl.
  split; [reflexivity|]. split; [reflexivity|]. split; [|split].
  - rewrite length_take. lia.
  - intros old. rewrite getRecentProjects_eq. intros [= Hold]. rewrite Hold. split.
    + etransitivity; [apply sublist_take|apply without_first_sublist].
    + intros Hnot. rewrite (without_first_absent _ _ Hnot). reflexivity.
  - intros why ->. reflexivity.
Qed.

(** The theorem on a registry file that does not parse. *)
Lemma setLastProjectPath_from_missing_broken_or_mapping_witness :
  GlobalConfig.getRecentProjects (Some (YamlInvalid "bad indentation"))
    = (Return [], Some (YamlInvalid "bad indentation")) /\
  exists h',
    GlobalConfig.setLastProjectPath "/a" (Some (YamlInvalid "bad indentation")) = (Return tt, h') /\
    GlobalConfig.getLastProjectPath h' = (Return (Some "/a"), h') /\
    GlobalConfig.getRecentProjects h' = (Return ["/a"], h') /\
    h' = Some (YamlMapping {| GlobalConfig.lastProjectPath := Some "/a";
                              GlobalConfig.recentProjects := Some ["/a"] |}).
Proof.
  assert (GlobalConfig.getRecentProjects (Some (YamlInvalid "bad indentation"))
          = (Return [], Some (YamlInvalid "bad indentation"))) as Hold by reflexivity.
  split; [exact Hold|].
  destruct (setLastProjectPath_from_missing_broken_or_mapping
              (Some (YamlInvalid "bad indentation")) "/a")
    as (h' & rest & Hset & Hlast & Hrecent & _ & Hrest & Hreplaced).
  exists h'. split; [exact Hset|]. split; [exact Hlast|].
  pose proof (Hreplaced _ eq_refl) as Hh'. split; [|exact Hh'].
  destruct (Hrest [] Hold) as [_ Htake].
  rewrite Hrecent. rewrite Htake; [reflexivity|]. apply not_elem_of_nil.
Defined.

(** X17.  [setLastProjectPath] is idempotent: from any registry file, calling
    it twice in a row with the same path leaves the registry as calling it
    once does. *)
Theorem setLastProjectPath_twice_is_once h path :
  after_calls [path; path] h = after_calls [path] h.
Proof.
  unfold after_calls. simpl. rewrite !setLastProjectPath_eq. simpl.
  do 3 f_equal. rewrite without_first_head, take_idemp. reflexivity.
Qed.

End RegistryFromAnyFile.

(** ** The tools of the MCP server *)

Section Tools.
Implicit Types (w v : World Task.t) (p id : string) (ts : list Task.t).

(** X18.  The tool [update_task] replaces all three fields by its
    arguments.  On a task that is found it returns the task whose title,
    description and priority are the arguments as given, for whatever the
    task held before: an argument the caller left out is [undefined] and
    leaves the field [undefined] in the stored task.  The id, the column and
    [createdAt] stay. *)
Theorem update_task_replaces_all_three_fields
    (board : KanbanBoard.t) id (title description : option string) (priority : option Priority)
    w w1 ts i old :
  Storage.loadTasks (KanbanBoard.projectPath board) w = (Return ts, w1) ->
  first_with_id ts id i old ->
  exists new w2,
    McpServer.Tool.update_task board id title description priority w
      = (Return (McpServer.Tool.task_text "Updated task: " new), w2) /\
    Task.title new = title /\
    Task.description new = description /\
    Task.priority new = priority /\
    Task.id new = Task.id old /\
    Task.column new = Task.column old /\
    Task.createdAt new = Task.createdAt old /\
    Storage.loadTasks (KanbanBoard.projectPath board) w2 = (Return (<[i := new]> ts), w2).
Proof.
  intros Hload Hfirst.
  destruct (Storage_updateTask_found _ id
              (KanbanBoard.as_PartialTask
                 {| UpdateTaskInput.title := Present title;
                    UpdateTaskInput.description := Present description;
                    UpdateTaskInput.priority := Present priority |})
              _ _ _ _ _ Hload Hfirst) as (w2 & Hupd & Hload2).
  eexists. exists w2. split.
  - unfold McpServer.Tool.update_task, McpServer.update_task, KanbanBoard.updateTask.
    unfold_M. rewrite Hupd. reflexivity.
  - repeat (split; [reflexivity|]). exact Hload2.
Qed.

(** The theorem on the sample project: a call that gives a priority only
    takes the title and the description from the second task. *)
Lemma update_task_replaces_all_three_fields_witness :
  Storage.loadTasks "/p" sample_world = (Return [login_task; docs_task], sample_world) /\
  first_with_id [login_task; docs_task] "7d3c1a52-0002" 1 docs_task /\
  exists new w2,
    McpServer.Tool.update_task sample_board "7d3c1a52-0002" None None (Some high) sample_world
      = (Return (McpServer.Tool.task_text "Updated task: " new), w2) /\
    Task.title new = None /\
    Task.description new = None /\
    Task.priority new = Some high /\
    Storage.loadTasks "/p" w2 = (Return [login_task; new], w2).
Proof.
  assert (Storage.loadTasks "/p" sample_world
          = (Return [login_task; docs_task], sample_world)) as Hload
    by (vm_compute; reflexivity).
  split; [exact Hload|]. split; [exact first_with_id_docs|].
  destruct (update_task_replaces_all_three_fields sample_board "7d3c1a52-0002" None None
              (Some high) sample_world sample_world _ 1 docs_task Hload first_with_id_docs)
    as (new & w2 & Hupd & Ht & Hd & Hp & _ & _ & _ & Hload2).
  exists new, w2. split; [exact Hupd|]. split; [exact Ht|]. split; [exact Hd|].
  split; [exact Hp|exact Hload2].
Defined.

(** X19.  The tools that take a task id report an error exactly when no
    stored task carries the id.  Under an unknown id, [update_task],
    [move_task], [move_to_review], [complete_task] and [delete_task] each
    return the text [Error: Task with ID <id> not found] with [isError] set,
    and leave the store as the load left it.  Under an id of the store none
    of them returns an error, and [delete_task] returns the text
    [Task <id> deleted successfully]. *)
Theorem tools_report_unknown_id
    (board : KanbanBoard.t) id w w1 ts :
  Storage.loadTasks (KanbanBoard.projectPath board) w = (Return ts, w1) ->
  let missing := McpServer.Tool.error_text ("Error: Task with ID " +:+ id +:+ " not found") in
  (id ∉ ids ts ->
     (forall title description priority,
        McpServer.Tool.update_task board id title description priority w = (Return missing, w1)) /\
     (forall column, McpServer.Tool.move_task board id column w = (Return missing, w1)) /\
     McpServer.Tool.move_to_review board id w = (Return missing, w1) /\
     McpServer.Tool.complete_task board id w = (Return missing, w1) /\
     McpServer.Tool.delete_task board id w = (Return missing, w1)) /\
  (id ∈ ids ts ->
     (forall title description priority, exists result w2,
        McpServer.Tool.update_task board id title description priority w = (Return result, w2) /\
        McpServer.Tool.isError result = false) /\
     (forall column, exists result w2,
        McpServer.Tool.move_task board id column w = (Return result, w2) /\
        McpServer.Tool.isError result = false) /\
     (exists result w2,
        McpServer.Tool.move_to_review board id w = (Return result, w2) /\
        McpServer.Tool.isError result = false) /\
     (exists result w2,
        McpServer.Tool.complete_task board id w = (Return result, w2) /\
        McpServer.Tool.isError result = false) /\
     (exists w2,
        McpServer.Tool.delete_task board id w
          = (Return (McpServer.Tool.plain_text ("Task " +:+ id +:+ " deleted successfully")), w2))).
Proof.
  intros Hload missing. split.
  - intros Hid.
    assert (forall updates,
              Storage.updateTask (KanbanBoard.projectPath board) id updates w = (Return None, w1))
      as Hupd by (intros; apply (Storage_updateTask_unknown _ _ _ _ _ _ Hload Hid)).
    assert (forall c, KanbanBoard.moveTask board id (column_name c) w = (Return None, w1))
      as Hmove by (intros c; apply (moveTask_unknown _ _ _ _ _ _ Hload Hid)).
    split; [|split; [|split; [|split]]].
    + intros title description priority.
      unfold McpServer.Tool.update_task, McpServer.update_task, KanbanBoard.updateTask.
      unfold_M. rewrite Hupd. reflexivity.
    + intros column. unfold McpServer.Tool.move_task. unfold_M. rewrite Hmove. reflexivity.
    + unfold McpServer.Tool.move_to_review, KanbanBoard.moveToReview. unfold_M.
      change "review" with (column_name review). rewrite Hmove. reflexivity.
    + unfold McpServer.Tool.complete_task, KanbanBoard.completeTask. unfold_M.
      change "done" with (column_name done). rewrite Hmove. reflexivity.
    + unfold McpServer.Tool.delete_task, KanbanBoard.deleteTask. unfold_M.
      rewrite (Storage_deleteTask_unknown _ _ _ _ _ Hload Hid). reflexivity.
  - intros Hin. destruct (first_with_id_exists _ _ Hin) as (i & old & Hfirst).
    assert (forall updates, exists new w2,
              Storage.updateTask (KanbanBoard.projectPath board) id updates w
                = (Return (Some new), w2)) as Hupd.
    { intros updates.
      destruct (Storage_updateTask_found _ id updates _ _ _ _ _ Hload Hfirst) as (w2 & Hu & _).
      eauto. }
    assert (forall c, exists new w2,
              KanbanBoard.moveTask board id (column_name c) w = (Return (Some new), w2)) as Hmove.
    { intros c. destruct (moveTask_found board id c w w1 ts i old Hload Hfirst) as (w2 & Hm & _).
      eauto. }
    split; [|split; [|split; [|split]]].
    + intros title description priority.
      unfold McpServer.Tool.update_task, McpServer.update_task, KanbanBoard.updateTask.
      unfold_M.
      match goal with |- context [Storage.updateTask _ _ ?u w] =>
        destruct (Hupd u) as (new & w2 & ->)
      end.
      eauto.
    + intros column. unfold McpServer.Tool.move_task. unfold_M.
      destruct (Hmove column) as (new & w2 & ->). eauto.
    + unfold McpServer.Tool.move_to_review, KanbanBoard.moveToReview. unfold_M.
      change "review" with (column_name review).
      destruct (Hmove review) as (new & w2 & ->). eauto.
    + unfold McpServer.Tool.complete_task, KanbanBoard.completeTask. unfold_M.
      change "done" with (column_name done).
      destruct (Hmove done) as (new & w2 & ->). eauto.
    + destruct (Storage_deleteTask_found _ _ _ _ _ _ _ Hload Hfirst) as (w2 & Hdel & _).
      exists w2. unfold McpServer.Tool.delete_task, KanbanBoard.deleteTask. unfold_M.
      rewrite Hdel. reflexivity.
Qed.

(** The theorem on the sample project: an unknown id is reported by
    [move_to_review], the first task is deleted by [delete_task]. *)
Lemma tools_report_unknown_id_witness :
  Storage.loadTasks "/p" sample_world = (Return [login_task; docs_task], sample_world) /\
  ("no-such-id" ∉ ids [login_task; docs_task]) /\
  ("7d3c1a52-0001" ∈ ids [login_task; docs_task]) /\
  McpServer.Tool.move_to_review sample_board "no-such-id" sample_world
    = (Return (McpServer.Tool.error_text "Error: Task with ID no-such-id not found"),
       sample_world) /\
  exists w2,
    McpServer.Tool.delete_task sample_board "7d3c1a52-0001" sample_world
      = (Return (McpServer.Tool.plain_text "Task 7d3c1a52-0001 deleted successfully"), w2).
Proof.
  assert (Storage.loadTasks "/p" sample_world
          = (Return [login_task; docs_task], sample_world)) as Hload
    by (vm_compute; reflexivity).
  assert ("no-such-id" ∉ ids [login_task; docs_task]) as Hnot
    by (apply (bool_decide_unpack _); vm_compute; exact I).
  assert ("7d3c1a52-0001" ∈ ids [login_task; docs_task]) as Hin
    by (apply (bool_decide_unpack _); vm_compute; exact I).
  split; [exact Hload|]. split; [exact Hnot|]. split; [exact Hin|].
  pose proof (tools_report_unknown_id sample_board "no-such-id"
                sample_world sample_world _ Hload) as [Hunknown _].
  pose proof (tools_report_unknown_id sample_board "7d3c1a52-0001"
                sample_world sample_world _ Hload) as [_ Hknown].
  split.
  - exact (proj1 (proj2 (proj2 (Hunknown Hnot)))).
  - exact (proj2 (proj2 (proj2 (proj2 (Hknown Hin))))).
Defined.

Lemma total_of_stats_of b t r d :
  McpServer.Tool.total_of (stats_of b t r d) = (b + t + r + d)%Z.
Proof.
  unfold McpServer.Tool.total_of.
  replace (map snd (map_to_list (stats_of b t r d))) with [r; b; t; d]
    by (vm_compute; reflexivity).
  simpl. lia.
Qed.

(** X20.  The tool [get_board_stats] reports, under [total], the number of
    stored tasks: the sum it takes over the values of the counts is the
    length of the collection.  Its counts are those of [getStats], its
    [boardName] is the one of the project's config, and it writes nothing
    after the load. *)
Theorem get_board_stats_total_is_number_of_tasks (board : KanbanBoard.t) w w1 ts :
  Storage.loadTasks (KanbanBoard.projectPath board) w = (Return ts, w1) ->
  exists config (stats : gmap string Z),
    Config.loadConfig (KanbanBoard.projectPath board) w1 = (Return config, w1) /\
    McpServer.Tool.get_board_stats board w
      = (Return (McpServer.Tool.stats_text (BoardConfig.boardName config) stats
                   (Z.of_nat (length ts))), w1) /\
    (forall c, stats !! column_name c = Some (count_in c ts)).
Proof.
  intros Hload.
  destruct (getState_Return board w1 w1 ts (loadTasks_again _ _ _ _ Hload))
    as (config & Hcfg & Hstate).
  exists config. eexists. split; [exact Hcfg|]. split.
  - unfold McpServer.Tool.get_board_stats. unfold_M.
    rewrite (getStats_Return _ _ _ _ Hload), Hstate. simpl.
    rewrite total_of_stats_of, count_in_total. reflexivity.
  - intros c. rewrite stats_of_lookup. destruct c; reflexivity.
Qed.

(** The theorem on the sample project: two tasks in all. *)
Lemma get_board_stats_total_is_number_of_tasks_witness :
  Storage.loadTasks "/p" sample_world = (Return [login_task; docs_task], sample_world) /\
  exists stats : gmap string Z,
    McpServer.Tool.get_board_stats sample_board sample_world
      = (Return (McpServer.Tool.stats_text "Kanban Board" stats 2), sample_world) /\
    stats !! "backlog" = Some 1%Z /\
    stats !! "todo" = Some 1%Z.
Proof.
  assert (Storage.loadTasks "/p" sample_world
          = (Return [login_task; docs_task], sample_world)) as Hload
    by (vm_compute; reflexivity).
  split; [exact Hload|].
  destruct (get_board_stats_total_is_number_of_tasks sample_board sample_world sample_world _
              Hload) as (config & stats & Hcfg & Hget & Hcount).
  assert (config = {| BoardConfig.boardName := "Kanban Board";
                      BoardConfig.tasksFile := "tasks.json";
                      BoardConfig.createdAt := Some "2026-02-27T09:00:00.000Z" |}) as ->.
  { assert (Config.loadConfig "/p" sample_world
            = (Return {| BoardConfig.boardName := "Kanban Board";
                         BoardConfig.tasksFile := "tasks.json";
                         BoardConfig.createdAt := Some "2026-02-27T09:00:00.000Z" |},
               sample_world)) as Hc by (vm_compute; reflexivity).
    simpl in Hcfg. rewrite Hc in Hcfg. injection Hcfg as <-. reflexivity. }
  exists stats. split; [exact Hget|].
  split; [exact (Hcount backlog)|exact (Hcount todo)].
Defined.

End Tools.

(** ** The routes of the web server *)

Import WebServer.

Section Routes.
Implicit Types (s : State) (taskId : string) (ts : list Task.t).

Lemma truthy_Some (x : string) : x <> "" -> truthy (Some x) = Some x.
Proof. intros H. unfold truthy. destruct (String.eqb_spec x ""); [contradiction|reflexivity]. Qed.

Lemma truthy_None (value : option string) :
  value = None \/ value = Some "" -> truthy value = None.
Proof. intros [->| ->]; reflexivity. Qed.

Lemma with_project_selected s b pp (route : KanbanBoard.t -> string -> M State Response) :
  project_selected_in s b pp -> with_project route s = route b pp s.
Proof.
  intros (Hb & Hp & Hne). unfold with_project. unfold_M.
  rewrite Hb, Hp, (truthy_Some _ Hne). reflexivity.
Qed.

Lemma with_project_none s (route : KanbanBoard.t -> string -> M State Response) :
  WebServer.board (this s) = None \/ truthy (WebServer.projectPath (this s)) = None ->
  with_project route s = (Return no_project_selected, s).
Proof.
  intros H. unfold with_project. unfold_M.
  destruct H as [-> | ->]; [reflexivity|].
  destruct (WebServer.board (this s)); reflexivity.
Qed.

Lemma on_world_Return {A} (m : M (World Task.t) A) s a w :
  m (world s) = (Return a, w) -> on_world m s = (Return a, with_world w s).
Proof. intros H. unfold on_world. rewrite H. reflexivity. Qed.

Lemma on_world_Throw {A} (m : M (World Task.t) A) s e w :
  m (world s) = (Throw e, w) -> on_world m s = (Throw e, with_world w s).
Proof. intros H. unfold on_world. rewrite H. reflexivity. Qed.

Lemma State_eta s : mkState (this s) (world s) (home s) = s.
Proof. destruct s. reflexivity. Qed.

Lemma selected_on_sample (w : World Task.t) :
  project_selected_in (server_on_sample w) sample_board "/p".
Proof. split; [reflexivity|]. split; [reflexivity|discriminate]. Qed.

Ltac route_selected Hsel :=
  unfold handleRequest, try_catch;
  rewrite (with_project_selected _ _ _ _ Hsel);
  unfold parseBody; unfold_M.

(** X21.  Without a selected project (a server that was just constructed,
    or one whose board or project path is unset) every route on the board,
    the config routes and the fallback answer 400 with the error
    [No project selected. POST to /api/project/select first.], before the
    body is read, and change nothing. *)
Theorem board_routes_need_a_selected_project s :
  WebServer.board (this s) = None \/
  WebServer.projectPath (this s) = None \/
  WebServer.projectPath (this s) = Some "" ->
  handleRequest GET_board s = (Return no_project_selected, s) /\
  handleRequest GET_stats s = (Return no_project_selected, s) /\
  (forall column, handleRequest (GET_tasks column) s = (Return no_project_selected, s)) /\
  (forall body, handleRequest (POST_tasks body) s = (Return no_project_selected, s)) /\
  (forall taskId, handleRequest (GET_task taskId) s = (Return no_project_selected, s)) /\
  (forall taskId body,
     handleRequest (PUT_task taskId body) s = (Return no_project_selected, s)) /\
  (forall taskId, handleRequest (DELETE_task taskId) s = (Return no_project_selected, s)) /\
  (forall taskId body,
     handleRequest (POST_task_move taskId body) s = (Return no_project_selected, s)) /\
  handleRequest GET_config s = (Return no_project_selected, s) /\
  (forall body, handleRequest (PUT_config body) s = (Return no_project_selected, s)) /\
  handleRequest not_found s = (Return no_project_selected, s).
Proof.
  intros H.
  assert (WebServer.board (this s) = None \/ truthy (WebServer.projectPath (this s)) = None) as H'
    by (destruct H as [H|H]; [left; exact H|right; apply truthy_None, H]).
  unfold handleRequest, GET_board, GET_stats, GET_tasks, POST_tasks, GET_task, PUT_task,
    DELETE_task, POST_task_move, GET_config, PUT_config, not_found, try_catch.
  repeat split; intros; rewrite (with_project_none _ _ H'); reflexivity.
Qed.

(** The theorem on a server that was just constructed. *)
Lemma board_routes_need_a_selected_project_witness :
  WebServer.board (this (new_server sample_world)) = None /\
  handleRequest (GET_tasks None) (new_server sample_world)
    = (Return no_project_selected, new_server sample_world) /\
  handleRequest (POST_tasks Malformed) (new_server sample_world)
    = (Return no_project_selected, new_server sample_world).
Proof.
  assert (WebServer.board (this (new_server sample_world)) = None) as Hnone by reflexivity.
  split; [exact Hnone|].
  destruct (board_routes_need_a_selected_project (new_server sample_world) (or_introl Hnone))
    as (_ & _ & Htasks & Hpost & _).
  split; [exact (Htasks None)|exact (Hpost Malformed)].
Defined.

(** X22.  [POST /api/tasks] stores no task without a title.  With a project
    selected, a body whose title is missing or empty is answered 400
    [Title required] and changes nothing; a body that is no JSON is answered
    500; a body with a non-empty title is answered 201 with the task created
    from it, whose title is that title, appended to the store. *)
Theorem POST_tasks_requires_title s board projectPath (body : NewTaskBody.t) :
  project_selected_in s board projectPath ->
  (NewTaskBody.title body = None \/ NewTaskBody.title body = Some "" ->
     handleRequest (POST_tasks (Parsed body)) s
       = (Return {| status := 400; data := error "Title required" |}, s)) /\
  (forall title ts w1,
     NewTaskBody.title body = Some title -> title <> "" ->
     Storage.loadTasks (KanbanBoard.projectPath board) (world s) = (Return ts, w1) ->
     exists task w2,
       handleRequest (POST_tasks (Parsed body)) s
         = (Return {| status := 201; data := one_task task |}, with_world w2 s) /\
       Task.title task = Some title /\
       Task.description task = NewTaskBody.description body /\
       Task.column task = default backlog (NewTaskBody.column body) /\
       Task.priority task = Some (default medium (NewTaskBody.priority body)) /\
       Storage.loadTasks (KanbanBoard.projectPath board) w2 = (Return (ts ++ [task]), w2)) /\
  handleRequest (POST_tasks Malformed) s = (Return internal_error, s).
Proof.
  intros Hsel. split; [|split].
  - intros Hfalsy. unfold POST_tasks. route_selected Hsel.
    rewrite (truthy_None _ Hfalsy). reflexivity.
  - intros title ts w1 Htitle Hne Hload. unfold POST_tasks. route_selected Hsel.
    rewrite Htitle, (truthy_Some _ Hne).
    match goal with |- context [KanbanBoard.createTask board ?input] =>
      destruct (createTask_appends board input (world s) w1 ts Hload)
        as (w2 & Hcreate & Hload2 & _);
      rewrite (on_world_Return _ _ _ _ Hcreate)
    end.
    eexists. exists w2. split; [reflexivity|]. repeat (split; [reflexivity|]). exact Hload2.
  - unfold POST_tasks. route_selected Hsel. reflexivity.
Qed.

(** The theorem on a server on the sample project: the empty title is
    refused, a title is stored. *)
Lemma POST_tasks_requires_title_witness :
  project_selected_in (server_on_sample sample_world) sample_board "/p" /\
  Storage.loadTasks "/p" sample_world = (Return [login_task; docs_task], sample_world) /\
  handleRequest (POST_tasks (Parsed (titled (Some "")))) (server_on_sample sample_world)
    = (Return {| status := 400; data := error "Title required" |},
       server_on_sample sample_world) /\
  exists task w2,
    handleRequest (POST_tasks (Parsed (titled (Some "Ship it")))) (server_on_sample sample_world)
      = (Return {| status := 201; data := one_task task |}, server_on_sample w2) /\
    Task.title task = Some "Ship it" /\
    Task.column task = todo /\
    Storage.loadTasks "/p" w2 = (Return [login_task; docs_task; task], w2).
Proof.
  assert (Storage.loadTasks "/p" sample_world
          = (Return [login_task; docs_task], sample_world)) as Hload
    by (vm_compute; reflexivity).
  split; [exact (selected_on_sample sample_world)|]. split; [exact Hload|].
  pose proof (POST_tasks_requires_title (server_on_sample sample_world) sample_board "/p"
                (titled (Some "")) (selected_on_sample sample_world)) as [Hempty _].
  pose proof (POST_tasks_requires_title (server_on_sample sample_world) sample_board "/p"
                (titled (Some "Ship it")) (selected_on_sample sample_world)) as [_ [Htitled _]].
  split; [exact (Hempty (or_intror eq_refl))|].
  destruct (Htitled "Ship it" _ _ eq_refl ltac:(discriminate) Hload)
    as (task & w2 & Hpost & Ht & _ & Hc & _ & Hload2).
  exists task, w2. split; [exact Hpost|]. split; [exact Ht|]. split; [exact Hc|exact Hload2].
Defined.

(** X23.  [POST /api/tasks/:id/move], with a project selected.  A body
    without a column, or with an empty one, is answered 400
    [Column required].  A column that is none of the four names is answered
    500 [Internal server error]: the error [moveTask] throws is not turned into
    a 400, and nothing is changed.  The name of a column is answered 404
    [Task not found] under an unknown id, and otherwise 200 with the task,
    now in that column and stored in the place of the old one. *)
Theorem POST_task_move_answers s board projectPath taskId :
  project_selected_in s board projectPath ->
  (forall column, column = None \/ column = Some "" ->
     handleRequest (POST_task_move taskId (Parsed column)) s
       = (Return {| status := 400; data := error "Column required" |}, s)) /\
  (forall column, column <> "" -> column ∉ map column_name COLUMNS ->
     handleRequest (POST_task_move taskId (Parsed (Some column))) s = (Return internal_error, s)) /\
  (forall c ts w1,
     Storage.loadTasks (KanbanBoard.projectPath board) (world s) = (Return ts, w1) ->
     (taskId ∉ ids ts ->
        handleRequest (POST_task_move taskId (Parsed (Some (column_name c)))) s
          = (Return {| status := 404; data := error "Task not found" |}, with_world w1 s)) /\
     (forall i old, first_with_id ts taskId i old ->
        exists moved w2,
          handleRequest (POST_task_move taskId (Parsed (Some (column_name c)))) s
            = (Return {| status := 200; data := one_task moved |}, with_world w2 s) /\
          moved = moved_to c (clock w1 (clockReads w1)) old /\
          Storage.loadTasks (KanbanBoard.projectPath board) w2
            = (Return (<[i := moved]> ts), w2))).
Proof.
  intros Hsel. split; [|split].
  - intros column Hfalsy. unfold POST_task_move. route_selected Hsel.
    rewrite (truthy_None _ Hfalsy). reflexivity.
  - intros column Hne Hnot. unfold POST_task_move. route_selected Hsel.
    rewrite (truthy_Some _ Hne).
    unfold on_world, KanbanBoard.moveTask. rewrite (find_column_unknown _ Hnot).
    unfold throw. rewrite State_eta. reflexivity.
  - intros c ts w1 Hload.
    assert (column_name c <> "") as Hne by (destruct c; discriminate).
    split.
    + intros Hid. unfold POST_task_move. route_selected Hsel.
      rewrite (truthy_Some _ Hne).
      rewrite (on_world_Return _ _ _ _ (moveTask_unknown _ _ c _ _ _ Hload Hid)).
      reflexivity.
    + intros i old Hfirst.
      destruct (moveTask_found board taskId c (world s) w1 ts i old Hload Hfirst)
        as (w2 & Hmove & Hload2).
      eexists. exists w2. split; [|split; [reflexivity|exact Hload2]].
      unfold POST_task_move. route_selected Hsel.
      rewrite (truthy_Some _ Hne), (on_world_Return _ _ _ _ Hmove). reflexivity.
Qed.

(** The theorem on a server on the sample project: the column [archive]
    is answered 500, the column [review] moves the first task. *)
Lemma POST_task_move_answers_witness :
  project_selected_in (server_on_sample sample_world) sample_board "/p" /\
  Storage.loadTasks "/p" sample_world = (Return [login_task; docs_task], sample_world) /\
  ("archive" ∉ map column_name COLUMNS) /\
  first_with_id [login_task; docs_task] "7d3c1a52-0001" 0 login_task /\
  handleRequest (POST_task_move "7d3c1a52-0001" (Parsed (Some "archive")))
      (server_on_sample sample_world)
    = (Return internal_error, server_on_sample sample_world) /\
  exists moved w2,
    handleRequest (POST_task_move "7d3c1a52-0001" (Parsed (Some "review")))
        (server_on_sample sample_world)
      = (Return {| status := 200; data := one_task moved |}, server_on_sample w2) /\
    Task.column moved = review /\
    Storage.loadTasks "/p" w2 = (Return [moved; docs_task], w2).
Proof.
  assert (Storage.loadTasks "/p" sample_world
          = (Return [login_task; docs_task], sample_world)) as Hload
    by (vm_compute; reflexivity).
  assert ("archive" ∉ map column_name COLUMNS) as Hnot
    by (apply (bool_decide_unpack _); vm_compute; exact I).
  split; [exact (selected_on_sample sample_world)|]. split; [exact Hload|].
  split; [exact Hnot|]. split; [exact first_with_id_login|].
  destruct (POST_task_move_answers (server_on_sample sample_world) sample_board "/p"
              "7d3c1a52-0001" (selected_on_sample sample_world)) as (_ & Hbad & Hgood).
  split; [exact (Hbad "archive" ltac:(discriminate) Hnot)|].
  destruct (Hgood review _ _ Hload) as [_ Hfound].
  destruct (Hfound 0 login_task first_with_id_login) as (moved & w2 & Hpost & Hmoved & Hload2).
  exists moved, w2. split; [exact Hpost|]. split; [rewrite Hmoved; reflexivity|exact Hload2].
Defined.

(** X24.  [GET], [PUT] and [DELETE /api/tasks/:id], with a project selected
    and a store that loads.  Under an id that is not in the store all three
    answer 404 [Task not found] and leave the store as the load left it.
    Under an id of the store, [GET] answers 200 with the first task carrying
    the id, [PUT] answers 200 with the updated task, stored in its place, and
    [DELETE] answers 200 and removes that task.  [PUT] checks nothing about
    the title: the title of the updated task is the body's whenever the body
    has the key, also when it is empty. *)
Theorem task_routes_answer_404_for_unknown_id s board projectPath taskId ts w1 :
  project_selected_in s board projectPath ->
  Storage.loadTasks (KanbanBoard.projectPath board) (world s) = (Return ts, w1) ->
  (taskId ∉ ids ts ->
     handleRequest (GET_task taskId) s
       = (Return {| status := 404; data := error "Task not found" |}, with_world w1 s) /\
     (forall updates,
        handleRequest (PUT_task taskId (Parsed updates)) s
          = (Return {| status := 404; data := error "Task not found" |}, with_world w1 s)) /\
     handleRequest (DELETE_task taskId) s
       = (Return {| status := 404; data := error "Task not found" |}, with_world w1 s)) /\
  (forall i old, first_with_id ts taskId i old ->
     handleRequest (GET_task taskId) s
       = (Return {| status := 200; data := one_task old |}, with_world w1 s) /\
     (forall updates, exists new w2,
        handleRequest (PUT_task taskId (Parsed updates)) s
          = (Return {| status := 200; data := one_task new |}, with_world w2 s) /\
        Task.title new =
          match PartialTask.title updates with
          | Absent => Task.title old
          | Present title => title
          end /\
        Storage.loadTasks (KanbanBoard.projectPath board) w2 = (Return (<[i := new]> ts), w2)) /\
     (exists w2,
        handleRequest (DELETE_task taskId) s
          = (Return {| status := 200; data := success |}, with_world w2 s) /\
        Storage.loadTasks (KanbanBoard.projectPath board) w2 = (Return (delete i ts), w2))).
Proof.
  intros Hsel Hload. split.
  - intros Hid. split; [|split].
    + unfold GET_task. route_selected Hsel.
      erewrite on_world_Return
        by (rewrite (getTask_Return _ _ _ _ _ Hload), (find_unknown _ _ Hid); reflexivity).
      reflexivity.
    + intros updates. unfold PUT_task. route_selected Hsel.
      erewrite on_world_Return
        by (apply (Storage_updateTask_unknown _ _ _ _ _ _ Hload Hid)).
      reflexivity.
    + unfold DELETE_task. route_selected Hsel.
      erewrite on_world_Return by (apply (Storage_deleteTask_unknown _ _ _ _ _ Hload Hid)).
      reflexivity.
  - intros i old Hfirst. split; [|split].
    + unfold GET_task. route_selected Hsel.
      erewrite on_world_Return
        by (rewrite (getTask_Return _ _ _ _ _ Hload), (find_first_with_id _ _ _ _ Hfirst);
            reflexivity).
      reflexivity.
    + intros updates.
      destruct (Storage_updateTask_found _ taskId updates
                  _ _ _ _ _ Hload Hfirst) as (w2 & Hupd & Hload2).
      eexists. exists w2. split.
      * unfold PUT_task. route_selected Hsel.
        erewrite on_world_Return by exact Hupd. reflexivity.
      * split; [reflexivity|exact Hload2].
    + destruct (Storage_deleteTask_found _ _ _ _ _ _ _ Hload Hfirst) as (w2 & Hdel & Hload2).
      exists w2. split; [|exact Hload2].
      unfold DELETE_task. route_selected Hsel.
      erewrite on_world_Return by exact Hdel. reflexivity.
Qed.

(** The theorem on a server on the sample project. *)
Lemma task_routes_answer_404_for_unknown_id_witness :
  project_selected_in (server_on_sample sample_world) sample_board "/p" /\
  Storage.loadTasks "/p" sample_world = (Return [login_task; docs_task], sample_world) /\
  ("no-such-id" ∉ ids [login_task; docs_task]) /\
  first_with_id [login_task; docs_task] "7d3c1a52-0002" 1 docs_task /\
  handleRequest (DELETE_task "no-such-id") (server_on_sample sample_world)
    = (Return {| status := 404; data := error "Task not found" |},
       server_on_sample sample_world) /\
  handleRequest (GET_task "7d3c1a52-0002") (server_on_sample sample_world)
    = (Return {| status := 200; data := one_task docs_task |}, server_on_sample sample_world) /\
  (exists new w2,
     handleRequest (PUT_task "7d3c1a52-0002" (Parsed untitle)) (server_on_sample sample_world)
       = (Return {| status := 200; data := one_task new |}, server_on_sample w2) /\
     Task.title new = Some "") /\
  exists w2,
    handleRequest (DELETE_task "7d3c1a52-0002") (server_on_sample sample_world)
      = (Return {| status := 200; data := success |}, server_on_sample w2) /\
    Storage.loadTasks "/p" w2 = (Return [login_task], w2).
Proof.
  assert (Storage.loadTasks "/p" sample_world
          = (Return [login_task; docs_task], sample_world)) as Hload
    by (vm_compute; reflexivity).
  assert ("no-such-id" ∉ ids [login_task; docs_task]) as Hnot
    by (apply (bool_decide_unpack _); vm_compute; exact I).
  split; [exact (selected_on_sample sample_world)|]. split; [exact Hload|].
  split; [exact Hnot|]. split; [exact first_with_id_docs|].
  pose proof (task_routes_answer_404_for_unknown_id (server_on_sample sample_world) sample_board
                "/p" "no-such-id" _ _ (selected_on_sample sample_world) Hload) as [Hunknown _].
  pose proof (task_routes_answer_404_for_unknown_id (server_on_sample sample_world) sample_board
                "/p" "7d3c1a52-0002" _ _ (selected_on_sample sample_world) Hload) as [_ Hknown].
  split; [exact (proj2 (proj2 (Hunknown Hnot)))|].
  destruct (Hknown 1 docs_task first_with_id_docs) as (Hget & Hput & Hdel).
  split; [exact Hget|]. split; [|exact Hdel].
  destruct (Hput untitle) as (new & w2 & Hnew & Htitle & _).
  exists new, w2. split; [exact Hnew|exact Htitle].
Defined.

(** X25.  When the store cannot be loaded, every route that reads or writes
    tasks answers 500 [Internal server error]: the error of the load, which
    names the broken file, does not reach the client, and no task file has
    been written. *)
Theorem unreadable_store_answers_500 s board projectPath e w1 :
  project_selected_in s board projectPath ->
  Storage.loadTasks (KanbanBoard.projectPath board) (world s) = (Throw e, w1) ->
  tasksFiles w1 = tasksFiles (world s) /\
  handleRequest GET_board s = (Return internal_error, with_world w1 s) /\
  handleRequest GET_stats s = (Return internal_error, with_world w1 s) /\
  (forall column, handleRequest (GET_tasks column) s = (Return internal_error, with_world w1 s)) /\
  (forall taskId, handleRequest (GET_task taskId) s = (Return internal_error, with_world w1 s)) /\
  (forall taskId updates,
     handleRequest (PUT_task taskId (Parsed updates)) s
       = (Return internal_error, with_world w1 s)) /\
  (forall taskId, handleRequest (DELETE_task taskId) s = (Return internal_error, with_world w1 s)) /\
  (forall taskId c,
     handleRequest (POST_task_move taskId (Parsed (Some (column_name c)))) s
       = (Return internal_error, with_world w1 s)) /\
  (forall body title, NewTaskBody.title body = Some title -> title <> "" ->
     exists w2,
       handleRequest (POST_tasks (Parsed body)) s = (Return internal_error, with_world w2 s) /\
       tasksFiles w2 = tasksFiles (world s)).
Proof.
  intros Hsel Hload. destruct (loadTasks_Throw _ _ _ _ Hload) as (Htf & Hsame).
  split; [exact Htf|].
  assert (forall taskId updates,
            Storage.updateTask (KanbanBoard.projectPath board) taskId updates (world s)
              = (Throw e, w1))
    as Hupd by (intros; unfold Storage.updateTask; unfold_M; rewrite Hload; reflexivity).
  split; [|split; [|split; [|split; [|split; [|split; [|split]]]]]].
  - unfold GET_board. route_selected Hsel.
    erewrite on_world_Throw
      by (unfold KanbanBoard.getState; unfold_M; rewrite Hload; reflexivity).
    reflexivity.
  - unfold GET_stats. route_selected Hsel.
    erewrite on_world_Throw
      by (unfold KanbanBoard.getStats; unfold_M; rewrite Hload; reflexivity).
    reflexivity.
  - intros column. unfold GET_tasks. route_selected Hsel.
    erewrite on_world_Throw
      by (unfold KanbanBoard.getTasks; unfold_M; rewrite Hload; reflexivity).
    reflexivity.
  - intros taskId. unfold GET_task. route_selected Hsel.
    erewrite on_world_Throw
      by (unfold KanbanBoard.getTask, Storage.findTask; unfold_M; rewrite Hload; reflexivity).
    reflexivity.
  - intros taskId updates. unfold PUT_task. route_selected Hsel.
    erewrite on_world_Throw by (apply Hupd). reflexivity.
  - intros taskId. unfold DELETE_task. route_selected Hsel.
    erewrite on_world_Throw
      by (unfold KanbanBoard.deleteTask, Storage.deleteTask; unfold_M; rewrite Hload;
          reflexivity).
    reflexivity.
  - intros taskId c. unfold POST_task_move. route_selected Hsel.
    rewrite truthy_Some by (destruct c; discriminate).
    erewrite on_world_Throw
      by (unfold KanbanBoard.moveTask; rewrite find_column_name; apply Hupd).
    reflexivity.
  - intros body title Htitle Hne.
    assert (exists w2, forall input,
              KanbanBoard.createTask board input (world s) = (Throw e, w2) /\
              tasksFiles w2 = tasksFiles (world s)) as (w2 & Hcreate).
    { unfold KanbanBoard.createTask, Date_toISOString, uuidv4. unfold_M.
      match goal with |- context [Storage.loadTasks _ ?v] =>
        destruct (Hsame v (conj eq_refl eq_refl)) as (v1 & Hload' & Htf')
      end.
      exists v1. intros input. rewrite Hload'. split; [reflexivity|exact Htf']. }
    exists w2. split; [|apply (Hcreate empty_title_input)].
    unfold POST_tasks. route_selected Hsel. rewrite Htitle, (truthy_Some _ Hne).
    erewrite on_world_Throw by (apply Hcreate). reflexivity.
Qed.

(** The theorem on a server on the sample project with its task file cut
    off. *)
Lemma unreadable_store_answers_500_witness :
  project_selected_in (server_on_sample world_with_corrupt_tasks) sample_board "/p" /\
  Storage.loadTasks "/p" world_with_corrupt_tasks
    = (Throw (new_Error "Invalid JSON in tasks file: /p/tasks.json"), world_with_corrupt_tasks) /\
  handleRequest GET_board (server_on_sample world_with_corrupt_tasks)
    = (Return internal_error, server_on_sample world_with_corrupt_tasks) /\
  handleRequest (DELETE_task "7d3c1a52-0001") (server_on_sample world_with_corrupt_tasks)
    = (Return internal_error, server_on_sample world_with_corrupt_tasks).
Proof.
  assert (Storage.loadTasks "/p" world_with_corrupt_tasks
          = (Throw (new_Error "Invalid JSON in tasks file: /p/tasks.json"),
             world_with_corrupt_tasks)) as Hload
    by (vm_compute; reflexivity).
  split; [exact (selected_on_sample world_with_corrupt_tasks)|]. split; [exact Hload|].
  destruct (unreadable_store_answers_500 (server_on_sample world_with_corrupt_tasks)
              sample_board "/p" _ _ (selected_on_sample world_with_corrupt_tasks) Hload)
    as (_ & Hboard & _ & _ & _ & _ & Hdel & _).
  split; [exact Hboard|exact (Hdel "7d3c1a52-0001")].
Defined.

(** X26.  [PUT /api/config] merges the body over the loaded config and
    saves the result: each of [boardName], [tasksFile] and [createdAt] is the
    body's where the body has the key and the loaded config's where it has
    not, so that, unlike through [updateConfig], [createdAt] can be replaced.
    The answer is 200 with the merged config; the state the route leaves is
    the one [saveConfig] leaves when it is given the merged config after the
    load, and no task file is touched. *)
Theorem PUT_config_merges_body_over_config s board projectPath (body : StoredConfig.t) config w1 :
  project_selected_in s board projectPath ->
  Config.loadConfig projectPath (world s) = (Return config, w1) ->
  exists updated w2,
    handleRequest (PUT_config (Parsed body)) s
      = (Return {| status := 200; data := board_config updated |}, with_world w2 s) /\
    BoardConfig.boardName updated
      = default (BoardConfig.boardName config) (StoredConfig.boardName body) /\
    BoardConfig.tasksFile updated
      = default (BoardConfig.tasksFile config) (StoredConfig.tasksFile body) /\
    BoardConfig.createdAt updated
      = match StoredConfig.createdAt body with
        | Some createdAt => Some createdAt
        | None => BoardConfig.createdAt config
        end /\
    tasksFiles w2 = tasksFiles (world s) /\
    Config.saveConfig projectPath updated w1 = (Return tt, w2).
Proof.
  intros Hsel Hcfg.
  destruct (loadConfig_Return _ _ _ _ Hcfg) as (_ & _ & _ & Htf & _).
  eexists. eexists. split.
  - unfold handleRequest, try_catch, PUT_config.
    rewrite (with_project_selected _ _ _ _ Hsel). unfold parseBody. unfold_M.
    rewrite (on_world_Return _ _ _ _ Hcfg). unfold on_world. simpl. reflexivity.
  - split; [reflexivity|]. split; [reflexivity|]. split; [reflexivity|].
    simpl. split; [exact Htf|reflexivity].
Qed.

(** The theorem on a server on the sample project: a body that gives
    [createdAt] replaces it. *)
Lemma PUT_config_merges_body_over_config_witness :
  project_selected_in (server_on_sample sample_world) sample_board "/p" /\
  Config.loadConfig "/p" sample_world
    = (Return {| BoardConfig.boardName := "Kanban Board";
                 BoardConfig.tasksFile := "tasks.json";
                 BoardConfig.createdAt := Some "2026-02-27T09:00:00.000Z" |}, sample_world) /\
  exists updated w2,
    handleRequest
        (PUT_config (Parsed {| StoredConfig.boardName := None;
                               StoredConfig.tasksFile := None;
                               StoredConfig.createdAt := Some "1999-01-01T00:00:00.000Z" |}))
        (server_on_sample sample_world)
      = (Return {| status := 200; data := board_config updated |}, server_on_sample w2) /\
    BoardConfig.boardName updated = "Kanban Board" /\
    BoardConfig.createdAt updated = Some "1999-01-01T00:00:00.000Z".
Proof.
  assert (Config.loadConfig "/p" sample_world
          = (Return {| BoardConfig.boardName := "Kanban Board";
                       BoardConfig.tasksFile := "tasks.json";
                       BoardConfig.createdAt := Some "2026-02-27T09:00:00.000Z" |},
             sample_world)) as Hcfg
    by (vm_compute; reflexivity).
  split; [exact (selected_on_sample sample_world)|]. split; [exact Hcfg|].
  destruct (PUT_config_merges_body_over_config (server_on_sample sample_world) sample_board "/p"
              {| StoredConfig.boardName := None;
                 StoredConfig.tasksFile := None;
                 StoredConfig.createdAt := Some "1999-01-01T00:00:00.000Z" |}
              _ _ (selected_on_sample sample_world) Hcfg)
    as (updated & w2 & Hput & Hb & _ & Hc & _).
  exists updated, w2. split; [exact Hput|]. split; [exact Hb|exact Hc].
Defined.

End Routes.

Section SelectProject.
Variable path_resolve : string -> string.
Implicit Types (s : State) (path : string).

Lemma setProject_Return s path config w1 :
  Config.loadConfig (path_resolve path) (world s) = (Return config, w1) ->
  setProject path_resolve path s =
    (Return tt,
     mkState {| projectPath := Some (path_resolve path);
                board := Some {| KanbanBoard.projectPath := path_resolve path |} |}
             w1
             (snd (GlobalConfig.setLastProjectPath (path_resolve path) (home s)))).
Proof.
  intros Hcfg. unfold setProject, on_world, on_home. unfold_M. simpl.
  rewrite Hcfg. simpl. rewrite setLastProjectPath_eq. reflexivity.
Qed.

Lemma setProject_Throw s path e w1 :
  Config.loadConfig (path_resolve path) (world s) = (Throw e, w1) ->
  setProject path_resolve path s =
    (Throw e,
     mkState {| projectPath := Some (path_resolve path); board := board (this s) |}
             w1 (home s)).
Proof.
  intros Hcfg. unfold setProject, on_world, on_home. unfold_M. simpl.
  rewrite Hcfg. reflexivity.
Qed.

(** X27.  [POST /api/project/select] with a path whose config loads (it is
    created when the directory is fresh) answers 200 with the resolved path
    and the config.  Afterwards the server serves a board on that path, the
    registry's last project is that path and its recent list begins with it,
    and [GET /api/project/current] and [GET /api/config] answer the same
    config. *)
Theorem POST_project_select_registers_project s path config w1 :
  path <> "" ->
  path_resolve path <> "" ->
  Config.loadConfig (path_resolve path) (world s) = (Return config, w1) ->
  let project := path_resolve path in
  exists s',
    handleRequest (POST_project_select path_resolve (Parsed (Some path))) s
      = (Return {| status := 200; data := project_selected project config |}, s') /\
    this s' = {| projectPath := Some project;
                 board := Some {| KanbanBoard.projectPath := project |} |} /\
    world s' = w1 /\
    GlobalConfig.getLastProjectPath (home s') = (Return (Some project), home s') /\
    (exists rest,
       handleRequest GET_projects s'
         = (Return {| status := 200; data := project_list (Some project) (project :: rest) |},
            s')) /\
    handleRequest GET_project_current s'
      = (Return {| status := 200; data := project_current project config |}, s') /\
    handleRequest GET_config s'
      = (Return {| status := 200; data := board_config config |}, s').
Proof.
  intros Hpath Hres Hcfg project.
  pose proof (loadConfig_again _ _ _ _ Hcfg) as Hcfg1.
  eexists. split.
  - unfold handleRequest, try_catch, POST_project_select, parseBody. unfold_M.
    rewrite (truthy_Some _ Hpath), (setProject_Return _ _ _ _ Hcfg).
    unfold on_world. simpl. rewrite Hcfg1. reflexivity.
  - simpl. split; [reflexivity|]. split; [reflexivity|]. rewrite setLastProjectPath_eq. simpl.
    split; [reflexivity|]. split; [|split].
    + eexists. unfold handleRequest, try_catch, GET_projects, on_home. unfold_M. simpl.
      reflexivity.
    + unfold handleRequest, try_catch, GET_project_current, on_world. unfold_M.
      cbn [this projectPath world home]. subst project.
      rewrite (truthy_Some _ Hres). cbn [this projectPath world home].
      rewrite Hcfg1. reflexivity.
    + unfold handleRequest, try_catch, GET_config.
      rewrite (with_project_selected _ {| KanbanBoard.projectPath := project |} project)
        by (repeat split; exact Hres).
      unfold on_world. unfold_M. cbn [this projectPath world home]. subst project.
      rewrite Hcfg1. reflexivity.
Qed.

(** X28.  [POST /api/project/select] with a path whose config file does not
    parse answers 500, yet it has already changed the server: the project path
    is the new one while the board is still the one selected before, and the
    registry is untouched.  From then on [GET /api/project/current] answers
    500, [GET /api/projects] reports the new path as current, and the task
    routes keep serving the tasks of the project selected before. *)
Theorem POST_project_select_unparsable_config s path why :
  path <> "" ->
  path_resolve path <> "" ->
  configFiles (world s) !! Config.getConfigPath (path_resolve path) = Some (YamlInvalid why) ->
  let s' := mkState {| projectPath := Some (path_resolve path); board := board (this s) |}
                    (world s) (home s) in
  handleRequest (POST_project_select path_resolve (Parsed (Some path))) s
    = (Return internal_error, s') /\
  handleRequest GET_project_current s' = (Return internal_error, s') /\
  (forall recent, GlobalConfig.getRecentProjects (home s) = (Return recent, home s) ->
     handleRequest GET_projects s'
       = (Return {| status := 200; data := project_list (Some (path_resolve path)) recent |},
          s')) /\
  (forall old column tasks w1,
     board (this s) = Some old ->
     KanbanBoard.getTasks old column (world s) = (Return tasks, w1) ->
     handleRequest (GET_tasks column) s'
       = (Return {| status := 200; data := task_list tasks |}, with_world w1 s')).
Proof.
  intros Hpath Hres Hc s'.
  assert (Config.loadConfig (path_resolve path) (world s)
          = (Throw (new_Error ("Failed to parse config file: "
                               +:+ Config.getConfigPath (path_resolve path))), world s)) as Hcfg
    by (rewrite loadConfig_eq, Hc; reflexivity).
  split; [|split; [|split]].
  - unfold handleRequest, try_catch, POST_project_select, parseBody. unfold_M.
    rewrite (truthy_Some _ Hpath), (setProject_Throw _ _ _ _ Hcfg). reflexivity.
  - unfold handleRequest, try_catch, GET_project_current, on_world. unfold_M.
    subst s'. cbn [this projectPath world home].
    rewrite (truthy_Some _ Hres). cbn [this projectPath world home].
    rewrite Hcfg. reflexivity.
  - intros recent Hrecent. unfold handleRequest, try_catch, GET_projects, on_home. unfold_M.
    simpl. rewrite Hrecent. reflexivity.
  - intros old column tasks w1 Hold Hget. unfold handleRequest, try_catch, GET_tasks.
    rewrite (with_project_selected s' old (path_resolve path))
      by (repeat split; [exact Hold|exact Hres]).
    unfold_M. erewrite on_world_Return by exact Hget. reflexivity.
Qed.

End SelectProject.

(** The theorems on a server on the sample project, asked for the fresh
    directory [/r] and for the project [/q] whose config does not parse. *)

Lemma POST_project_select_registers_project_witness :
  exists config w1 s',
    Config.loadConfig "/r" sample_world = (Return config, w1) /\
    handleRequest (POST_project_select resolve_absolute (Parsed (Some "/r")))
        (server_on_sample sample_world)
      = (Return {| status := 200; data := project_selected "/r" config |}, s') /\
    this s' = {| projectPath := Some "/r";
                 board := Some {| KanbanBoard.projectPath := "/r" |} |} /\
    GlobalConfig.getLastProjectPath (home s') = (Return (Some "/r"), home s') /\
    handleRequest GET_project_current s'
      = (Return {| status := 200; data := project_current "/r" config |}, s').
Proof.
  assert (Config.loadConfig "/r" sample_world
          = (Return (config_created sample_world), snd (Config.loadConfig "/r" sample_world)))
    as Hcfg by (vm_compute; reflexivity).
  destruct (POST_project_select_registers_project resolve_absolute
              (server_on_sample sample_world) "/r" _ _
              ltac:(discriminate) ltac:(discriminate) Hcfg)
    as (s' & Hpost & Hthis & _ & Hlast & _ & Hcurrent & _).
  exists (config_created sample_world), (snd (Config.loadConfig "/r" sample_world)), s'.
  split; [exact Hcfg|]. split; [exact Hpost|]. split; [exact Hthis|].
  split; [exact Hlast|exact Hcurrent].
Defined.

Lemma POST_project_select_unparsable_config_witness :
  configFiles world_with_broken_project !! Config.getConfigPath "/q"
    = Some (YamlInvalid "bad indentation of a mapping entry") /\
  KanbanBoard.getTasks sample_board None world_with_broken_project
    = (Return [login_task; docs_task], world_with_broken_project) /\
  exists s',
    handleRequest (POST_project_select resolve_absolute (Parsed (Some "/q")))
        (server_on_sample world_with_broken_project)
      = (Return internal_error, s') /\
    projectPath (this s') = Some "/q" /\
    handleRequest GET_project_current s' = (Return internal_error, s') /\
    handleRequest (GET_tasks None) s'
      = (Return {| status := 200; data := task_list [login_task; docs_task] |}, s').
Proof.
  assert (configFiles world_with_broken_project !! Config.getConfigPath "/q"
          = Some (YamlInvalid "bad indentation of a mapping entry")) as Hc
    by (vm_compute; reflexivity).
  assert (KanbanBoard.getTasks sample_board None world_with_broken_project
          = (Return [login_task; docs_task], world_with_broken_project)) as Hget
    by (vm_compute; reflexivity).
  split; [exact Hc|]. split; [exact Hget|].
  destruct (POST_project_select_unparsable_config resolve_absolute
              (server_on_sample world_with_broken_project) "/q" _
              ltac:(discriminate) ltac:(discriminate) Hc)
    as (Hpost & Hcurrent & _ & Htasks).
  eexists. split; [exact Hpost|]. split; [reflexivity|]. split; [exact Hcurrent|].
  exact (Htasks sample_board None _ _ eq_refl Hget).
Defined.

(** ** Starting the servers *)

Section Modes.
Variable path_resolve : string -> string.

(** X29.  Which project the MCP server serves.  [runMcpMode] takes the
    project path from the environment variable when it is set and not empty,
    else from the registry's last project when there is one, else the working
    directory; a registry file that does not parse counts as no last
    project.  When the config of that project loads (it is created when the
    directory is fresh) the tools get a board on the resolved path; when it
    does not parse, [runMcpMode] fails with the config error.  In no case is
    the registry written: MCP mode does not record the project it serves. *)
Theorem runMcpMode_serves_env_then_last_then_cwd
    (VIBAN_PROJECT_PATH : option string) (cwd : string) (s : Index.State) (last : option string) :
  GlobalConfig.getLastProjectPath (Index.home s) = (Return last, Index.home s) ->
  exists chosen,
    (forall p, VIBAN_PROJECT_PATH = Some p -> p <> "" -> chosen = p) /\
    (VIBAN_PROJECT_PATH = None \/ VIBAN_PROJECT_PATH = Some "" ->
       (forall p, last = Some p -> p <> "" -> chosen = p) /\
       (last = None \/ last = Some "" -> chosen = cwd)) /\
    (forall why, Index.home s = Some (YamlInvalid why) -> last = None) /\
    (forall config w1,
       Config.loadConfig (path_resolve chosen) (Index.world s) = (Return config, w1) ->
       Index.runMcpMode path_resolve VIBAN_PROJECT_PATH cwd s
         = (Return {| KanbanBoard.projectPath := path_resolve chosen |},
            Index.mkState w1 (Index.home s))) /\
    (forall why,
       configFiles (Index.world s) !! Config.getConfigPath (path_resolve chosen)
         = Some (YamlInvalid why) ->
       Index.runMcpMode path_resolve VIBAN_PROJECT_PATH cwd s
         = (Throw (new_Error ("Failed to parse config file: "
                              +:+ Config.getConfigPath (path_resolve chosen))), s)).
Proof.
  intros Hlast.
  exists (match WebServer.truthy VIBAN_PROJECT_PATH with
          | Some p => p
          | None => match WebServer.truthy last with Some p => p | None => cwd end
          end).
  split; [|split; [|split; [|split]]].
  - intros p -> Hp. rewrite (truthy_Some _ Hp). reflexivity.
  - intros Henv. rewrite (truthy_None _ Henv). split.
    + intros p -> Hp. rewrite (truthy_Some _ Hp). reflexivity.
    + intros Hl. rewrite (truthy_None _ Hl). reflexivity.
  - intros why Hh. rewrite Hh in Hlast. injection Hlast as <-. reflexivity.
  - intros config w1 Hcfg. unfold Index.runMcpMode, Index.on_home, Index.on_world. unfold_M.
    destruct (WebServer.truthy VIBAN_PROJECT_PATH) as [p|].
    + rewrite Hcfg. destruct s. reflexivity.
    + rewrite Hlast. destruct (WebServer.truthy last) as [p|]; simpl; rewrite Hcfg; reflexivity.
  - intros why Hc.
    match goal with |- context [Config.getConfigPath (path_resolve ?c)] => set (chosen := c) in * end.
    assert (Config.loadConfig (path_resolve chosen) (Index.world s)
            = (Throw (new_Error ("Failed to parse config file: "
                                 +:+ Config.getConfigPath (path_resolve chosen))),
               Index.world s)) as Hcfg
      by (rewrite loadConfig_eq, Hc; reflexivity).
    unfold Index.runMcpMode, Index.on_home, Index.on_world. unfold_M. subst chosen.
    destruct (WebServer.truthy VIBAN_PROJECT_PATH) as [p|].
    + rewrite Hcfg. destruct s. reflexivity.
    + rewrite Hlast. destruct (WebServer.truthy last) as [p|]; simpl; rewrite Hcfg;
        destruct s; reflexivity.
Qed.

(** X30.  How web mode starts.  [runWebMode] constructs the server and, when
    the registry names a last project, puts the server on it.  Without a
    last project the server starts with no project selected and nothing is
    written.  With a last project whose config loads, the server serves a
    board on the resolved path and the registry's last project is that path.
    With a last project whose config file does not parse, [runWebMode] fails
    with the config error and leaves the files and the registry as they
    were, so that the next start fails in the same way. *)
Theorem runWebMode_starts_on_last_project (s : State) (last : option string) :
  GlobalConfig.getLastProjectPath (home s) = (Return last, home s) ->
  (last = None \/ last = Some "" ->
     Index.runWebMode path_resolve s
       = (Return tt, mkState {| projectPath := None; board := None |} (world s) (home s))) /\
  (forall p, last = Some p -> p <> "" ->
     (forall config w1,
        Config.loadConfig (path_resolve p) (world s) = (Return config, w1) ->
        exists s',
          Index.runWebMode path_resolve s = (Return tt, s') /\
          this s' = {| projectPath := Some (path_resolve p);
                       board := Some {| KanbanBoard.projectPath := path_resolve p |} |} /\
          world s' = w1 /\
          GlobalConfig.getLastProjectPath (home s')
            = (Return (Some (path_resolve p)), home s')) /\
     (forall why,
        configFiles (world s) !! Config.getConfigPath (path_resolve p)
          = Some (YamlInvalid why) ->
        exists e s',
          e = new_Error ("Failed to parse config file: "
                         +:+ Config.getConfigPath (path_resolve p)) /\
          Index.runWebMode path_resolve s = (Throw e, s') /\
          world s' = world s /\ home s' = home s /\
          Index.runWebMode path_resolve s' = (Throw e, s'))).
Proof.
  intros Hlast. split.
  - intros Hl. unfold Index.runWebMode, startWebServer, on_home. unfold_M.
    rewrite Hlast, (truthy_None _ Hl). reflexivity.
  - intros p -> Hp. split.
    + intros config w1 Hcfg. eexists. split.
      * unfold Index.runWebMode, startWebServer, on_home. unfold_M.
        rewrite Hlast, (truthy_Some _ Hp). cbn [this world home].
        rewrite truthy_Some by exact Hp.
        match goal with |- context [setProject _ _ ?s0] =>
          rewrite (setProject_Return path_resolve s0 p config w1 Hcfg)
        end.
        reflexivity.
      * cbn [this world home snd]. split; [reflexivity|]. split; [reflexivity|].
        rewrite setLastProjectPath_eq. reflexivity.
    + intros why Hc.
      assert (Config.loadConfig (path_resolve p) (world s)
              = (Throw (new_Error ("Failed to parse config file: "
                                   +:+ Config.getConfigPath (path_resolve p))), world s)) as Hcfg
        by (rewrite loadConfig_eq, Hc; reflexivity).
      assert (forall s0, world s0 = world s -> home s0 = home s ->
                Index.runWebMode path_resolve s0
                = (Throw (new_Error ("Failed to parse config file: "
                                     +:+ Config.getConfigPath (path_resolve p))),
                   mkState {| projectPath := Some (path_resolve p); board := None |}
                           (world s) (home s))) as Hrun.
      { intros s0 Hw Hh. unfold Index.runWebMode, startWebServer, on_home. unfold_M.
        rewrite Hh, Hlast, (truthy_Some _ Hp). cbn [this world home].
        rewrite truthy_Some by exact Hp.
        rewrite Hw. erewrite setProject_Throw by exact Hcfg. reflexivity. }
      eexists. eexists. split; [reflexivity|]. split; [apply Hrun; reflexivity|].
      split; [reflexivity|]. split; [reflexivity|]. apply Hrun; reflexivity.
Qed.

End Modes.

(** The theorems on the sample project, with the working directory [/w]. *)

Lemma runMcpMode_serves_env_then_last_then_cwd_witness :
  GlobalConfig.getLastProjectPath (Some (YamlInvalid "bad indentation"))
    = (Return None, Some (YamlInvalid "bad indentation")) /\
  Config.loadConfig "/p" sample_world
    = (Return {| BoardConfig.boardName := "Kanban Board";
                 BoardConfig.tasksFile := "tasks.json";
                 BoardConfig.createdAt := Some "2026-02-27T09:00:00.000Z" |}, sample_world) /\
  Index.runMcpMode resolve_absolute (Some "/p") "/w"
      (Index.mkState sample_world (Some (YamlInvalid "bad indentation")))
    = (Return sample_board, Index.mkState sample_world (Some (YamlInvalid "bad indentation"))).
Proof.
  assert (GlobalConfig.getLastProjectPath (Some (YamlInvalid "bad indentation"))
          = (Return None, Some (YamlInvalid "bad indentation"))) as Hlast by reflexivity.
  assert (Config.loadConfig "/p" sample_world
          = (Return {| BoardConfig.boardName := "Kanban Board";
                       BoardConfig.tasksFile := "tasks.json";
                       BoardConfig.createdAt := Some "2026-02-27T09:00:00.000Z" |},
             sample_world)) as Hcfg
    by (vm_compute; reflexivity).
  split; [exact Hlast|]. split; [exact Hcfg|].
  destruct (runMcpMode_serves_env_then_last_then_cwd resolve_absolute (Some "/p") "/w"
              (Index.mkState sample_world (Some (YamlInvalid "bad indentation"))) None Hlast)
    as (chosen & Henv & _ & _ & Hrun & _).
  rewrite (Henv "/p" eq_refl ltac:(discriminate)) in Hrun.
  exact (Hrun _ _ Hcfg).
Defined.

Lemma runWebMode_starts_on_last_project_witness :
  GlobalConfig.getLastProjectPath
      (Some (YamlMapping {| GlobalConfig.lastProjectPath := Some "/q";
                            GlobalConfig.recentProjects := Some ["/q"; "/p"] |}))
    = (Return (Some "/q"),
       Some (YamlMapping {| GlobalConfig.lastProjectPath := Some "/q";
                            GlobalConfig.recentProjects := Some ["/q"; "/p"] |})) /\
  configFiles world_with_broken_project !! Config.getConfigPath "/q"
    = Some (YamlInvalid "bad indentation of a mapping entry") /\
  exists s',
    Index.runWebMode resolve_absolute
        (mkState {| projectPath := None; board := None |} world_with_broken_project
           (Some (YamlMapping {| GlobalConfig.lastProjectPath := Some "/q";
                                 GlobalConfig.recentProjects := Some ["/q"; "/p"] |})))
      = (Throw (new_Error "Failed to parse config file: /q/.config-viban.yml"), s') /\
    Index.runWebMode resolve_absolute s'
      = (Throw (new_Error "Failed to parse config file: /q/.config-viban.yml"), s').
Proof.
  assert (GlobalConfig.getLastProjectPath
            (Some (YamlMapping {| GlobalConfig.lastProjectPath := Some "/q";
                                  GlobalConfig.recentProjects := Some ["/q"; "/p"] |}))
          = (Return (Some "/q"),
             Some (YamlMapping {| GlobalConfig.lastProjectPath := Some "/q";
                                  GlobalConfig.recentProjects := Some ["/q"; "/p"] |})))
    as Hlast by reflexivity.
  assert (configFiles world_with_broken_project !! Config.getConfigPath "/q"
          = Some (YamlInvalid "bad indentation of a mapping entry")) as Hc
    by (vm_compute; reflexivity).
  split; [exact Hlast|]. split; [exact Hc|].
  destruct (runWebMode_starts_on_last_project resolve_absolute
              (mkState {| projectPath := None; board := None |} world_with_broken_project
                 (Some (YamlMapping {| GlobalConfig.lastProjectPath := Some "/q";
                                       GlobalConfig.recentProjects := Some ["/q"; "/p"] |})))
              (Some "/q") Hlast) as [_ Hsome].
  destruct (Hsome "/q" eq_refl ltac:(discriminate)) as [_ Hbroken].
  destruct (Hbroken _ Hc) as (e & s' & He & Hrun & _ & _ & Hagain).
  exists s'. rewrite He in Hrun, Hagain. split; [exact Hrun|exact Hagain].
Defined.
